(** * Tuya Cloud to MQTT bridge: a shallow embedding of [tuya_cloud_mqtt_all.py]

    The script has two activities: the polling loop at module level
    (lines 245-392) and the MQTT callback [on_message] (lines 136-226).
    Both are embedded here as programs of one small monad that threads the
    state of the outside world and the module-level variable
    [din_rail_is_on], records the calls made to the collaborators (cloud,
    broker, database, console) as a list of events, and propagates Python
    exceptions to the nearest [try]/[except]. *)

From Stdlib Require Import ZArith String Ascii Strings.Byte List Bool Lia DecimalString.
From Stdlib Require Import PrimFloat SpecFloat FloatOps FloatAxioms.
Import ListNotations.

Local Open Scope string_scope.
Local Open Scope list_scope.

(** ** Python values *)

Module Py.

(** What [json.loads] and the cloud client hand to the script. *)
#[warnings="-register-all"]
Inductive value : Type :=
| VNone
| VBool (b : bool)
| VInt (z : Z)
| VFloat (f : float)
| VStr (s : string)
| VList (l : list value)
| VDict (d : list (string * value)).

(** A [dict] with string keys, in insertion order. *)
Definition dict : Type := list (string * value).

(** The exceptions the script can meet; all derive from [Exception]. *)
Inductive exn : Type :=
| TypeError
| KeyError
| AttributeError
| OverflowError
| UnboundLocalError
| JSONDecodeError
| UnicodeDecodeError
| ValueError
| ImportError
| ExternalError (what : string).

Inductive result (A : Type) : Type :=
| Ok (a : A)
| Raise (e : exn).
Arguments Ok {A} a.
Arguments Raise {A} e.

(** [d.get(k)]: first binding of [k]. *)
Fixpoint dict_get (k : string) (d : dict) : option value :=
  match d with
  | [] => None
  | (k', v) :: d' => if k' =? k then Some v else dict_get k d'
  end.

(** [d[k] = v]: an existing key keeps its place, a new key goes last. *)
Fixpoint dict_set (k : string) (v : value) (d : dict) : dict :=
  match d with
  | [] => [(k, v)]
  | (k', v') :: d' =>
      if k' =? k then (k, v) :: d' else (k', v') :: dict_set k v d'
  end.

(** [d.get(k)] seen as a Python value: a missing key reads as [None]. *)
Definition get_or_none (k : string) (d : dict) : value :=
  match dict_get k d with Some v => v | None => VNone end.

(** Truth value testing ([if x], [not x]). *)
Definition truthy (v : value) : bool :=
  match v with
  | VNone => false
  | VBool b => b
  | VInt z => negb (z =? 0)%Z
  | VFloat f => negb (f =? 0)%float
  | VStr s => negb (s =? "")
  | VList l => match l with [] => false | _ :: _ => true end
  | VDict d => match d with [] => false | _ :: _ => true end
  end.

(** [x is None], [x is True], [x is False]. *)
Definition is_None (v : value) : bool :=
  match v with VNone => true | _ => false end.
Definition is_True (v : value) : bool :=
  match v with VBool true => true | _ => false end.
Definition is_False (v : value) : bool :=
  match v with VBool false => true | _ => false end.

(** A [str] is held as the UTF-8 encoding of its text, one [ascii] per
    byte, so that ASCII text is itself. The byte of an ASCII character
    occurs in an encoding only as that character: [split] at ['/'],
    [startswith] with an ASCII prefix and [==] give on the encoding what
    they give on the text. *)

(** [bytes], as the payload of an MQTT message. *)
Definition bytes : Type := list byte.

Definition in_range (lo hi : N) (b : byte) : bool :=
  ((lo <=? Byte.to_N b) && (Byte.to_N b <=? hi))%N.

Definition continuation (b : byte) : bool := in_range 128 191 b.

(** The second byte of a three-byte and of a four-byte sequence: no
    overlong form, no surrogate, nothing above U+10FFFF. *)
Definition second_of_three (b0 b1 : byte) : bool :=
  if in_range 224 224 b0 then in_range 160 191 b1
  else if in_range 237 237 b0 then in_range 128 159 b1
  else continuation b1.

Definition second_of_four (b0 b1 : byte) : bool :=
  if in_range 240 240 b0 then in_range 144 191 b1
  else if in_range 244 244 b0 then in_range 128 143 b1
  else continuation b1.

(** The byte strings the strict UTF-8 codec accepts. *)
Fixpoint well_formed_utf8 (b : bytes) : bool :=
  match b with
  | [] => true
  | b0 :: rest1 =>
      if in_range 0 127 b0 then well_formed_utf8 rest1
      else
        match rest1 with
        | [] => false
        | b1 :: rest2 =>
            if in_range 194 223 b0 then continuation b1 && well_formed_utf8 rest2
            else
              match rest2 with
              | [] => false
              | b2 :: rest3 =>
                  if in_range 224 239 b0
                  then second_of_three b0 b1 && continuation b2
                       && well_formed_utf8 rest3
                  else
                    match rest3 with
                    | [] => false
                    | b3 :: rest4 =>
                        in_range 240 244 b0 && second_of_four b0 b1
                        && continuation b2 && continuation b3
                        && well_formed_utf8 rest4
                    end
              end
        end
  end.

(** [b.decode()]: UTF-8, errors strict. *)
Definition decode (b : bytes) : result string :=
  if well_formed_utf8 b then Ok (string_of_list_byte b)
  else Raise UnicodeDecodeError.

(** [s.encode()]. *)
Definition encode (s : string) : bytes := list_byte_of_string s.

(** [str.upper] follows the Unicode tables of the interpreter (it turns
    the ligature U+FB00 into [FF]); the script takes it from its
    collaborators ([str_upper] below). On ASCII text it is [ascii_upper]. *)
Definition upper_ascii (c : ascii) : ascii :=
  let n := nat_of_ascii c in
  if ((97 <=? n) && (n <=? 122))%nat then ascii_of_nat (n - 32) else c.

Fixpoint ascii_upper (s : string) : string :=
  match s with
  | EmptyString => EmptyString
  | String c s' => String (upper_ascii c) (ascii_upper s')
  end.

(** [s.isascii()]. *)
Fixpoint is_ascii (s : string) : bool :=
  match s with
  | EmptyString => true
  | String c s' => (nat_of_ascii c <? 128)%nat && is_ascii s'
  end.

(** [s.split(sep)] for a one-character separator. *)
Fixpoint split (sep : ascii) (s : string) : list string :=
  match s with
  | EmptyString => [EmptyString]
  | String c s' =>
      if Ascii.eqb c sep then EmptyString :: split sep s'
      else match split sep s' with
           | hd :: tl => String c hd :: tl
           | [] => [String c EmptyString]
           end
  end.

(** [s.startswith(p)]. *)
Definition startswith (s p : string) : bool := String.prefix p s.

(** [str(z)] for an [int]. *)
Definition str_int (z : Z) : string := NilZero.string_of_int (Z.to_int z).

(** [float(z)] for an [int]: round to nearest, ties to even; an [int] that
    rounds beyond the largest double does not convert. *)
Definition float_of_int (z : Z) : result float :=
  let f := SF2Prim (binary_normalize prec emax z 0 false) in
  if is_infinity f then Raise OverflowError else Ok f.

(** The double [f] is finite and stands for the integer [z]: its mantissa
    and exponent give [z] exactly. *)
Definition float_eq_int (f : float) (z : Z) : bool :=
  match Prim2SF f with
  | S754_zero _ => (z =? 0)%Z
  | S754_finite s m e =>
      (e <=? 0)%Z && ((if s then Z.neg m else Z.pos m) =? z * 2 ^ (- e))%Z
  | _ => false
  end.

(** The [float] a number stands for in arithmetic; [bool] is an [int]. *)
Definition as_float (v : value) : result float :=
  match v with
  | VBool b => float_of_int (if b then 1 else 0)%Z
  | VInt z => float_of_int z
  | VFloat f => Ok f
  | _ => Raise TypeError
  end.

(** [v / d] for a non-zero [float] constant [d]. *)
Definition truediv (v : value) (d : float) : result value :=
  match as_float v with
  | Ok f => Ok (VFloat (f / d))
  | Raise e => Raise e
  end.

Section Repr.
(** [repr] of floats and containers is left to the interpreter. *)
Variable py_repr : value -> string.

(** [str(v)]. *)
Definition str (v : value) : string :=
  match v with
  | VNone => "None"
  | VBool true => "True"
  | VBool false => "False"
  | VInt z => str_int z
  | VStr s => s
  | VFloat _ | VList _ | VDict _ => py_repr v
  end.
End Repr.

End Py.
Import Py.

(** ** Collaborators, events and the program monad *)

(** An entry of the list returned once by [cloud.getdevices()]: a mapping
    in which ['id'] and ['name'] may be missing. *)
Record Device : Type := { dev_id : option string; dev_name : option string }.

(** An element of a status list: the loop body only looks at mappings that
    have a ['code'] key, and then reads [item['value']], which may be
    missing. *)
Inductive status_item : Type :=
| NotDataPoint
| DataPoint (code : string) (raw : option value).

(** What [cloud.getstatus] returns: a mapping with a ['result'] list (and
    maybe a timestamp ['t']), or anything else (an error mapping, [None]). *)
Inductive status_response : Type :=
| WithResult (result : list status_item) (t : option value)
| WithoutResult.

(** The record handed to [collection.insert_one]. *)
Record document : Type := {
  doc_timestamp : Z;
  doc_device_id : string;
  doc_device_name : string;
  doc_status : dict;
  doc_source : string
}.

(** Payload of a publish: a plain string, or [json.dumps] of a value. *)
Inductive payload : Type :=
| Text (s : string)
| JsonDumps (v : value).

(** One constructor per [print] site of the two activities. *)
Inductive log_line : Type :=
| LogDeviceHeader (device_name : string)
| LogItem (code payload : string)
| LogDinRailOff
| LogSkippedMainPowerOff
| LogSkippedDependent
| LogSaved (inserted_id : value)
| LogSaveFailed (e : exn)
| LogPollCompleted
| LogPollError (e : exn)
| LogDebugTopic (topic : string)
| LogDebugPayload (payload : string)
| LogCommandReceived (topic payload : string)
| LogMsg (msg : string)
| LogNoValidCommands (payload : string)
| LogJsonParseFailed (payload : string)
| LogHandlerError (e : exn).

(** The calls the script makes, in program order. *)
Inductive event : Type :=
| EGetStatus (device_id : string)
| ESendCommand (device_id : string) (commands : list (string * value))
| EPublish (topic : string) (p : payload) (retain : bool)
| EInsert (doc : document)
| EPrint (line : log_line).

Section Bridge.

(** The state of everything outside the process. *)
Context {World : Type}.

(** The collaborators. [collection] is the module-level handle of lines
    98-113: [None] when the database could not be reached at startup. *)
Record Env : Type := {
  cloud_getstatus : string -> World -> result status_response * World;
  cloud_sendcommand :
    string -> list (string * value) -> World -> result value * World;
  collection : option (document -> World -> result value * World);
  time_time : World -> Z;
  json_loads : string -> option value;
  py_repr : value -> string;
  str_upper : string -> string
}.

(** The process state: the world and the global of line 239. *)
Record State : Type := { world : World; din_rail_is_on : value }.

Definition initial_state (w : World) : State :=
  {| world := w; din_rail_is_on := VBool true |}.

(** A program returns or raises, leaves a state and a trace of events;
    the state and the events reached before an exception stay. *)
Definition M (A : Type) : Type := State -> result A * State * list event.

Definition ret {A} (a : A) : M A := fun s => (Ok a, s, []).

Definition raise {A} (e : exn) : M A := fun s => (Raise e, s, []).

Definition bind {A B} (m : M A) (f : A -> M B) : M B :=
  fun s =>
    match m s with
    | (Ok a, s1, t1) => let '(r, s2, t2) := f a s1 in (r, s2, t1 ++ t2)
    | (Raise e, s1, t1) => (Raise e, s1, t1)
    end.

(** [try: m except Exception as e: h e]. *)
Definition try_except {A} (m : M A) (h : exn -> M A) : M A :=
  fun s =>
    match m s with
    | (Ok a, s1, t1) => (Ok a, s1, t1)
    | (Raise e, s1, t1) => let '(r, s2, t2) := h e s1 in (r, s2, t1 ++ t2)
    end.

(** [try: m except <one class>: h e]: other exceptions pass through. *)
Definition try_except_only {A} (catches : exn -> bool) (m : M A)
    (h : exn -> M A) : M A :=
  fun s =>
    match m s with
    | (Ok a, s1, t1) => (Ok a, s1, t1)
    | (Raise e, s1, t1) =>
        if catches e then let '(r, s2, t2) := h e s1 in (r, s2, t1 ++ t2)
        else (Raise e, s1, t1)
    end.

Definition lift {A} (r : result A) : M A := fun s => (r, s, []).

Definition emit (e : event) : M unit := fun s => (Ok tt, s, [e]).

(** [print] does not raise: the banner of lines 45 and 72 already prints
    an arrow and an emoji outside every [try], so the standard output of a
    script that got past its startup takes any text. *)
Definition print (l : log_line) : M unit := emit (EPrint l).

Definition publish (topic : string) (p : payload) (retain : bool) : M unit :=
  emit (EPublish topic p retain).

Definition get_din : M value := fun s => (Ok (din_rail_is_on s), s, []).

Definition set_din (v : value) : M unit :=
  fun s => (Ok tt, {| world := world s; din_rail_is_on := v |}, []).

Definition now (env : Env) : M Z := fun s => (Ok (time_time env (world s)), s, []).

(** A call to a collaborator: the event, then its answer and the new
    world; a raised exception propagates. *)
Definition call {A} (e : event) (op : World -> result A * World) : M A :=
  fun s =>
    let '(r, w) := op (world s) in
    (r, {| world := w; din_rail_is_on := din_rail_is_on s |}, [e]).

Definition result_of {A} (x : result A * State * list event) : result A :=
  fst (fst x).
Definition state_of {A} (x : result A * State * list event) : State :=
  snd (fst x).
Definition events_of {A} (x : result A * State * list event) : list event :=
  snd x.

Declare Scope prog_scope.
Delimit Scope prog_scope with prog.
Notation "x <- m ;; k" := (bind m (fun x => k))
  (at level 61, m at next level, right associativity) : prog_scope.
Notation "m ;; k" := (bind m (fun _ => k))
  (at level 61, right associativity) : prog_scope.
Local Open Scope prog_scope.

(** [for x in l: body x]. *)
Fixpoint for_each {A} (body : A -> M unit) (l : list A) : M unit :=
  match l with
  | [] => ret tt
  | x :: l' => body x ;; for_each body l'
  end.

(** ** The polling loop (lines 245-392) *)

Definition MQTT_TOPIC_PREFIX : string := "tuya".
Definition DIN_RAIL : string := "Din Rail Wi-Fi Switch with metering".
Definition TWO_CH : string := "WiFi Smart 2CH Touch Switch".

(** Lines 275-280. *)
Definition scale (code : string) (raw : value) : result value :=
  if code =? "cur_voltage" then truediv raw 10
  else if code =? "cur_power" then truediv raw 10
  else if code =? "add_ele" then truediv raw 1000
  else Ok raw.

(** Lines 288-291. *)
Definition format_value (env : Env) (v : value) : string :=
  match v with
  | VBool b => if b then "ON" else "OFF"
  | _ => str (py_repr env) v
  end.

Definition state_topic (device_id code : string) : string :=
  MQTT_TOPIC_PREFIX ++ "/" ++ device_id ++ "/" ++ code ++ "/state".

(** Lines 271-319: one round of [for item in status_list]. *)
Definition publish_item (env : Env) (device_id : string)
    (device_data : dict) (item : status_item) : M dict :=
  match item with
  | NotDataPoint => ret device_data
  | DataPoint code raw =>
      raw <- lift (match raw with Some v => Ok v | None => Raise KeyError end) ;;
      scaled <- lift (scale code raw) ;;
      let device_data := dict_set code scaled device_data in
      let payload := format_value env scaled in
      publish (state_topic device_id code) (Text payload) true ;;
      print (LogItem code payload) ;;
      ret device_data
  end.

(** Lines 268-319. *)
Fixpoint publish_items (env : Env) (device_id : string)
    (device_data : dict) (status_list : list status_item) : M dict :=
  match status_list with
  | [] => ret device_data
  | item :: rest =>
      device_data <- publish_item env device_id device_data item ;;
      publish_items env device_id device_data rest
  end.

Definition telemetry_topic (device_id : string) : string :=
  MQTT_TOPIC_PREFIX ++ "/" ++ device_id ++ "/telemetry".
Definition discovery_topic (device_id : string) : string :=
  "discovery/device/" ++ device_id ++ "/config".
Definition command_topic (device_id : string) : string :=
  MQTT_TOPIC_PREFIX ++ "/" ++ device_id ++ "/set".

(** Lines 322-330. *)
Definition full_payload (device_name device_id : string) (device_data : dict)
    (timestamp : Z) (t : option value) : payload :=
  JsonDumps (VDict [("name", VStr device_name); ("id", VStr device_id);
                    ("data", VDict device_data); ("timestamp", VInt timestamp);
                    ("api_t", match t with Some v => v | None => VInt 0 end)]).

(** Lines 333-344. *)
Definition discovery_payload (device_name device_id : string) : payload :=
  JsonDumps (VDict [("name", VStr device_name); ("unique_id", VStr device_id);
                    ("state_topic", VStr (telemetry_topic device_id));
                    ("command_topic", VStr (command_topic device_id));
                    ("device", VDict [("identifiers", VList [VStr device_id]);
                                      ("name", VStr device_name);
                                      ("manufacturer", VStr "Tuya")])]).

(** Lines 349-369: the value of [should_log]. *)
Definition logging_gate (device_name : string) (device_data : dict) : M bool :=
  (if device_name =? DIN_RAIL then
     let switch_status := get_or_none "switch" device_data in
     if negb (is_None switch_status) then
       set_din switch_status ;;
       din <- get_din ;;
       if is_False din then print LogDinRailOff else ret tt
     else ret tt
   else ret tt) ;;
  if device_name =? DIN_RAIL then
    din <- get_din ;;
    if negb (truthy din) then print LogSkippedMainPowerOff ;; ret false
    else ret true
  else if device_name =? TWO_CH then
    din <- get_din ;;
    if negb (truthy din) then print LogSkippedDependent ;; ret false
    else ret true
  else ret true.

(** The gate on the successive snapshots that reach it, in program order
    (within one cycle and from one cycle to the next); the value lists the
    successive [should_log]. *)
Fixpoint gate_sequence (snapshots : list (string * dict)) : M (list bool) :=
  match snapshots with
  | [] => ret []
  | (device_name, device_data) :: rest =>
      should_log <- logging_gate device_name device_data ;;
      later <- gate_sequence rest ;;
      ret (should_log :: later)
  end.

(** Lines 372-383. *)
Definition insert_snapshot (env : Env)
    (insert_one : document -> World -> result value * World)
    (device_id device_name : string) (device_data : dict) : M unit :=
  timestamp <- now env ;;
  let doc := {| doc_timestamp := timestamp; doc_device_id := device_id;
                doc_device_name := device_name; doc_status := device_data;
                doc_source := "tuya_cloud_mqtt_bridge" |} in
  try_except
    (inserted_id <- call (EInsert doc) (insert_one doc) ;;
     print (LogSaved inserted_id))
    (fun e => print (LogSaveFailed e)).

(** Lines 261-345: the per-code, telemetry and discovery publishes; the
    value is [device_data]. *)
Definition publish_snapshot (env : Env) (device_id device_name : string)
    (status_list : list status_item) (t : option value) : M dict :=
  print (LogDeviceHeader device_name) ;;
  device_data <- publish_items env device_id [] status_list ;;
  timestamp <- now env ;;
  publish (telemetry_topic device_id)
    (full_payload device_name device_id device_data timestamp t) true ;;
  publish (discovery_topic device_id)
    (discovery_payload device_name device_id) true ;;
  ret device_data.

(** Lines 348-383: [if collection is not None]. *)
Definition log_snapshot (env : Env) (device_id device_name : string)
    (device_data : dict) : M unit :=
  match collection env with
  | None => ret tt
  | Some insert_one =>
      should_log <- logging_gate device_name device_data ;;
      if should_log
      then insert_snapshot env insert_one device_id device_name device_data
      else ret tt
  end.

(** [device.get('name', 'Unknown')]. *)
Definition device_name_of (device : Device) : string :=
  match dev_name device with Some n => n | None => "Unknown" end.

(** Lines 249-383: the body of [for device in devices]. *)
Definition process_device (env : Env) (device : Device) : M unit :=
  let device_name := device_name_of device in
  match dev_id device with
  | None => ret tt
  | Some device_id =>
      if device_id =? "" then ret tt
      else
        data <- call (EGetStatus device_id) (cloud_getstatus env device_id) ;;
        match data with
        | WithoutResult => ret tt
        | WithResult status_list t =>
            device_data <- publish_snapshot env device_id device_name status_list t ;;
            log_snapshot env device_id device_name device_data
        end
  end.

(** Lines 247-389: one round of [while True], up to the sleep. *)
Definition poll_cycle (env : Env) (devices : list Device) : M unit :=
  try_except
    (for_each (process_device env) devices ;; print LogPollCompleted)
    (fun e => print (LogPollError e)).

(** The first [n] rounds of the loop. *)
Fixpoint main_loop (env : Env) (devices : list Device) (n : nat) : M unit :=
  match n with
  | O => ret tt
  | S n' => poll_cycle env devices ;; main_loop env devices n'
  end.

(** ** The command callback (lines 136-226) *)

Definition response_topic (device_id : string) : string :=
  MQTT_TOPIC_PREFIX ++ "/" ++ device_id ++ "/response".

(** The [commands] argument of [cloud.sendcommand] as a Python value. *)
Definition command_value (c : string * value) : value :=
  VDict [("code", VStr (fst c)); ("value", snd c)].

(** [result.get(k)]: [result] has to be a mapping. *)
Definition method_get (v : value) (k : string) : result value :=
  match v with
  | VDict d => Ok (get_or_none k d)
  | _ => Raise AttributeError
  end.

(** [data.items()]: [data] has to be a mapping. *)
Definition method_items (v : value) : result dict :=
  match v with
  | VDict d => Ok d
  | _ => Raise AttributeError
  end.

(** [json.dumps(v)] in the body of [on_message]. The [import json] of
    line 185 stands inside the function, so Python compiles [json] as a
    local name of the whole of [on_message]: [json_bound] tells whether
    that line has run in the current call, and reading the name before
    it has raises [UnboundLocalError]. *)
Definition local_json_dumps (json_bound : bool) (v : value) : M payload :=
  if json_bound then ret (JsonDumps v) else raise UnboundLocalError.

(** Line 158. *)
Definition single_value (env : Env) (payload : string) : value :=
  if (str_upper env payload =? "ON") || (str_upper env payload =? "OFF")
  then VBool (str_upper env payload =? "ON")
  else VStr payload.

(** Lines 191-193. *)
Definition batch_value (env : Env) (v : value) : value :=
  let val := v in
  let val := if str_upper env (str (py_repr env) v) =? "ON" then VBool true else val in
  let val := if str_upper env (str (py_repr env) v) =? "OFF" then VBool false else val in
  val.

(** Lines 188-194: [for k, v in data.items()], appending to [command_list]. *)
Fixpoint collect_commands (env : Env) (items : dict)
    (command_list : list (string * value)) : list (string * value) :=
  match items with
  | [] => command_list
  | (k, v) :: rest =>
      if startswith k "switch" || startswith k "countdown"
      then collect_commands env rest (command_list ++ [(k, batch_value env v)])
      else collect_commands env rest command_list
  end.

(** Line 212. *)
Definition echo_value (env : Env) (c_val : value) : string :=
  if is_True c_val then "ON"
  else if is_False c_val then "OFF"
  else str (py_repr env) c_val.

(** Lines 209-213. *)
Definition echo_command (env : Env) (device_id : string) (cmd : string * value)
    : M unit :=
  let c_code := fst cmd in
  let c_val := snd cmd in
  publish (state_topic device_id c_code) (Text (echo_value env c_val)) true.

(** Lines 151-178. *)
Definition single_command (env : Env) (json_bound : bool)
    (parts : list string) (payload : string) : M unit :=
  let device_id := nth 1 parts "" in
  let code := nth 2 parts "" in
  let commands := [(code, single_value env payload)] in
  result <- call (ESendCommand device_id commands)
              (cloud_sendcommand env device_id commands) ;;
  let resp_topic := response_topic device_id in
  success <- lift (method_get result "success") ;;
  if truthy success then
    let msg := ("Command sent: " ++ device_id ++ "/" ++ code ++ " = " ++ payload)%string in
    print (LogMsg msg) ;;
    body <- local_json_dumps json_bound
              (VDict [("status", VStr "success"); ("msg", VStr msg);
                      ("code", VStr code); ("value", VStr payload)]) ;;
    publish resp_topic body false ;;
    let state_val := if str_upper env payload =? "ON" then "ON" else "OFF" in
    publish (state_topic device_id code) (Text state_val) true
  else
    let msg := ("Command failed: " ++ str (py_repr env) result)%string in
    print (LogMsg msg) ;;
    body <- local_json_dumps json_bound
              (VDict [("status", VStr "error"); ("msg", VStr msg);
                      ("result", result)]) ;;
    publish resp_topic body false.

(** Lines 182-223. *)
Definition batch_command (env : Env) (parts : list string) (payload : string)
    : M unit :=
  let device_id := nth 1 parts "" in
  try_except_only
    (fun e => match e with JSONDecodeError => true | _ => false end)
    (let json_bound := true in
     data <- lift (match json_loads env payload with
                   | Some v => Ok v
                   | None => Raise JSONDecodeError
                   end) ;;
     items <- lift (method_items data) ;;
     let command_list := collect_commands env items [] in
     match command_list with
     | _ :: _ =>
         result <- call (ESendCommand device_id command_list)
                     (cloud_sendcommand env device_id command_list) ;;
         let resp_topic := response_topic device_id in
         success <- lift (method_get result "success") ;;
         if truthy success then
           let msg := ("JSON Command sent: "
                       ++ py_repr env (VList (map command_value command_list)))%string in
           print (LogMsg msg) ;;
           body <- local_json_dumps json_bound
                     (VDict [("status", VStr "success"); ("msg", VStr msg);
                             ("cmd", VList (map command_value command_list))]) ;;
           publish resp_topic body false ;;
           for_each (echo_command env device_id) command_list
         else
           let msg := ("JSON Command failed: " ++ str (py_repr env) result)%string in
           print (LogMsg msg) ;;
           body <- local_json_dumps json_bound
                     (VDict [("status", VStr "error"); ("msg", VStr msg);
                             ("result", result)]) ;;
           publish resp_topic body false
     | [] => print (LogNoValidCommands payload)
     end)
    (fun _ => print (LogJsonParseFailed payload)).

(** Lines 141-226: the callback once the payload is decoded. [json] is
    unbound when the body starts. *)
Definition on_payload (env : Env) (topic payload : string) : M unit :=
  let json_bound := false in
  print (LogDebugTopic topic) ;;
  print (LogDebugPayload payload) ;;
  print (LogCommandReceived topic payload) ;;
  try_except
    (let parts := split "/" topic in
     if (4 <=? length parts)%nat then single_command env json_bound parts payload
     else if ((length parts =? 3)%nat && (nth 2 parts "" =? "set"))%bool
          then batch_command env parts payload
          else ret tt)
    (fun e => print (LogHandlerError e)).

(** Lines 136-226. The payload arrives as [bytes] and is decoded on line
    139, before the [try] of line 146: a payload that is not UTF-8 raises
    out of the callback. *)
Definition on_message (env : Env) (topic : string) (raw : bytes) : M unit :=
  payload <- lift (decode raw) ;;
  on_payload env topic payload.

End Bridge.

Arguments Env World : clear implicits.
Arguments State World : clear implicits.
Arguments M World A : clear implicits.

(** ** Reading a run *)

Definition is_publish (e : event) : bool :=
  match e with EPublish _ _ _ => true | _ => false end.
Definition is_dispatch (e : event) : bool :=
  match e with ESendCommand _ _ => true | _ => false end.
Definition is_insert (e : event) : bool :=
  match e with EInsert _ => true | _ => false end.
Definition is_fetch (e : event) : bool :=
  match e with EGetStatus _ => true | _ => false end.

(** The three lines every call of [on_message] prints first. *)
Definition received (topic payload : string) : list event :=
  [EPrint (LogDebugTopic topic); EPrint (LogDebugPayload payload);
   EPrint (LogCommandReceived topic payload)].

Section Readings.
Context {World : Type}.
Implicit Types (env : Env World) (s : State World).

(** The state after a collaborator call that left the world [w]. *)
Definition with_world s (w : World) : State World :=
  {| world := w; din_rail_is_on := din_rail_is_on s |}.

(** The batch vocabulary in the words of the specification: the keys with
    prefix [switch] or [countdown], each with the ON/OFF mapping. *)
Definition spec_recognised (k : string) : bool :=
  startswith k "switch" || startswith k "countdown".

Definition spec_on_off env (v : value) : value :=
  if str_upper env (str (py_repr env) v) =? "ON" then VBool true
  else if str_upper env (str (py_repr env) v) =? "OFF" then VBool false
  else v.

Definition spec_batch_items env (items : dict) : list (string * value) :=
  map (fun kv => (fst kv, spec_on_off env (snd kv)))
      (filter (fun kv => spec_recognised (fst kv)) items).

(** The topic shapes in the words of the specification:
    [prefix/{deviceID}/{code}/set], [prefix/{deviceID}/set], anything else. *)
Inductive topic_shape : Type :=
| SingleAttribute (device_id code : string)
| Batch (device_id : string)
| OtherShape.

Definition spec_topic_shape (topic : string) : topic_shape :=
  match split "/" topic with
  | [prefix; device_id; code; last] =>
      if (prefix =? MQTT_TOPIC_PREFIX) && (last =? "set")
      then SingleAttribute device_id code else OtherShape
  | [prefix; device_id; last] =>
      if (prefix =? MQTT_TOPIC_PREFIX) && (last =? "set")
      then Batch device_id else OtherShape
  | _ => OtherShape
  end.

(** The optimistic echo of a batch: one retained publish per command. *)
Definition echo_events env (device_id : string) (cl : list (string * value))
    : list event :=
  map (fun c => EPublish (state_topic device_id (fst c))
                  (Text (echo_value env (snd c))) true) cl.

(** What the two handlers of the batch branch print for an exception
    raised after the payload was parsed: the inner one takes a
    [JSONDecodeError] (also one raised by the cloud client), the outer one
    the rest. *)
Definition batch_error_log (payload : string) (e : exn) : log_line :=
  match e with
  | JSONDecodeError => LogJsonParseFailed payload
  | _ => LogHandlerError e
  end.

(** A program that does not write [din_rail_is_on]. *)
Definition keeps_din {A} (m : M World A) : Prop :=
  forall s, din_rail_is_on (state_of (m s)) = din_rail_is_on s.

(** A program all of whose events satisfy a test. *)
Definition emits {A} (P : event -> bool) (m : M World A) : Prop :=
  forall s, forallb P (events_of (m s)) = true.

(** A program that keeps an invariant of the state while all its events
    satisfy a test. *)
Definition maintains {A} (I : State World -> Prop) (P : event -> bool)
    (m : M World A) : Prop :=
  forall s, I s -> I (state_of (m s)) /\ forallb P (events_of (m s)) = true.

End Readings.

(** The flag after the gate, and [should_log], as functions of the flag
    before it. *)
Definition gate_din (device_name : string) (device_data : dict) (din : value)
    : value :=
  if (device_name =? DIN_RAIL) && negb (is_None (get_or_none "switch" device_data))
  then get_or_none "switch" device_data
  else din.

Definition gate_should_log (device_name : string) (din : value) : bool :=
  if (device_name =? DIN_RAIL) || (device_name =? TWO_CH) then truthy din else true.

(** The events that show the gate was evaluated. *)
Definition is_gate_event (e : event) : bool :=
  match e with
  | EInsert _ => true
  | EPrint LogDinRailOff | EPrint LogSkippedMainPowerOff
  | EPrint LogSkippedDependent => true
  | EPrint (LogSaved _) | EPrint (LogSaveFailed _) => true
  | _ => false
  end.

(** The events of the publishing part of the loop body. *)
Definition is_telemetry_event (e : event) : bool :=
  match e with
  | EPublish _ _ _ => true
  | EPrint (LogDeviceHeader _) | EPrint (LogItem _ _) => true
  | _ => false
  end.

(** The events that show [should_log] was evaluated for a dependent
    device: its insert, or the line printed when it is skipped. *)
Definition is_dependent_outcome (e : event) : bool :=
  match e with
  | EInsert doc => doc_device_name doc =? TWO_CH
  | EPrint LogSkippedDependent => true
  | _ => false
  end.

(** An insert under the dependent device's name. *)
Definition is_dependent_insert (e : event) : bool :=
  match e with
  | EInsert doc => doc_device_name doc =? TWO_CH
  | _ => false
  end.

(** No dependent outcome comes before the first fetch of [gov_id]. *)
Fixpoint governing_fetched_first (gov_id : string) (t : list event) : bool :=
  match t with
  | [] => true
  | EGetStatus device_id :: t' =>
      (device_id =? gov_id) || governing_fetched_first gov_id t'
  | e :: t' => negb (is_dependent_outcome e) && governing_fetched_first gov_id t'
  end.

(** The same collaborators with another database handle. *)
Definition with_collection {World : Type}
    (c : option (document -> World -> result value * World)) (env : Env World)
    : Env World :=
  {| cloud_getstatus := cloud_getstatus env;
     cloud_sendcommand := cloud_sendcommand env;
     collection := c;
     time_time := time_time env;
     json_loads := json_loads env;
     py_repr := py_repr env;
     str_upper := str_upper env |}.

(** Every item of a status list has a value that scales. *)
Definition scalable (item : status_item) : Prop :=
  match item with
  | NotDataPoint => True
  | DataPoint code raw => exists r v, raw = Some r /\ scale code r = Ok v
  end.

(** ** Concrete collaborators for the examples *)

Module Demo.

(** [repr] of floats and containers is not looked at in the examples. *)
Definition repr (v : value) : string :=
  match v with VFloat _ => "<float>" | _ => "<container>" end.

(** [str.upper] on the characters of the examples: the ASCII letters, and
    the ligature U+FB00 (bytes EF AC 80), which becomes [FF]. *)
Fixpoint upper (s : string) : string :=
  match s with
  | String "239" (String "172" (String "128" s')) => "FF" ++ upper s'
  | String c s' => String (upper_ascii c) (upper s')
  | EmptyString => EmptyString
  end.

(** Collaborators over a world that counts the calls made to the cloud and
    the database, and serves as the clock. *)
Definition env (getstatus : string -> result status_response)
    (sendcommand : result value) (insert_one : option (result value))
    (loads : string -> option value) : Env nat :=
  {| cloud_getstatus := fun device_id w => (getstatus device_id, S w);
     cloud_sendcommand := fun _ _ w => (sendcommand, S w);
     collection :=
       match insert_one with
       | Some r => Some (fun _ w => (r, S w))
       | None => None
       end;
     time_time := Z.of_nat;
     json_loads := loads;
     py_repr := repr;
     str_upper := upper |}.

(** The double quote, and a key or string literal of JSON text. *)
Definition dq : string := String (ascii_of_nat 34) EmptyString.
Definition quoted (s : string) : string := dq ++ s ++ dq.

(** The texts [{"switch_1":"ON","brightness":50}], [{"brightness":50}] and
    the truncated [{"switch_1":]. *)
Definition payload_mixed : string :=
  "{" ++ quoted "switch_1" ++ ":" ++ quoted "ON" ++ ","
      ++ quoted "brightness" ++ ":50}".
Definition payload_unrecognised : string :=
  "{" ++ quoted "brightness" ++ ":50}".
Definition payload_malformed : string :=
  "{" ++ quoted "switch_1" ++ ":".

(** The texts [{"switch_1":"on","countdown_1":"Off","switch_2":"dim",
    "brightness":50}] and [{"switch_1": NaN}]. *)
Definition payload_cased : string :=
  "{" ++ quoted "switch_1" ++ ":" ++ quoted "on" ++ ","
      ++ quoted "countdown_1" ++ ":" ++ quoted "Off" ++ ","
      ++ quoted "switch_2" ++ ":" ++ quoted "dim" ++ ","
      ++ quoted "brightness" ++ ":50}".
Definition payload_nan : string :=
  "{" ++ quoted "switch_1" ++ ": NaN}".

(** [json.loads] on these texts; every other text is taken as malformed. *)
Definition loads (payload : string) : option value :=
  if payload =? payload_mixed
  then Some (VDict [("switch_1", VStr "ON"); ("brightness", VInt 50)])
  else if payload =? payload_unrecognised
  then Some (VDict [("brightness", VInt 50)])
  else if payload =? payload_cased
  then Some (VDict [("switch_1", VStr "on"); ("countdown_1", VStr "Off");
                    ("switch_2", VStr "dim"); ("brightness", VInt 50)])
  else if payload =? payload_nan
  then Some (VDict [("switch_1", VFloat nan)])
  else None.

(** The cloud accepts every command. *)
Definition router : Env nat :=
  env (fun _ => Ok WithoutResult) (Ok (VDict [("success", VBool true)])) None loads.

(** Four devices and the answers of the cloud to their status requests:
    the governing device reports its switch off, the dependent one reports
    a channel on, the request for [plug] times out, and [lamp] gets an
    error mapping without ['result']. *)
Definition gov : Device := {| dev_id := Some "gov"; dev_name := Some DIN_RAIL |}.
Definition dep : Device := {| dev_id := Some "dep"; dev_name := Some TWO_CH |}.
Definition plug : Device := {| dev_id := Some "plug"; dev_name := Some "Plug" |}.
Definition lamp : Device := {| dev_id := Some "lamp"; dev_name := Some "Lamp" |}.
Definition nameless : Device := {| dev_id := None; dev_name := None |}.

Definition getstatus (device_id : string) : result status_response :=
  if device_id =? "gov"
  then Ok (WithResult [DataPoint "switch" (Some (VBool false));
                       DataPoint "cur_voltage" (Some (VInt 2305))]
             (Some (VInt 1700000000)))
  else if device_id =? "dep"
  then Ok (WithResult [DataPoint "switch_1" (Some (VBool true))] None)
  else if device_id =? "plug" then Raise (ExternalError "timeout")
  else Ok WithoutResult.

Definition poller (insert_one : option (result value)) : Env nat :=
  env getstatus (Raise (ExternalError "unused")) insert_one loads.

(** A database that accepts every record, and one that refuses them. *)
Definition accepting : option (result value) := Some (Ok (VStr "oid")).
Definition refusing : option (result value) :=
  Some (Raise (ExternalError "write failed")).

End Demo.

(** ** More readings of a run *)

(** No ['/'] occurs in [s]. *)
Fixpoint slash_free (s : string) : bool :=
  match s with
  | EmptyString => true
  | String c s' => negb (Ascii.eqb c "/") && slash_free s'
  end.

(** The ids the loop asks the cloud about: those of the entries that pass
    [if not device_id: continue], in list order. *)
Fixpoint polled_ids (devices : list Device) : list string :=
  match devices with
  | [] => []
  | device :: rest =>
      match dev_id device with
      | Some device_id =>
          if device_id =? "" then polled_ids rest else device_id :: polled_ids rest
      | None => polled_ids rest
      end
  end.

(** The codes of a status list with their scaled values, up to the first
    item that has no ['value'] or does not scale. *)
Fixpoint scaled_points (status_list : list status_item) : list (string * value) :=
  match status_list with
  | [] => []
  | NotDataPoint :: rest => scaled_points rest
  | DataPoint code (Some raw) :: rest =>
      match scale code raw with
      | Ok v => (code, v) :: scaled_points rest
      | Raise _ => []
      end
  | DataPoint _ None :: _ => []
  end.

(** The flaw of the first item that cannot be processed, if any. *)
Fixpoint first_failure (status_list : list status_item) : option exn :=
  match status_list with
  | [] => None
  | NotDataPoint :: rest => first_failure rest
  | DataPoint code (Some raw) :: rest =>
      match scale code raw with
      | Ok _ => first_failure rest
      | Raise e => Some e
      end
  | DataPoint _ None :: _ => Some KeyError
  end.

(** [device_data] after the assignments [device_data[code] = value] for
    the given points, in order. *)
Definition store_points (points : list (string * value)) (device_data : dict)
    : dict :=
  fold_left (fun d cv => dict_set (fst cv) (snd cv) d) points device_data.

Section MoreReadings.
Context {World : Type}.
Implicit Types (env : Env World) (s : State World).

(** The retained per-code publish and the line printed for one point. *)
Definition point_events env (device_id : string) (cv : string * value)
    : list event :=
  [EPublish (state_topic device_id (fst cv)) (Text (format_value env (snd cv))) true;
   EPrint (LogItem (fst cv) (format_value env (snd cv)))].

(** A publish of the round of the device [device_id]: retained, on one of
    its state topics, its telemetry topic or its discovery topic. *)
Definition own_publish (device_id : string) (e : event) : Prop :=
  match e with
  | EPublish topic _ retain =>
      retain = true
      /\ ((exists code, topic = state_topic device_id code)
          \/ topic = telemetry_topic device_id
          \/ topic = discovery_topic device_id)
  | _ => True
  end.

End MoreReadings.

(** The broker's rule for a filter whose wildcards are all single-level:
    level by level, [+] stands for any one level. *)
Fixpoint levels_match (filter topic : list string) : bool :=
  match filter, topic with
  | [], [] => true
  | f :: filter', t :: topic' =>
      ((f =? "+") || (f =? t)) && levels_match filter' topic'
  | _, _ => false
  end.

Definition mqtt_matches (filter topic : string) : bool :=
  levels_match (split "/" filter) (split "/" topic).

(** ** Startup (lines 25-121 and 228-243) and [on_connect] (lines 125-134) *)

(** An entry of the list [cloud.getdevices()] returns, with the ['online']
    key that only the listing at startup reads. *)
Record DeviceEntry : Type := { entry_device : Device; entry_online : option value }.

(** What [cloud.getdevices()] returns: a list, or anything else. *)
Inductive devices_response : Type :=
| DeviceList (entries : list DeviceEntry)
| NotAList (v : value).

(** One constructor per [print] site of the startup and of [on_connect]. *)
Inductive setup_line : Type :=
| SetupBanner (region broker : string) (port : Z)
| SetupMissingCredentials
| SetupCloudInitialized
| SetupCloudFailed (e : exn)
| SetupFetching
| SetupFound (device_count : nat)
| SetupDevice (i : nat) (device_name device_id : string) (online : bool)
| SetupUnexpected (v : value)
| SetupGetDevicesFailed (e : exn)
| SetupNoDevices
| SetupMongoConnecting
| SetupMongoConnected
| SetupMongoNotSet
| SetupMongoError (e : exn)
| SetupMqttFailed (e : exn)
| SetupStartingLoop
| SetupMqttConnected (broker : string) (port : Z)
| SetupSubscribed
| SetupMqttRefused (rc : Z).

(** The calls made before the loop starts and by [on_connect]. *)
Inductive setup_event : Type :=
| SCloud (region key secret : string)
| SGetDevices
| SMongoClient (uri db_name collection_name : string)
| SMongoPing
| SMqttClient (versioned : bool)
| SMqttConnect (broker : string) (port : Z) (keepalive : Z)
| SMqttLoopStart
| SSubscribe (filter : string)
| SPrint (line : setup_line).

(** Line 37. *)
Definition MONGO_URI : string := "Mongo Name & Password".

Section Startup.
Context {World : Type}.

(** The process environment and the collaborators of the startup.
    [py_int] is [int] on a [str]: [None] where it raises [ValueError].
    [mqtt_Client true] is the [try] body of lines 118-119 (the import of
    [CallbackAPIVersion] and the client made with it), [mqtt_Client false]
    the plain [mqtt.Client()] of line 121. *)
Record Boot : Type := {
  os_getenv : string -> option string;
  py_int : string -> option Z;
  tinytuya_Cloud : string -> string -> string -> World -> result unit * World;
  cloud_getdevices : World -> result devices_response * World;
  pymongo_MongoClient :
    string -> string -> string -> World ->
    result (document -> World -> result value * World) * World;
  mongo_ping : World -> result unit * World;
  mqtt_Client : bool -> World -> result unit * World;
  mqtt_connect : string -> Z -> Z -> World -> result unit * World;
  mqtt_loop_start : World -> result unit * World
}.

(** [os.getenv(name, default)]. *)
Definition getenv (boot : Boot) (name default : string) : string :=
  match os_getenv boot name with Some v => v | None => default end.

(** A step of the startup goes on with a value, ends the process with
    [sys.exit(status)], which no [except Exception] catches, or ends it
    with an exception raised outside every [try]. *)
Inductive outcome (A : Type) : Type :=
| Continue (a : A)
| SysExit (status : Z)
| Uncaught (e : exn).
Arguments Continue {A} a.
Arguments SysExit {A} status.
Arguments Uncaught {A} e.

Definition B (A : Type) : Type := World -> outcome A * World * list setup_event.

Definition bret {A} (a : A) : B A := fun w => (Continue a, w, []).

Definition sys_exit {A} (status : Z) : B A := fun w => (SysExit status, w, []).

Definition uncaught {A} (e : exn) : B A := fun w => (Uncaught e, w, []).

Definition bbind {A C} (m : B A) (f : A -> B C) : B C :=
  fun w =>
    match m w with
    | (Continue a, w1, t1) => let '(r, w2, t2) := f a w1 in (r, w2, t1 ++ t2)
    | (SysExit status, w1, t1) => (SysExit status, w1, t1)
    | (Uncaught e, w1, t1) => (Uncaught e, w1, t1)
    end.

(** The standard output is taken to accept the texts the script prints
    (the banner has an arrow and an emoji in it). *)
Definition bprint (l : setup_line) : B unit := fun w => (Continue tt, w, [SPrint l]).

(** A call inside a [try]: what it returned or raised is looked at by the
    code that follows. *)
Definition bcall {A} (e : setup_event) (op : World -> result A * World)
    : B (result A) :=
  fun w => let '(r, w') := op w in (Continue r, w', [e]).

Declare Scope boot_scope.
Delimit Scope boot_scope with boot.
Notation "x <- m ;; k" := (bbind m (fun x => k))
  (at level 61, m at next level, right associativity) : boot_scope.
Notation "m ;; k" := (bbind m (fun _ => k))
  (at level 61, right associativity) : boot_scope.
Local Open Scope boot_scope.

(** Line 33: [int(os.getenv("MQTT_PORT", "1883"))], outside every [try]. *)
Definition parse_port (boot : Boot) : B Z :=
  match py_int boot (getenv boot "MQTT_PORT" "1883") with
  | Some port => bret port
  | None => uncaught ValueError
  end.

(** Lines 79-84: [for i, device in enumerate(devices, 1)]. *)
Fixpoint list_devices (i : nat) (entries : list DeviceEntry) : B unit :=
  match entries with
  | [] => bret tt
  | entry :: rest =>
      let device_id :=
        match dev_id (entry_device entry) with Some v => v | None => "unknown" end in
      let device_name :=
        match dev_name (entry_device entry) with Some v => v | None => "Unknown" end in
      let device_online :=
        match entry_online entry with Some v => v | None => VBool false end in
      bprint (SetupDevice i device_name device_id (truthy device_online)) ;;
      list_devices (S i) rest
  end.

(** Lines 72-96: the device list and the check that it is not empty. *)
Definition fetch_devices (boot : Boot) : B (list DeviceEntry) :=
  bprint SetupFetching ;;
  r <- bcall SGetDevices (cloud_getdevices boot) ;;
  found <-
    match r with
    | Ok (DeviceList entries) =>
        let device_count := length entries in
        bprint (SetupFound device_count) ;;
        list_devices 1 entries ;;
        bret (entries, device_count)
    | Ok (NotAList v) =>
        bprint (SetupUnexpected v) ;;
        bret ([], O)
    | Raise e =>
        bprint (SetupGetDevicesFailed e) ;;
        sys_exit 1
    end ;;
  let '(devices, device_count) := found in
  if (device_count =? 0)%nat then bprint SetupNoDevices ;; sys_exit 1
  else bret devices.

(** Lines 99-113: the value of [collection]. *)
Definition init_mongo (boot : Boot)
    : B (option (document -> World -> result value * World)) :=
  if negb (MONGO_URI =? "") then
    bprint SetupMongoConnecting ;;
    r <- bcall (SMongoClient MONGO_URI (getenv boot "MONGO_DB" "smart_office")
                  (getenv boot "MONGO_COLLECTION" "device_raw_data"))
           (pymongo_MongoClient boot MONGO_URI
              (getenv boot "MONGO_DB" "smart_office")
              (getenv boot "MONGO_COLLECTION" "device_raw_data")) ;;
    match r with
    | Ok collection =>
        r <- bcall SMongoPing (mongo_ping boot) ;;
        match r with
        | Ok _ => bprint SetupMongoConnected ;; bret (Some collection)
        | Raise e => bprint (SetupMongoError e) ;; bret None
        end
    | Raise e => bprint (SetupMongoError e) ;; bret None
    end
  else
    bprint SetupMongoNotSet ;; bret None.

(** Lines 117-121: only an [ImportError] of the first attempt is caught. *)
Definition make_client (boot : Boot) : B unit :=
  r <- bcall (SMqttClient true) (mqtt_Client boot true) ;;
  match r with
  | Ok _ => bret tt
  | Raise ImportError =>
      r <- bcall (SMqttClient false) (mqtt_Client boot false) ;;
      match r with
      | Ok _ => bret tt
      | Raise e => uncaught e
      end
  | Raise e => uncaught e
  end.

(** Lines 231-236. *)
Definition connect_mqtt (boot : Boot) (MQTT_PORT : Z) : B unit :=
  r <- bcall (SMqttConnect (getenv boot "MQTT_BROKER" "localhost") MQTT_PORT 60)
         (mqtt_connect boot (getenv boot "MQTT_BROKER" "localhost") MQTT_PORT 60) ;;
  match r with
  | Raise e => bprint (SetupMqttFailed e) ;; sys_exit 1
  | Ok _ =>
      r <- bcall SMqttLoopStart (mqtt_loop_start boot) ;;
      match r with
      | Raise e => bprint (SetupMqttFailed e) ;; sys_exit 1
      | Ok _ => bret tt
      end
  end.

(** Lines 25-243: everything before the loop; the value is the device list
    and the database handle the loop runs with. *)
Definition startup (boot : Boot)
    : B (list Device * option (document -> World -> result value * World)) :=
  let TUYA_REGION := getenv boot "TUYA_REGION" "sg" in
  let TUYA_API_KEY := getenv boot "TUYA_API_KEY" "" in
  let TUYA_API_SECRET := getenv boot "TUYA_API_SECRET" "" in
  MQTT_PORT <- parse_port boot ;;
  bprint (SetupBanner TUYA_REGION (getenv boot "MQTT_BROKER" "localhost")
            MQTT_PORT) ;;
  if (TUYA_API_KEY =? "") || (TUYA_API_SECRET =? "") then
    bprint SetupMissingCredentials ;; sys_exit 1
  else
    r <- bcall (SCloud TUYA_REGION TUYA_API_KEY TUYA_API_SECRET)
           (tinytuya_Cloud boot TUYA_REGION TUYA_API_KEY TUYA_API_SECRET) ;;
    match r with
    | Raise e => bprint (SetupCloudFailed e) ;; sys_exit 1
    | Ok _ =>
        bprint SetupCloudInitialized ;;
        devices <- fetch_devices boot ;;
        collection <- init_mongo boot ;;
        make_client boot ;;
        connect_mqtt boot MQTT_PORT ;;
        bprint SetupStartingLoop ;;
        bret (map entry_device devices, collection)
    end.

(** Lines 125-134: the subscriptions made when the broker accepts the
    connection. The callback runs in the network thread, which line 233
    starts: the globals of lines 32-33 are set by then. *)
Definition on_connect (MQTT_BROKER : string) (MQTT_PORT : Z) (rc : Z)
    : list setup_event :=
  if (rc =? 0)%Z then
    [SPrint (SetupMqttConnected MQTT_BROKER MQTT_PORT);
     SSubscribe (MQTT_TOPIC_PREFIX ++ "/+/+/set");
     SSubscribe (MQTT_TOPIC_PREFIX ++ "/+/set");
     SPrint SetupSubscribed]
  else [SPrint (SetupMqttRefused rc)].



(** The script as a whole: the startup, then the first [n] rounds of the
    loop with the device list and the handle the startup left, from the
    flag of line 239. *)
Definition script (boot : Boot) (env : Env World) (n : nat) (w : World)
    : outcome (result unit * State World * list event) * list setup_event :=
  match startup boot w with
  | (Continue (devices, collection), w', t) =>
      (Continue (main_loop (with_collection collection env) devices n
                   (initial_state w')), t)
  | (SysExit status, _, t) => (SysExit status, t)
  | (Uncaught e, _, t) => (Uncaught e, t)
  end.

End Startup.

Arguments Boot World : clear implicits.
Arguments B World A : clear implicits.
Arguments Continue {A} a.
Arguments SysExit {A} status.
Arguments Uncaught {A} e.

(** The startup lines that report a database that could not be reached. *)
Definition is_mongo_error (e : setup_event) : bool :=
  match e with SPrint (SetupMongoError _) => true | _ => false end.

(** ** More concrete collaborators *)

Module Sample.

(** A meter that reports its power twice in one status list, and a device
    whose second item has a code but no value. *)
Definition meter : Device := {| dev_id := Some "meter"; dev_name := Some "Meter" |}.
Definition broken : Device := {| dev_id := Some "broken"; dev_name := Some "Broken" |}.

Definition meter_status : list status_item :=
  [DataPoint "cur_power" (Some (VInt 125)); NotDataPoint;
   DataPoint "switch" (Some (VBool true));
   DataPoint "cur_power" (Some (VInt 130))].

Definition broken_status : list status_item :=
  [DataPoint "switch" (Some (VBool true)); DataPoint "cur_voltage" None;
   DataPoint "cur_power" (Some (VInt 130))].

Definition getstatus (device_id : string) : result status_response :=
  if device_id =? "meter" then Ok (WithResult meter_status (Some (VInt 7)))
  else if device_id =? "broken" then Ok (WithResult broken_status None)
  else Demo.getstatus device_id.

Definition poller : Env nat :=
  Demo.env getstatus (Raise (ExternalError "unused")) Demo.accepting Demo.loads.

(** A cloud that answers the status request for the governing device
    with a mapping without ['result']. *)
Definition silent_poller : Env nat :=
  Demo.env (fun device_id =>
              if device_id =? "gov" then Ok WithoutResult
              else Demo.getstatus device_id)
    (Raise (ExternalError "unused")) Demo.accepting Demo.loads.

(** A cloud that answers every command with a failure. *)
Definition refusing_router : Env nat :=
  Demo.env (fun _ => Ok WithoutResult) (Ok (VDict [("success", VBool false)]))
    None Demo.loads.

(** A process environment with both credentials, a cloud that lists the
    governing and the dependent device, a broker that accepts the
    connection, and a database that is down or up. *)
Definition environ (name : string) : option string :=
  if name =? "TUYA_API_KEY" then Some "key"
  else if name =? "TUYA_API_SECRET" then Some "secret"
  else None.

(** [int] on the texts of the examples. *)
Definition int_of_text (text : string) : option Z :=
  if text =? "1883" then Some 1883%Z else None.

Definition boot (database_up : bool) : Boot nat :=
  {| os_getenv := environ;
     py_int := int_of_text;
     tinytuya_Cloud := fun _ _ _ w => (Ok tt, S w);
     cloud_getdevices :=
       fun w => (Ok (DeviceList [{| entry_device := Demo.gov;
                                    entry_online := Some (VBool true) |};
                                 {| entry_device := Demo.dep;
                                    entry_online := None |}]), S w);
     pymongo_MongoClient :=
       fun _ _ _ w =>
         (if database_up then Ok (fun _ w' => (Ok (VStr "oid"), S w'))
          else Raise (ExternalError "invalid URI"), S w);
     mongo_ping := fun w => (Ok tt, S w);
     mqtt_Client := fun _ w => (Ok tt, S w);
     mqtt_connect := fun _ _ _ w => (Ok tt, S w);
     mqtt_loop_start := fun w => (Ok tt, S w) |}.


End Sample.

(** * Proofs *)

(** ** Python built-ins on sample inputs *)

Example split_topic : split "/" "tuya/dev1/switch/set" = ["tuya"; "dev1"; "switch"; "set"].
Proof. reflexivity. Qed.
Example split_empty_level : split "/" "a//b" = ["a"; ""; "b"].
Proof. reflexivity. Qed.
Example split_no_sep : split "/" "" = [""].
Proof. reflexivity. Qed.
Example upper_on : ascii_upper "oN" = "ON".
Proof. reflexivity. Qed.
Example decode_ascii : decode (encode "ON") = Ok "ON".
Proof. reflexivity. Qed.
Example decode_ligature :
  decode ["o"; "239"; "172"; "128"]%byte
  = Ok (String "o" (String "239" (String "172" (String "128" "")))).
Proof. reflexivity. Qed.
Example decode_lone_continuation : decode ["128"]%byte = Raise UnicodeDecodeError.
Proof. reflexivity. Qed.
Example decode_overlong : decode ["192"; "175"]%byte = Raise UnicodeDecodeError.
Proof. reflexivity. Qed.
Example decode_surrogate : decode ["237"; "160"; "128"]%byte = Raise UnicodeDecodeError.
Proof. reflexivity. Qed.
Example decode_truncated : decode ["226"; "130"]%byte = Raise UnicodeDecodeError.
Proof. reflexivity. Qed.
Example str_int_neg : str_int (-42) = "-42".
Proof. reflexivity. Qed.
Example truediv_voltage : truediv (VInt 2305) 10 = Ok (VFloat 230.5).
Proof. vm_compute. reflexivity. Qed.
Example truediv_huge : truediv (VInt (2 ^ 1024)) 10 = Raise OverflowError.
Proof. vm_compute. reflexivity. Qed.

(** ** The program monad *)

Section MonadFacts.
Context {World : Type}.
Implicit Types s : State World.

Lemma for_each_nil {A} (body : A -> M World unit) s :
  for_each body [] s = (Ok tt, s, []).
Proof. reflexivity. Qed.

Lemma for_each_cons {A} (body : A -> M World unit) x l s :
  for_each body (x :: l) s =
  match body x s with
  | (Ok _, s1, t1) =>
      let '(r, s2, t2) := for_each body l s1 in (r, s2, t1 ++ t2)
  | (Raise e, s1, t1) => (Raise e, s1, t1)
  end.
Proof. reflexivity. Qed.

(** A loop over [l1 ++ l2] is the loop over [l1], then, if that did not
    raise, the loop over [l2] from the state it left. *)
Lemma for_each_app {A} (body : A -> M World unit) l1 l2 s :
  for_each body (l1 ++ l2) s =
  match for_each body l1 s with
  | (Ok _, s1, t1) =>
      let '(r, s2, t2) := for_each body l2 s1 in (r, s2, t1 ++ t2)
  | (Raise e, s1, t1) => (Raise e, s1, t1)
  end.
Proof.
  revert s. induction l1 as [|x l1 IH]; intros s.
  - simpl. destruct (for_each body l2 s) as [[r s2] t2]. reflexivity.
  - rewrite <- app_comm_cons, !for_each_cons.
    destruct (body x s) as [[[u|e] s1] t1]; [|reflexivity].
    rewrite IH. destruct (for_each body l1 s1) as [[[u'|e'] s1'] t1'].
    + destruct (for_each body l2 s1') as [[r s2] t2]. now rewrite app_assoc.
    + reflexivity.
Qed.

(** *** Programs that do not write [din_rail_is_on] *)

Lemma keeps_din_ret {A} (a : A) : keeps_din (ret a : M World A).
Proof. intros s. reflexivity. Qed.

Lemma keeps_din_raise {A} e : keeps_din (@raise World A e).
Proof. intros s. reflexivity. Qed.

Lemma keeps_din_lift {A} (r : result A) : keeps_din (lift r : M World A).
Proof. intros s. reflexivity. Qed.

Lemma keeps_din_emit e : keeps_din (emit e : M World unit).
Proof. intros s. reflexivity. Qed.

Lemma keeps_din_print l : keeps_din (print l : M World unit).
Proof. intros s. reflexivity. Qed.

Lemma keeps_din_publish topic p retain : keeps_din (publish topic p retain : M World unit).
Proof. intros s. reflexivity. Qed.

Lemma keeps_din_get_din : keeps_din (@get_din World).
Proof. intros s. reflexivity. Qed.

Lemma keeps_din_now (env : Env World) : keeps_din (now env).
Proof. intros s. reflexivity. Qed.

Lemma keeps_din_call {A} e (op : World -> result A * World) :
  keeps_din (call e op).
Proof. intros s. unfold call. destruct (op (world s)). reflexivity. Qed.

Lemma keeps_din_bind {A B} (m : M World A) (f : A -> M World B) :
  keeps_din m -> (forall a, keeps_din (f a)) -> keeps_din (bind m f).
Proof.
  intros Hm Hf s. unfold bind. specialize (Hm s).
  destruct (m s) as [[[a|e] s1] t1]; [|exact Hm].
  specialize (Hf a s1). destruct (f a s1) as [[r s2] t2].
  unfold state_of in *. simpl in *. congruence.
Qed.

Lemma keeps_din_try_except_only {A} catches (m : M World A) h :
  keeps_din m -> (forall e, keeps_din (h e)) ->
  keeps_din (try_except_only catches m h).
Proof.
  intros Hm Hh s. unfold try_except_only. specialize (Hm s).
  destruct (m s) as [[[a|e] s1] t1]; [exact Hm|].
  destruct (catches e); [|exact Hm].
  specialize (Hh e s1). destruct (h e s1) as [[r s2] t2].
  unfold state_of in *. simpl in *. congruence.
Qed.

Lemma keeps_din_try_except {A} (m : M World A) h :
  keeps_din m -> (forall e, keeps_din (h e)) -> keeps_din (try_except m h).
Proof.
  intros Hm Hh s. unfold try_except. specialize (Hm s).
  destruct (m s) as [[[a|e] s1] t1]; [exact Hm|].
  specialize (Hh e s1). destruct (h e s1) as [[r s2] t2].
  unfold state_of in *. simpl in *. congruence.
Qed.

Lemma keeps_din_for_each {A} (body : A -> M World unit) l :
  (forall x, keeps_din (body x)) -> keeps_din (for_each body l).
Proof.
  intros Hbody. induction l as [|x l IH].
  - apply keeps_din_ret.
  - simpl. apply keeps_din_bind; [apply Hbody | intros _; exact IH].
Qed.

(** *** Programs all of whose events satisfy a test *)

Lemma emits_ret {A} P (a : A) : emits P (ret a : M World A).
Proof. intros s. reflexivity. Qed.

Lemma emits_raise {A} P e : emits P (@raise World A e).
Proof. intros s. reflexivity. Qed.

Lemma emits_lift {A} P (r : result A) : emits P (lift r : M World A).
Proof. intros s. reflexivity. Qed.

Lemma emits_get_din P : emits P (@get_din World).
Proof. intros s. reflexivity. Qed.

Lemma emits_set_din P v : emits P (@set_din World v).
Proof. intros s. reflexivity. Qed.

Lemma emits_now P (env : Env World) : emits P (now env).
Proof. intros s. reflexivity. Qed.

Lemma emits_emit P e : P e = true -> emits P (emit e : M World unit).
Proof. intros H s. simpl. now rewrite H. Qed.

Lemma emits_call {A} P e (op : World -> result A * World) :
  P e = true -> emits P (call e op).
Proof.
  intros H s. unfold call. destruct (op (world s)). simpl. now rewrite H.
Qed.

Lemma emits_bind {A B} P (m : M World A) (f : A -> M World B) :
  emits P m -> (forall a, emits P (f a)) -> emits P (bind m f).
Proof.
  intros Hm Hf s. unfold bind. specialize (Hm s).
  destruct (m s) as [[[a|e] s1] t1]; [|exact Hm].
  specialize (Hf a s1). destruct (f a s1) as [[r s2] t2].
  unfold events_of in *. simpl in *. rewrite forallb_app, Hm, Hf. reflexivity.
Qed.

Lemma emits_try_except_only {A} P catches (m : M World A) h :
  emits P m -> (forall e, emits P (h e)) -> emits P (try_except_only catches m h).
Proof.
  intros Hm Hh s. unfold try_except_only. specialize (Hm s).
  destruct (m s) as [[[a|e] s1] t1]; [exact Hm|].
  destruct (catches e); [|exact Hm].
  specialize (Hh e s1). destruct (h e s1) as [[r s2] t2].
  unfold events_of in *. simpl in *. rewrite forallb_app, Hm, Hh. reflexivity.
Qed.

Lemma emits_try_except {A} P (m : M World A) h :
  emits P m -> (forall e, emits P (h e)) -> emits P (try_except m h).
Proof.
  intros Hm Hh s. unfold try_except. specialize (Hm s).
  destruct (m s) as [[[a|e] s1] t1]; [exact Hm|].
  specialize (Hh e s1). destruct (h e s1) as [[r s2] t2].
  unfold events_of in *. simpl in *. rewrite forallb_app, Hm, Hh. reflexivity.
Qed.

Lemma emits_for_each {A} P (body : A -> M World unit) l :
  (forall x, In x l -> emits P (body x)) -> emits P (for_each body l).
Proof.
  induction l as [|x l IH]; intros Hbody.
  - apply emits_ret.
  - simpl. apply emits_bind.
    + apply Hbody. now left.
    + intros _. apply IH. intros y Hy. apply Hbody. now right.
Qed.

(** *** Programs that keep an invariant of the state while all their
    events satisfy a test *)

Lemma maintains_ret {A} I P (a : A) : maintains I P (ret a : M World A).
Proof. intros s Hs. now split. Qed.

Lemma maintains_emit I P e : P e = true -> maintains I P (emit e : M World unit).
Proof. intros He s Hs. split; [exact Hs|]. simpl. now rewrite He. Qed.

Lemma maintains_bind {A B} I P (m : M World A) (f : A -> M World B) :
  maintains I P m -> (forall a, maintains I P (f a)) -> maintains I P (bind m f).
Proof.
  intros Hm Hf s Hs. unfold bind. destruct (Hm s Hs) as [HI HP].
  destruct (m s) as [[[a|e] s1] t1]; [|now split].
  unfold state_of, events_of in *. simpl in *.
  destruct (Hf a s1 HI) as [HI' HP'].
  destruct (f a s1) as [[r s2] t2]. simpl in *.
  split; [exact HI'|]. now rewrite forallb_app, HP, HP'.
Qed.

Lemma maintains_try_except {A} I P (m : M World A) h :
  maintains I P m -> (forall e, maintains I P (h e)) ->
  maintains I P (try_except m h).
Proof.
  intros Hm Hh s Hs. unfold try_except. destruct (Hm s Hs) as [HI HP].
  destruct (m s) as [[[a|e] s1] t1]; [now split|].
  unfold state_of, events_of in *. simpl in *.
  destruct (Hh e s1 HI) as [HI' HP'].
  destruct (h e s1) as [[r s2] t2]. simpl in *.
  split; [exact HI'|]. now rewrite forallb_app, HP, HP'.
Qed.

Lemma maintains_for_each {A} I P (body : A -> M World unit) l :
  (forall x, In x l -> maintains I P (body x)) -> maintains I P (for_each body l).
Proof.
  induction l as [|x l IH]; intros Hbody.
  - apply maintains_ret.
  - simpl. apply maintains_bind.
    + apply Hbody. now left.
    + intros _. apply IH. intros y Hy. apply Hbody. now right.
Qed.

(** A test that holds of every event filters to nothing under its negation. *)
Lemma filter_none {A} (P Q : A -> bool) l :
  forallb P l = true -> (forall x, P x = true -> Q x = false) -> filter Q l = [].
Proof.
  intros Hall HPQ. induction l as [|x l IH]; [reflexivity|].
  simpl in *. apply andb_prop in Hall as [Hx Hl].
  rewrite (HPQ x Hx). now apply IH.
Qed.

End MonadFacts.

(** Close a goal by cases on the tests it still branches on. *)
Ltac branches :=
  repeat (cbn -[truthy];
          match goal with
          | |- context [truthy ?v] => destruct (truthy v)
          | |- context [if ?b then _ else _] => destruct b
          end);
  reflexivity.

(** Goals [keeps_din m] are settled along the syntax of [m]. *)
Ltac keeps_din_step :=
  first
    [ apply keeps_din_ret | apply keeps_din_raise | apply keeps_din_lift
    | apply keeps_din_print | apply keeps_din_publish | apply keeps_din_emit
    | apply keeps_din_now | apply keeps_din_call | apply keeps_din_get_din
    | apply keeps_din_bind; [|intros ?]
    | apply keeps_din_try_except; [|intros ?]
    | apply keeps_din_try_except_only; [|intros ?]
    | apply keeps_din_for_each; intros ?
    | match goal with
      | |- keeps_din (if ?b then _ else _) => destruct b
      | |- keeps_din (match ?x with _ => _ end) => destruct x
      | |- keeps_din (let _ := _ in _) => cbv zeta
      end ].
Ltac keeps_din_tac := repeat keeps_din_step.

(** Goals [emits P m] likewise; the events themselves are tested by
    computation. *)
Ltac emits_step :=
  first
    [ apply emits_ret | apply emits_raise | apply emits_lift
    | apply emits_get_din | apply emits_set_din | apply emits_now
    | apply emits_emit; reflexivity
    | apply emits_call; reflexivity
    | apply emits_bind; [|intros ?]
    | apply emits_try_except; [|intros ?]
    | apply emits_try_except_only; [|intros ?]
    | match goal with
      | |- emits _ (if ?b then _ else _) => destruct b
      | |- emits _ (match ?x with _ => _ end) => destruct x
      | |- emits _ (let _ := _ in _) => cbv zeta
      end ].
Ltac emits_tac := repeat emits_step.

(** ** The command callback *)

Section RouterFacts.
Context {World : Type}.
Implicit Types (env : Env World) (s : State World).

Lemma batch_value_spec env v : batch_value env v = spec_on_off env v.
Proof.
  unfold batch_value, spec_on_off.
  destruct (str_upper env (str (py_repr env) v) =? "ON") eqn:Hon.
  - apply String.eqb_eq in Hon. rewrite Hon. reflexivity.
  - reflexivity.
Qed.

Lemma collect_commands_spec env items acc :
  collect_commands env items acc = acc ++ spec_batch_items env items.
Proof.
  revert acc. induction items as [|[k v] items IH]; intros acc.
  - simpl. now rewrite app_nil_r.
  - simpl. unfold spec_batch_items. simpl. unfold spec_recognised at 1. simpl.
    destruct (startswith k "switch" || startswith k "countdown").
    + rewrite IH, <- app_assoc, batch_value_spec. reflexivity.
    + apply IH.
Qed.

Lemma echo_commands_run env device_id cl s :
  for_each (echo_command env device_id) cl s =
  (Ok tt, s, echo_events env device_id cl).
Proof.
  induction cl as [|c cl IH]; [reflexivity|].
  rewrite for_each_cons. unfold echo_command at 1, publish, emit.
  rewrite IH. reflexivity.
Qed.

Lemma echo_events_no_dispatch env device_id cl :
  filter is_dispatch (echo_events env device_id cl) = [].
Proof. induction cl as [|c cl IH]; [reflexivity|exact IH]. Qed.

(** The run of [on_payload] on a three-level topic ending in [set] whose
    payload parses to a mapping, by the outcome of the dispatch. *)
Lemma batch_run env topic payload s prefix device_id items :
  split "/" topic = [prefix; device_id; "set"] ->
  json_loads env payload = Some (VDict items) ->
  let cl := spec_batch_items env items in
  on_payload env topic payload s =
  match cl with
  | [] => (Ok tt, s, received topic payload ++ [EPrint (LogNoValidCommands payload)])
  | _ :: _ =>
      let '(r, w) := cloud_sendcommand env device_id cl (world s) in
      let s' := with_world s w in
      let sent := received topic payload ++ [ESendCommand device_id cl] in
      match r with
      | Raise e => (Ok tt, s', sent ++ [EPrint (batch_error_log payload e)])
      | Ok result =>
          match method_get result "success" with
          | Raise e => (Ok tt, s', sent ++ [EPrint (batch_error_log payload e)])
          | Ok success =>
              if truthy success then
                let msg := ("JSON Command sent: "
                            ++ py_repr env (VList (map command_value cl)))%string in
                (Ok tt, s',
                 sent ++ [EPrint (LogMsg msg);
                          EPublish (response_topic device_id)
                            (JsonDumps (VDict [("status", VStr "success");
                                               ("msg", VStr msg);
                                               ("cmd", VList (map command_value cl))]))
                            false]
                      ++ echo_events env device_id cl)
              else
                let msg := ("JSON Command failed: "
                            ++ str (py_repr env) result)%string in
                (Ok tt, s',
                 sent ++ [EPrint (LogMsg msg);
                          EPublish (response_topic device_id)
                            (JsonDumps (VDict [("status", VStr "error");
                                               ("msg", VStr msg);
                                               ("result", result)]))
                            false])
          end
      end
  end.
Proof.
  intros Hparts Hjson cl.
  unfold on_payload, bind, try_except, print, emit. rewrite Hparts. simpl.
  unfold batch_command, try_except_only, bind, lift. rewrite Hjson. simpl.
  rewrite collect_commands_spec. simpl. fold cl.
  destruct cl as [|c cl']; [reflexivity|].
  unfold call. simpl.
  destruct (cloud_sendcommand env device_id (c :: cl') (world s)) as [[result|e] w];
    [|destruct e; reflexivity].
  destruct result as [ | b | z | f | str | l | d]; try reflexivity.
  simpl method_get. cbv iota beta.
  destruct (truthy (get_or_none "success" d));
    unfold local_json_dumps, ret, publish, print, emit.
  - change (bind (echo_command env device_id c)
              (fun _ : unit => for_each (echo_command env device_id) cl'))
      with (for_each (echo_command env device_id) (c :: cl')).
    rewrite echo_commands_run. reflexivity.
  - reflexivity.
Qed.

(** The dispatches of a batch message. *)
Lemma batch_dispatch_events env topic payload s prefix device_id items :
  split "/" topic = [prefix; device_id; "set"] ->
  json_loads env payload = Some (VDict items) ->
  filter is_dispatch (events_of (on_payload env topic payload s)) =
  match spec_batch_items env items with
  | [] => []
  | _ :: _ => [ESendCommand device_id (spec_batch_items env items)]
  end.
Proof.
  intros Hparts Hjson.
  rewrite (batch_run env topic payload s prefix device_id items Hparts Hjson).
  cbv zeta. destruct (spec_batch_items env items) as [|c cl'] eqn:Hcl;
    [reflexivity|].
  destruct (cloud_sendcommand env device_id (c :: cl') (world s)) as [[result|e] w];
    [|reflexivity].
  destruct (method_get result "success") as [success|e]; [|reflexivity].
  destruct (truthy success); [|reflexivity].
  unfold events_of, snd. rewrite !filter_app, echo_events_no_dispatch.
  reflexivity.
Qed.

(** The run of [on_payload] on a topic of four or more levels: the command
    is dispatched, and whatever the cloud answers, [json.dumps] is reached
    with [json] unbound before anything is published. *)
Lemma single_run env topic payload s :
  (4 <= length (split "/" topic))%nat ->
  let parts := split "/" topic in
  let device_id := nth 1 parts "" in
  let code := nth 2 parts "" in
  let commands := [(code, single_value env payload)] in
  on_payload env topic payload s =
  let '(r, w) := cloud_sendcommand env device_id commands (world s) in
  let s' := with_world s w in
  let sent := received topic payload ++ [ESendCommand device_id commands] in
  match r with
  | Raise e => (Ok tt, s', sent ++ [EPrint (LogHandlerError e)])
  | Ok result =>
      match method_get result "success" with
      | Raise e => (Ok tt, s', sent ++ [EPrint (LogHandlerError e)])
      | Ok success =>
          let msg :=
            (if truthy success
             then "Command sent: " ++ device_id ++ "/" ++ code ++ " = " ++ payload
             else "Command failed: " ++ str (py_repr env) result)%string in
          (Ok tt, s',
           sent ++ [EPrint (LogMsg msg); EPrint (LogHandlerError UnboundLocalError)])
      end
  end.
Proof.
  intros Hlen parts device_id code commands.
  unfold on_payload, bind, try_except, print, emit. fold parts.
  apply Nat.leb_le in Hlen. fold parts in Hlen. rewrite Hlen.
  unfold single_command, bind, call, lift.
  fold device_id code commands.
  destruct (cloud_sendcommand env device_id commands (world s)) as [[result|e] w];
    [|reflexivity].
  destruct (method_get result "success") as [success|e]; [|reflexivity].
  destruct (truthy success); reflexivity.
Qed.

(** On a four-level topic nothing is ever published. *)
Lemma single_command_never_publishes env topic payload s :
  (4 <= length (split "/" topic))%nat ->
  filter is_publish (events_of (on_payload env topic payload s)) = [].
Proof.
  intros Hlen. rewrite (single_run env topic payload s Hlen). cbv zeta.
  destruct (cloud_sendcommand _ _ _ _) as [[result|e] w]; [|reflexivity].
  destruct (method_get result "success") as [success|e]; reflexivity.
Qed.

(** With [json] bound (as it would be with the module-level import alone)
    the single-attribute branch answers and echoes, and the echo is ["OFF"]
    for every payload other than ON. *)
Lemma single_command_echo_when_json_bound env parts payload s result w :
  cloud_sendcommand env (nth 1 parts "") [(nth 2 parts "", single_value env payload)]
    (world s) = (Ok result, w) ->
  method_get result "success" = Ok (VBool true) ->
  str_upper env payload <> "ON" ->
  exists response,
    events_of (single_command env true parts payload s) =
    [ESendCommand (nth 1 parts "") [(nth 2 parts "", single_value env payload)];
     EPrint (LogMsg ("Command sent: " ++ nth 1 parts "" ++ "/" ++ nth 2 parts ""
                     ++ " = " ++ payload)%string);
     EPublish (response_topic (nth 1 parts "")) response false;
     EPublish (state_topic (nth 1 parts "") (nth 2 parts "")) (Text "OFF") true].
Proof.
  intros Hsend Hget Hon. apply String.eqb_neq in Hon.
  unfold single_command, bind, call, lift. rewrite Hsend, Hget. simpl.
  rewrite Hon. eexists. reflexivity.
Qed.

(** [on_message] never writes [din_rail_is_on]. *)
Lemma on_payload_keeps_din env topic payload : keeps_din (on_payload env topic payload).
Proof.
  unfold on_payload, single_command, batch_command, echo_command, local_json_dumps.
  keeps_din_tac.
Qed.

Lemma on_message_keeps_din env topic raw : keeps_din (on_message env topic raw).
Proof.
  unfold on_message. apply keeps_din_bind; [apply keeps_din_lift|].
  intros payload. apply on_payload_keeps_din.
Qed.

(** The callback on a payload that decodes, and on one that does not. *)
Lemma on_message_decoded env topic raw payload s :
  decode raw = Ok payload ->
  on_message env topic raw s = on_payload env topic payload s.
Proof.
  intros Hdec. unfold on_message, bind, lift. rewrite Hdec.
  destruct (on_payload env topic payload s) as [[r s'] t]. reflexivity.
Qed.

Lemma on_message_undecodable env topic raw s e :
  decode raw = Raise e ->
  on_message env topic raw s = (Raise e, s, []).
Proof. intros Hdec. unfold on_message, bind, lift. now rewrite Hdec. Qed.

Lemma decode_raises raw e : decode raw = Raise e -> e = UnicodeDecodeError.
Proof. unfold decode. destruct (well_formed_utf8 raw); congruence. Qed.

End RouterFacts.

(** ** The polling loop *)

Section PollerFacts.
Context {World : Type}.
Implicit Types (env : Env World) (s : State World).

Lemma logging_gate_run_state device_name device_data s :
  state_of (logging_gate device_name device_data s) =
  {| world := world s;
     din_rail_is_on := gate_din device_name device_data (din_rail_is_on s) |}.
Proof.
  unfold logging_gate, gate_din, bind, get_din, set_din, print, emit, ret.
  destruct s as [w din]. cbn -[truthy].
  destruct (device_name =? DIN_RAIL); cbn -[truthy].
  - destruct (get_or_none "switch" device_data) as [ |[|]| | | | | ];
      cbn -[truthy]; branches.
  - destruct (device_name =? TWO_CH); cbn -[truthy]; branches.
Qed.

Lemma logging_gate_run_result device_name device_data s :
  result_of (logging_gate device_name device_data s) =
  Ok (gate_should_log device_name
        (gate_din device_name device_data (din_rail_is_on s))).
Proof.
  unfold logging_gate, gate_din, gate_should_log, bind, get_din, set_din,
    print, emit, ret.
  destruct s as [w din]. cbn -[truthy].
  destruct (device_name =? DIN_RAIL); cbn -[truthy].
  - destruct (get_or_none "switch" device_data) as [ |[|]| | | | | ];
      cbn -[truthy]; branches.
  - destruct (device_name =? TWO_CH); cbn -[truthy]; branches.
Qed.

Lemma logging_gate_run device_name device_data s :
  exists t,
    logging_gate device_name device_data s =
    (Ok (gate_should_log device_name
           (gate_din device_name device_data (din_rail_is_on s))),
     {| world := world s;
        din_rail_is_on := gate_din device_name device_data (din_rail_is_on s) |},
     t).
Proof.
  pose proof (logging_gate_run_state device_name device_data s) as Hs.
  pose proof (logging_gate_run_result device_name device_data s) as Hr.
  destruct (logging_gate device_name device_data s) as [[r s'] t].
  unfold state_of, result_of in *. simpl in *. subst. now exists t.
Qed.

(** While every governing snapshot that carries a switch value carries one
    of truth value [b], a flag of truth value [b] keeps it, and every
    dependent snapshot gets [should_log = b]. *)
Lemma gate_sequence_steady (b : bool) snapshots s :
  truthy (din_rail_is_on s) = b ->
  (forall data, In (DIN_RAIL, data) snapshots ->
     is_None (get_or_none "switch" data) = true
     \/ truthy (get_or_none "switch" data) = b) ->
  exists bs,
    result_of (gate_sequence snapshots s) = Ok bs
    /\ length bs = length snapshots
    /\ forall i data,
         nth_error snapshots i = Some (TWO_CH, data) -> nth_error bs i = Some b.
Proof.
  revert s. induction snapshots as [|[name data] rest IH]; intros s Hdin Hgov.
  - exists []. repeat split. intros [|i] data H; discriminate H.
  - destruct (logging_gate_run name data s) as [t Hrun].
    set (din' := gate_din name data (din_rail_is_on s)) in *.
    assert (Hdin' : truthy din' = b).
    { unfold din', gate_din. destruct (name =? DIN_RAIL) eqn:Hname; [|exact Hdin].
      apply String.eqb_eq in Hname. subst name.
      destruct (Hgov data (or_introl eq_refl)) as [Hnone|Hb].
      - rewrite Hnone. exact Hdin.
      - destruct (is_None (get_or_none "switch" data)); [exact Hdin|exact Hb]. }
    destruct (IH {| world := world s; din_rail_is_on := din' |} Hdin'
                (fun d Hd => Hgov d (or_intror Hd))) as (bs & Hbs & Hlen & Hdep).
    exists (gate_should_log name din' :: bs).
    simpl gate_sequence. unfold bind at 1. rewrite Hrun.
    unfold bind at 1. unfold result_of in *.
    destruct (gate_sequence rest _) as [[r s2] t2]. simpl in Hbs. subst r.
    simpl. repeat split.
    + now rewrite Hlen.
    + intros [|i] d Hnth; simpl in *.
      * injection Hnth as Hname _. subst name. unfold gate_should_log.
        simpl. now rewrite Hdin'.
      * now apply (Hdep i d).
Qed.

Lemma emits_weaken {A} (P Q : event -> bool) (m : M World A) :
  (forall e, P e = true -> Q e = true) -> emits P m -> emits Q m.
Proof.
  intros HPQ Hm s. specialize (Hm s). rewrite forallb_forall in *.
  intros e He. apply HPQ, Hm, He.
Qed.

(** *** The publishing part *)

Lemma publish_item_run env device_id device_data code raw s :
  publish_item env device_id device_data (DataPoint code (Some raw)) s =
  match scale code raw with
  | Ok v =>
      (Ok (dict_set code v device_data), s,
       [EPublish (state_topic device_id code) (Text (format_value env v)) true;
        EPrint (LogItem code (format_value env v))])
  | Raise e => (Raise e, s, [])
  end.
Proof.
  unfold publish_item, bind, lift, publish, print, emit, ret.
  destruct (scale code raw); reflexivity.
Qed.

Lemma publish_items_keeps_din env device_id device_data status_list :
  keeps_din (publish_items env device_id device_data status_list).
Proof.
  revert device_data. induction status_list as [|item l IH]; intros d; simpl.
  - apply keeps_din_ret.
  - apply keeps_din_bind; [|intros d'; apply IH].
    unfold publish_item. keeps_din_tac.
Qed.

Lemma publish_snapshot_keeps_din env device_id device_name status_list t :
  keeps_din (publish_snapshot env device_id device_name status_list t).
Proof.
  unfold publish_snapshot. keeps_din_tac. apply publish_items_keeps_din.
Qed.

Lemma publish_items_emits env device_id device_data status_list :
  emits is_telemetry_event (publish_items env device_id device_data status_list).
Proof.
  revert device_data. induction status_list as [|item l IH]; intros d; simpl.
  - apply emits_ret.
  - apply emits_bind; [|intros d'; apply IH].
    unfold publish_item, publish, print. emits_tac.
Qed.

Lemma publish_snapshot_emits env device_id device_name status_list t :
  emits is_telemetry_event
    (publish_snapshot env device_id device_name status_list t).
Proof.
  unfold publish_snapshot, publish, print. emits_tac. apply publish_items_emits.
Qed.

(** With all items scalable the publishing part does not raise. *)
Lemma publish_items_returns env device_id device_data status_list s :
  Forall scalable status_list ->
  exists d, result_of (publish_items env device_id device_data status_list s) = Ok d.
Proof.
  intros Hall. revert device_data s.
  induction Hall as [|item l Hitem _ IH]; intros d s; simpl.
  - now exists d.
  - unfold bind. destruct item as [|code raw].
    + simpl. destruct (IH d s) as [d' Hd'].
      destruct (publish_items env device_id d l s) as [[r s2] t2].
      exists d'. exact Hd'.
    + destruct Hitem as (r & v & -> & Hv). rewrite publish_item_run, Hv.
      destruct (IH (dict_set code v d) s) as [d' Hd'].
      destruct (publish_items env device_id _ l s) as [[r' s2] t2].
      exists d'. exact Hd'.
Qed.

Lemma publish_snapshot_returns env device_id device_name status_list t s :
  Forall scalable status_list ->
  exists d,
    result_of (publish_snapshot env device_id device_name status_list t s) = Ok d.
Proof.
  intros Hall. unfold publish_snapshot, bind, print, emit. simpl.
  destruct (publish_items_returns env device_id [] status_list s Hall) as [d Hd].
  destruct (publish_items env device_id [] status_list s) as [[r s1] t1].
  unfold result_of in Hd. simpl in Hd. subst r. simpl. now exists d.
Qed.

(** The publishing part does not look at the database handle. *)
Lemma publish_items_collection env c device_id device_data status_list s :
  publish_items (with_collection c env) device_id device_data status_list s =
  publish_items env device_id device_data status_list s.
Proof.
  revert device_data s. induction status_list as [|item l IH]; intros d s.
  - reflexivity.
  - simpl. unfold bind.
    assert (Hitem : publish_item (with_collection c env) device_id d item s =
                    publish_item env device_id d item s)
      by (destruct item; reflexivity).
    rewrite Hitem. destruct (publish_item env device_id d item s) as [[[d'|e] s1] t1];
      [|reflexivity].
    now rewrite IH.
Qed.

Lemma publish_snapshot_collection env c device_id device_name status_list t s :
  publish_snapshot (with_collection c env) device_id device_name status_list t s =
  publish_snapshot env device_id device_name status_list t s.
Proof.
  unfold publish_snapshot, bind. simpl.
  rewrite publish_items_collection. reflexivity.
Qed.

(** *** The logging part *)

Lemma insert_snapshot_keeps_din env insert_one device_id device_name device_data :
  keeps_din (insert_snapshot env insert_one device_id device_name device_data).
Proof. unfold insert_snapshot. keeps_din_tac. Qed.

(** [insert_one] is called inside its own [try]: a failure is printed and
    the statement ends normally. *)
Lemma insert_snapshot_run env insert_one device_id device_name device_data s :
  let doc := {| doc_timestamp := time_time env (world s);
                doc_device_id := device_id; doc_device_name := device_name;
                doc_status := device_data;
                doc_source := "tuya_cloud_mqtt_bridge" |} in
  insert_snapshot env insert_one device_id device_name device_data s =
  let '(r, w) := insert_one doc (world s) in
  (Ok tt, with_world s w,
   [EInsert doc;
    EPrint (match r with Ok i => LogSaved i | Raise e => LogSaveFailed e end)]).
Proof.
  unfold insert_snapshot, bind, try_except, call, now, print, emit. simpl.
  destruct (insert_one _ (world s)) as [[i|e] w]; reflexivity.
Qed.

Lemma log_snapshot_returns env device_id device_name device_data s :
  result_of (log_snapshot env device_id device_name device_data s) = Ok tt.
Proof.
  unfold log_snapshot. destruct (collection env) as [insert_one|]; [|reflexivity].
  unfold bind. destruct (logging_gate_run device_name device_data s) as [t ->].
  destruct (gate_should_log _ _); [|reflexivity].
  rewrite insert_snapshot_run. cbv zeta.
  destruct (insert_one _ _) as [r w]. reflexivity.
Qed.

Lemma log_snapshot_emits env device_id device_name device_data :
  emits is_gate_event (log_snapshot env device_id device_name device_data).
Proof.
  unfold log_snapshot, logging_gate, insert_snapshot, print. emits_tac.
Qed.

(** For a device that is not the dependent one, the logging part neither
    inserts under the dependent name nor prints the dependent's skip. *)
Lemma log_snapshot_not_dependent env device_id device_name device_data :
  device_name <> TWO_CH ->
  emits (fun e => negb (is_dependent_outcome e))
    (log_snapshot env device_id device_name device_data).
Proof.
  intros Hname. apply String.eqb_neq in Hname.
  unfold log_snapshot. destruct (collection env) as [insert_one|]; [|apply emits_ret].
  apply emits_bind.
  - unfold logging_gate, print. rewrite Hname. emits_tac.
  - intros should_log. destruct should_log; [|apply emits_ret].
    intros s. rewrite insert_snapshot_run. cbv zeta.
    destruct (insert_one _ _) as [[i|e] w]; unfold events_of; simpl;
      rewrite Hname; reflexivity.
Qed.

(** *** The loop body and the cycle *)

Lemma process_device_run env device s :
  process_device env device s =
  match dev_id device with
  | None => (Ok tt, s, [])
  | Some device_id =>
      if device_id =? "" then (Ok tt, s, [])
      else
        let '(r, w) := cloud_getstatus env device_id (world s) in
        match r with
        | Raise e => (Raise e, with_world s w, [EGetStatus device_id])
        | Ok WithoutResult => (Ok tt, with_world s w, [EGetStatus device_id])
        | Ok (WithResult status_list t) =>
            match publish_snapshot env device_id (device_name_of device)
                    status_list t (with_world s w) with
            | (Ok d, s1, t1) =>
                let '(r2, s2, t2) :=
                  log_snapshot env device_id (device_name_of device) d s1 in
                (r2, s2, EGetStatus device_id :: t1 ++ t2)
            | (Raise e, s1, t1) => (Raise e, s1, EGetStatus device_id :: t1)
            end
        end
  end.
Proof.
  unfold process_device. destruct (dev_id device) as [device_id|]; [|reflexivity].
  destruct (device_id =? ""); [reflexivity|].
  unfold bind at 1. unfold call.
  destruct (cloud_getstatus env device_id (world s)) as [[[status_list t|]|e] w];
    try reflexivity.
  unfold bind, with_world.
  destruct (publish_snapshot _ _ _ _ _ _) as [[[d|e] s1] t1]; [|reflexivity].
  destruct (log_snapshot _ _ _ _ _) as [[r2 s2] t2]. reflexivity.
Qed.

Lemma poll_cycle_run env devices s :
  poll_cycle env devices s =
  match for_each (process_device env) devices s with
  | (Ok _, s1, t1) => (Ok tt, s1, t1 ++ [EPrint LogPollCompleted])
  | (Raise e, s1, t1) => (Ok tt, s1, t1 ++ [EPrint (LogPollError e)])
  end.
Proof.
  unfold poll_cycle, try_except, bind, print, emit.
  destruct (for_each _ devices s) as [[[u|e] s1] t1]; reflexivity.
Qed.

Lemma process_device_emits env device :
  emits (fun e => is_fetch e || is_telemetry_event e || is_gate_event e)
    (process_device env device).
Proof.
  unfold process_device.
  destruct (dev_id device) as [device_id|]; [|apply emits_ret].
  destruct (device_id =? ""); [apply emits_ret|].
  apply emits_bind; [apply emits_call; reflexivity|].
  intros [status_list t|]; [|apply emits_ret].
  apply emits_bind.
  - eapply emits_weaken; [|apply publish_snapshot_emits].
    intros e He. rewrite He. now rewrite orb_true_r.
  - intros d. eapply emits_weaken; [|apply log_snapshot_emits].
    intros e He. rewrite He. now rewrite orb_true_r.
Qed.

(** Without a database handle the loop body never writes the flag and
    never reaches the gate. *)
Lemma process_device_no_collection env device :
  collection env = None ->
  keeps_din (process_device env device)
  /\ emits (fun e => negb (is_gate_event e)) (process_device env device).
Proof.
  intros Hnone. unfold process_device, log_snapshot. rewrite Hnone. split.
  - destruct (dev_id device) as [device_id|]; [|apply keeps_din_ret].
    destruct (device_id =? ""); [apply keeps_din_ret|].
    apply keeps_din_bind; [apply keeps_din_call|].
    intros [status_list t|]; [|apply keeps_din_ret].
    apply keeps_din_bind; [|intros d; apply keeps_din_ret].
    apply publish_snapshot_keeps_din.
  - destruct (dev_id device) as [device_id|]; [|apply emits_ret].
    destruct (device_id =? ""); [apply emits_ret|].
    apply emits_bind; [apply emits_call; reflexivity|].
    intros [status_list t|]; [|apply emits_ret].
    apply emits_bind; [|intros d; apply emits_ret].
    eapply emits_weaken; [|apply publish_snapshot_emits].
    intros [| | | |[]]; simpl; congruence.
Qed.

Lemma main_loop_no_collection env devices n :
  collection env = None ->
  keeps_din (main_loop env devices n)
  /\ emits (fun e => negb (is_gate_event e)) (main_loop env devices n).
Proof.
  intros Hnone. induction n as [|n [IHk IHe]]; simpl.
  - split; [apply keeps_din_ret|apply emits_ret].
  - split.
    + apply keeps_din_bind; [|intros _; exact IHk].
      unfold poll_cycle.
      apply keeps_din_try_except; [|intros e; apply keeps_din_print].
      apply keeps_din_bind; [|intros _; apply keeps_din_print].
      apply keeps_din_for_each. intros device.
      now apply process_device_no_collection.
    + apply emits_bind; [|intros _; exact IHe].
      unfold poll_cycle, print. apply emits_try_except.
      * apply emits_bind; [|intros _; apply emits_emit; reflexivity].
        apply emits_for_each. intros device _.
        now apply process_device_no_collection.
      * intros e. apply emits_emit. reflexivity.
Qed.

(** The publishes of the loop body are those of the body run without a
    database handle. *)
Lemma process_device_publishes env c device s :
  filter is_publish (events_of (process_device (with_collection c env) device s)) =
  filter is_publish (events_of (process_device (with_collection None env) device s)).
Proof.
  rewrite !process_device_run. simpl.
  destruct (dev_id device) as [device_id|]; [|reflexivity].
  destruct (device_id =? ""); [reflexivity|].
  destruct (cloud_getstatus env device_id (world s)) as [[[status_list t|]|e] w];
    try reflexivity.
  rewrite !publish_snapshot_collection.
  destruct (publish_snapshot env _ _ _ _ _) as [[[d|e] s1] t1]; [|reflexivity].
  pose proof (log_snapshot_emits (with_collection c env) device_id
                (device_name_of device) d s1) as Hlog.
  destruct (log_snapshot (with_collection c env) _ _ _ _) as [[r2 s2] t2].
  unfold log_snapshot. simpl. unfold events_of in *. simpl in *.
  rewrite !filter_app. simpl. rewrite app_nil_r.
  rewrite (filter_none is_gate_event is_publish t2 Hlog); [now rewrite app_nil_r|].
  intros [| | | |[]]; simpl; congruence.
Qed.

(** A device that is not the dependent one produces no dependent outcome. *)
Lemma process_device_not_dependent env device :
  device_name_of device <> TWO_CH ->
  emits (fun e => negb (is_dependent_outcome e)) (process_device env device).
Proof.
  intros Hname. unfold process_device.
  destruct (dev_id device) as [device_id|]; [|apply emits_ret].
  destruct (device_id =? ""); [apply emits_ret|].
  apply emits_bind; [apply emits_call; reflexivity|].
  intros [status_list t|]; [|apply emits_ret].
  apply emits_bind.
  - eapply emits_weaken; [|apply publish_snapshot_emits].
    intros [| | | |[]]; simpl; congruence.
  - intros d. now apply log_snapshot_not_dependent.
Qed.

(** *** The flag along the loop *)

(** Only the governing device's round of the loop writes the flag. *)
Lemma process_device_keeps_din env device :
  device_name_of device <> DIN_RAIL -> keeps_din (process_device env device).
Proof.
  intros Hname. apply String.eqb_neq in Hname. unfold process_device.
  destruct (dev_id device) as [device_id|]; [|apply keeps_din_ret].
  destruct (device_id =? ""); [apply keeps_din_ret|].
  apply keeps_din_bind; [apply keeps_din_call|].
  intros [status_list t|]; [|apply keeps_din_ret].
  apply keeps_din_bind; [apply publish_snapshot_keeps_din|].
  intros d. unfold log_snapshot.
  destruct (collection env) as [insert_one|]; [|apply keeps_din_ret].
  apply keeps_din_bind.
  - intros s. rewrite logging_gate_run_state. simpl.
    unfold gate_din. now rewrite Hname.
  - intros [|]; [apply insert_snapshot_keeps_din|apply keeps_din_ret].
Qed.

(** While the flag is false the dependent device is not inserted. *)
Lemma process_device_dependent_off env device s :
  device_name_of device = TWO_CH ->
  truthy (din_rail_is_on s) = false ->
  filter is_insert (events_of (process_device env device s)) = [].
Proof.
  intros Hname Hoff. rewrite process_device_run, Hname.
  destruct (dev_id device) as [device_id|]; [|reflexivity].
  destruct (device_id =? ""); [reflexivity|].
  destruct (cloud_getstatus env device_id (world s)) as [[[status_list t|]|e] w];
    try reflexivity.
  pose proof (publish_snapshot_emits env device_id TWO_CH status_list t
                (with_world s w)) as Hpub.
  pose proof (publish_snapshot_keeps_din env device_id TWO_CH status_list t
                (with_world s w)) as Hdin.
  assert (Hnone : forall l, forallb is_telemetry_event l = true ->
                            filter is_insert l = []).
  { intros l Hl. apply (filter_none is_telemetry_event); [exact Hl|].
    intros [| | | |[]]; simpl; congruence. }
  destruct (publish_snapshot _ _ _ _ _ _) as [[[d|e] s1] t1];
    unfold events_of, state_of in *; simpl in *; [|now apply Hnone].
  unfold log_snapshot. destruct (collection env) as [insert_one|].
  - unfold bind. destruct (logging_gate_run TWO_CH d s1) as [tg Hgate].
    assert (Hclosed : gate_should_log TWO_CH (gate_din TWO_CH d (din_rail_is_on s1))
                      = false).
    { unfold gate_should_log, gate_din. simpl. now rewrite Hdin. }
    assert (Htg : filter is_insert tg = []).
    { assert (Hg : emits (fun e => negb (is_insert e))
                     (@logging_gate World TWO_CH d))
        by (unfold logging_gate, print; emits_tac).
      specialize (Hg s1). rewrite Hgate in Hg.
      apply (filter_none (fun e => negb (is_insert e))); [exact Hg|].
      intros x Hx. now apply negb_true_iff. }
    rewrite Hgate, Hclosed. simpl. rewrite app_nil_r, filter_app, Htg, app_nil_r.
    now apply Hnone.
  - simpl. rewrite app_nil_r. now apply Hnone.
Qed.

(** As long as no round of a governing device turns a false flag on, the
    flag stays false and no dependent device is inserted, over any number
    of cycles. *)
Lemma main_loop_dependents_off env devices n :
  (forall device s,
     In device devices -> device_name_of device = DIN_RAIL ->
     truthy (din_rail_is_on s) = false ->
     truthy (din_rail_is_on (state_of (process_device env device s))) = false) ->
  maintains (fun s => truthy (din_rail_is_on s) = false)
    (fun e => negb (is_dependent_insert e)) (main_loop env devices n).
Proof.
  intros Hgov.
  assert (Hweak : forall l,
             forallb (fun e => negb (is_dependent_outcome e)) l = true ->
             forallb (fun e => negb (is_dependent_insert e)) l = true).
  { intros l Hl. rewrite forallb_forall in *. intros e He.
    specialize (Hl e He). destruct e as [| | |doc|[]]; simpl in *; congruence. }
  assert (Hbody : forall device, In device devices ->
             maintains (fun s => truthy (din_rail_is_on s) = false)
               (fun e => negb (is_dependent_insert e)) (process_device env device)).
  { intros device Hin s Hoff.
    destruct (String.eqb_spec (device_name_of device) DIN_RAIL) as [Hname|Hname].
    - split; [now apply Hgov|].
      apply Hweak, process_device_not_dependent. rewrite Hname. discriminate.
    - split; [now rewrite (process_device_keeps_din env device Hname s)|].
      destruct (String.eqb_spec (device_name_of device) TWO_CH) as [Hdep|Hdep].
      + pose proof (process_device_dependent_off env device s Hdep Hoff) as Hnone.
        clear - Hnone. induction (events_of (process_device env device s)) as [|e l IH];
          [reflexivity|].
        simpl in *. destruct e as [| | |doc|]; simpl in *;
          try discriminate Hnone; now apply IH.
      + now apply Hweak, process_device_not_dependent. }
  induction n as [|n IH]; simpl; [apply maintains_ret|].
  apply maintains_bind; [|intros _; exact IH].
  unfold poll_cycle, print. apply maintains_try_except.
  - apply maintains_bind; [|intros _; apply maintains_emit; reflexivity].
    now apply maintains_for_each.
  - intros e. apply maintains_emit. reflexivity.
Qed.

Lemma governing_fetched_first_none gov_id t :
  forallb (fun e => negb (is_dependent_outcome e)) t = true ->
  governing_fetched_first gov_id t = true.
Proof.
  induction t as [|e t IH]; [reflexivity|]. simpl.
  intros H. apply andb_prop in H as [He Ht]. specialize (IH Ht).
  destruct e; simpl in *; rewrite ?IH, ?He, ?orb_true_r; reflexivity.
Qed.

Lemma governing_fetched_first_app gov_id t1 t2 :
  forallb (fun e => negb (is_dependent_outcome e)) t1 = true ->
  governing_fetched_first gov_id (t1 ++ EGetStatus gov_id :: t2) = true.
Proof.
  induction t1 as [|e t1 IH]; simpl.
  - intros _. now rewrite String.eqb_refl.
  - intros H. apply andb_prop in H as [He Ht]. specialize (IH Ht).
    destruct e; simpl in *; rewrite ?IH, ?He, ?orb_true_r; reflexivity.
Qed.

End PollerFacts.

(** The [str.upper] of the examples acts on ASCII text as [str.upper]
    does. *)
Lemma demo_upper_ascii text :
  is_ascii text = true -> Demo.upper text = ascii_upper text.
Proof.
  induction text as [|c text IH]; [reflexivity|].
  cbn [is_ascii]. intros H. apply andb_prop in H as [Hc Htext].
  specialize (IH Htext).
  destruct c as [b0 b1 b2 b3 b4 b5 b6 b7].
  destruct b7.
  - exfalso. apply Nat.ltb_lt in Hc. revert Hc.
    destruct b0, b1, b2, b3, b4, b5, b6; cbn; lia.
  - clear Hc.
    destruct b0, b1, b2, b3, b4, b5, b6; cbn [Demo.upper ascii_upper];
      rewrite IH; reflexivity.
Qed.

Section RouterClaims.
Context {World : Type}.
Implicit Types (env : Env World) (s : State World) (raw : bytes).

(** C7, as the code has it. A message on a three-level topic ending in
    [set] whose payload decodes as UTF-8 to a text that [json.loads]
    rejects is discarded: the run dispatches nothing, publishes nothing,
    leaves the state as it was, and prints the parse failure after the
    three lines every message prints. A payload that is not UTF-8 is not
    discarded with a log line: line 139 raises [UnicodeDecodeError] out of
    the callback before anything is printed. *)
Theorem malformed_batch_is_discarded env topic raw s prefix device_id :
  split "/" topic = [prefix; device_id; "set"] ->
  (forall payload,
     decode raw = Ok payload ->
     json_loads env payload = None ->
     on_message env topic raw s =
     (Ok tt, s, received topic payload ++ [EPrint (LogJsonParseFailed payload)]))
  /\ (well_formed_utf8 raw = false ->
      on_message env topic raw s = (Raise UnicodeDecodeError, s, [])).
Proof.
  intros Hparts. split.
  - intros payload Hdec Hjson. rewrite (on_message_decoded env topic raw payload s Hdec).
    unfold on_payload, bind, try_except, print, emit. rewrite Hparts. simpl.
    unfold batch_command, try_except_only, bind, lift. rewrite Hjson.
    reflexivity.
  - intros Hbad. apply on_message_undecodable. unfold decode. now rewrite Hbad.
Qed.

(** C6. For a batch message whose payload parses as a JSON object, the
    only dispatch is one command for the device carrying exactly the keys
    that start with [switch] or [countdown], in payload order, each with
    the ON/OFF mapping applied to its value: [True] when the upper-case
    form of [str(value)] is [ON], [False] when it is [OFF], the value
    itself otherwise. With [str.upper] acting on ASCII text as it does,
    an ASCII text that is ON or OFF in whatever case becomes the boolean.
    With no such key nothing is dispatched and nothing is published. *)
Theorem batch_dispatches_recognised_keys
    env topic raw payload s prefix device_id items :
  split "/" topic = [prefix; device_id; "set"] ->
  decode raw = Ok payload ->
  json_loads env payload = Some (VDict items) ->
  let cl := spec_batch_items env items in
  let run := on_message env topic raw s in
  filter is_dispatch (events_of run) =
    match cl with [] => [] | _ :: _ => [ESendCommand device_id cl] end
  /\ (forall k v,
        In (k, v) cl <->
        (startswith k "switch" = true \/ startswith k "countdown" = true)
        /\ exists v0,
             In (k, v0) items
             /\ v = (if str_upper env (str (py_repr env) v0) =? "ON" then VBool true
                     else if str_upper env (str (py_repr env) v0) =? "OFF"
                          then VBool false
                          else v0))
  /\ ((forall text, is_ascii text = true -> str_upper env text = ascii_upper text) ->
      forall k text,
        In (k, VStr text) items -> is_ascii text = true ->
        startswith k "switch" = true \/ startswith k "countdown" = true ->
        In (k, if ascii_upper text =? "ON" then VBool true
               else if ascii_upper text =? "OFF" then VBool false
                    else VStr text) cl)
  /\ (cl = [] ->
      run = (Ok tt, s, received topic payload ++ [EPrint (LogNoValidCommands payload)])).
Proof.
  intros Hparts Hdec Hjson cl run. subst run cl.
  rewrite (on_message_decoded env topic raw payload s Hdec).
  assert (Hin_cl : forall k v,
             In (k, v) (spec_batch_items env items) <->
             (startswith k "switch" = true \/ startswith k "countdown" = true)
             /\ exists v0,
                  In (k, v0) items
                  /\ v = (if str_upper env (str (py_repr env) v0) =? "ON"
                          then VBool true
                          else if str_upper env (str (py_repr env) v0) =? "OFF"
                               then VBool false
                               else v0)).
  { intros k v. unfold spec_batch_items. rewrite in_map_iff. split.
    - intros ([k0 v0] & [= <- <-] & Hin). apply filter_In in Hin as [Hin Hk].
      unfold spec_recognised in Hk. cbn [fst] in Hk.
      apply orb_true_iff in Hk. split; [exact Hk|].
      exists v0. split; [exact Hin|reflexivity].
    - intros (Hk & v0 & Hin & ->). exists (k, v0). split; [reflexivity|].
      apply filter_In. split; [exact Hin|].
      unfold spec_recognised. cbn [fst]. now apply orb_true_iff. }
  split; [|split; [|split]].
  - now apply (batch_dispatch_events env topic payload s prefix device_id items).
  - exact Hin_cl.
  - intros Hupper k text Hin Hascii Hk. apply Hin_cl. split; [exact Hk|].
    exists (VStr text). split; [exact Hin|]. cbn [str].
    now rewrite (Hupper text Hascii).
  - intros Hnone.
    rewrite (batch_run env topic payload s prefix device_id items Hparts Hjson).
    cbv zeta. rewrite Hnone. reflexivity.
Qed.

(** C2, as the code runs on a single-attribute message. The command is
    dispatched and the cloud reports success; the run prints the message of
    line 168 and then stops at the first [json.dumps], where the name
    [json] is unbound, so that the handler of line 225 prints the error:
    neither the response nor the state echo is published. *)
Theorem accepted_single_command_is_not_answered
    env topic raw payload s result w success :
  let parts := split "/" topic in
  let device_id := nth 1 parts "" in
  let code := nth 2 parts "" in
  decode raw = Ok payload ->
  (4 <= length parts)%nat ->
  cloud_sendcommand env device_id [(code, single_value env payload)] (world s) =
  (Ok result, w) ->
  method_get result "success" = Ok success ->
  truthy success = true ->
  on_message env topic raw s =
  (Ok tt, with_world s w,
   received topic payload
   ++ [ESendCommand device_id [(code, single_value env payload)];
       EPrint (LogMsg ("Command sent: " ++ device_id ++ "/" ++ code ++ " = "
                       ++ payload)%string);
       EPrint (LogHandlerError UnboundLocalError)]).
Proof.
  intros parts device_id code Hdec Hlen Hsend Hget Hsuccess.
  rewrite (on_message_decoded env topic raw payload s Hdec).
  rewrite (single_run env topic payload s Hlen). cbv zeta.
  fold parts. fold device_id. fold code.
  rewrite Hsend, Hget, Hsuccess. now rewrite <- app_assoc.
Qed.

End RouterClaims.

(** *** The callback on concrete messages *)

Lemma malformed_batch_is_discarded_witness :
  on_message Demo.router "tuya/dev1/set" (encode Demo.payload_malformed)
    (initial_state 0) =
  (Ok tt, initial_state 0,
   received "tuya/dev1/set" Demo.payload_malformed
   ++ [EPrint (LogJsonParseFailed Demo.payload_malformed)])
  /\ on_message Demo.router "tuya/dev1/set" ["{"; "255"]%byte (initial_state 0) =
     (Raise UnicodeDecodeError, initial_state 0, []).
Proof.
  split.
  - apply (proj1 (malformed_batch_is_discarded Demo.router "tuya/dev1/set"
                    (encode Demo.payload_malformed) (initial_state 0) "tuya" "dev1"
                    eq_refl) Demo.payload_malformed);
      reflexivity.
  - apply (proj2 (malformed_batch_is_discarded Demo.router "tuya/dev1/set"
                    ["{"; "255"]%byte (initial_state 0) "tuya" "dev1" eq_refl)).
    reflexivity.
Defined.

(** C7, as stated, fails: a batch payload that is not UTF-8, hence not
    valid JSON, is not discarded with a log line. The subscription
    [tuya/+/set] delivers it, and the callback raises before its first
    [print]. *)
Lemma undecodable_batch_payload_escapes :
  mqtt_matches (MQTT_TOPIC_PREFIX ++ "/+/set") "tuya/dev1/set" = true
  /\ decode ["{"; "255"]%byte = Raise UnicodeDecodeError
  /\ on_message Demo.router "tuya/dev1/set" ["{"; "255"]%byte (initial_state 0) =
     (Raise UnicodeDecodeError, initial_state 0, [])
  /\ ~ (exists s t,
          on_message Demo.router "tuya/dev1/set" ["{"; "255"]%byte (initial_state 0) =
          (Ok tt, s, t)).
Proof.
  repeat split. intros (s & t & H). discriminate H.
Qed.

(** [json.loads] takes more than JSON: the text [{"switch_1": NaN}] parses,
    and the command is dispatched with the value [nan]. *)
Example nan_payload_is_dispatched :
  filter is_dispatch
    (events_of (on_message Demo.router "tuya/dev1/set" (encode Demo.payload_nan)
                  (initial_state 0))) =
  [ESendCommand "dev1" [("switch_1", VFloat nan)]].
Proof. reflexivity. Qed.

(** The example of the specification: of [switch_1] and [brightness] only
    [switch_1] is dispatched, with value [true]. In whatever case ON and
    OFF are written they become booleans, another text stays; a payload
    with [brightness] alone dispatches and publishes nothing. *)
Lemma batch_dispatches_recognised_keys_witness :
  filter is_dispatch
    (events_of (on_message Demo.router "tuya/dev1/set" (encode Demo.payload_mixed)
                  (initial_state 0))) =
  [ESendCommand "dev1" [("switch_1", VBool true)]]
  /\ filter is_dispatch
       (events_of (on_message Demo.router "tuya/dev1/set" (encode Demo.payload_cased)
                     (initial_state 0))) =
     [ESendCommand "dev1"
        [("switch_1", VBool true); ("countdown_1", VBool false);
         ("switch_2", VStr "dim")]]
  /\ In ("countdown_1", VBool false)
       (spec_batch_items Demo.router
          [("switch_1", VStr "on"); ("countdown_1", VStr "Off");
           ("switch_2", VStr "dim"); ("brightness", VInt 50)])
  /\ on_message Demo.router "tuya/dev1/set" (encode Demo.payload_unrecognised)
       (initial_state 0) =
     (Ok tt, initial_state 0,
      received "tuya/dev1/set" Demo.payload_unrecognised
      ++ [EPrint (LogNoValidCommands Demo.payload_unrecognised)]).
Proof.
  repeat apply conj.
  - exact (proj1 (batch_dispatches_recognised_keys Demo.router "tuya/dev1/set"
                    (encode Demo.payload_mixed) Demo.payload_mixed
                    (initial_state 0) "tuya" "dev1"
                    [("switch_1", VStr "ON"); ("brightness", VInt 50)]
                    eq_refl eq_refl eq_refl)).
  - exact (proj1 (batch_dispatches_recognised_keys Demo.router "tuya/dev1/set"
                    (encode Demo.payload_cased) Demo.payload_cased
                    (initial_state 0) "tuya" "dev1"
                    [("switch_1", VStr "on"); ("countdown_1", VStr "Off");
                     ("switch_2", VStr "dim"); ("brightness", VInt 50)]
                    eq_refl eq_refl eq_refl)).
  - exact (proj1 (proj2 (proj2 (batch_dispatches_recognised_keys Demo.router
                                  "tuya/dev1/set"
                                  (encode Demo.payload_cased) Demo.payload_cased
                                  (initial_state 0) "tuya" "dev1"
                                  [("switch_1", VStr "on"); ("countdown_1", VStr "Off");
                                   ("switch_2", VStr "dim"); ("brightness", VInt 50)]
                                  eq_refl eq_refl eq_refl)))
             demo_upper_ascii "countdown_1" "Off"
             (or_intror (or_introl eq_refl)) eq_refl (or_intror eq_refl)).
  - exact (proj2 (proj2 (proj2 (batch_dispatches_recognised_keys Demo.router
                                  "tuya/dev1/set"
                                  (encode Demo.payload_unrecognised)
                                  Demo.payload_unrecognised
                                  (initial_state 0) "tuya" "dev1"
                                  [("brightness", VInt 50)] eq_refl eq_refl eq_refl)))
             eq_refl).
Defined.

(** At the message of the specification's example: the cloud accepts the
    command [switch = true] for [dev1], and neither the response nor the
    state echo is published. *)
Lemma accepted_single_command_is_not_answered_witness :
  on_message Demo.router "tuya/dev1/switch/set" (encode "ON") (initial_state 0) =
  (Ok tt, with_world (initial_state 0) 1,
   received "tuya/dev1/switch/set" "ON"
   ++ [ESendCommand "dev1" [("switch", VBool true)];
       EPrint (LogMsg "Command sent: dev1/switch = ON");
       EPrint (LogHandlerError UnboundLocalError)]).
Proof.
  apply (accepted_single_command_is_not_answered Demo.router
           "tuya/dev1/switch/set" (encode "ON") "ON" (initial_state 0)
           (VDict [("success", VBool true)]) 1%nat (VBool true)).
  - reflexivity.
  - simpl. lia.
  - reflexivity.
  - reflexivity.
  - reflexivity.
Defined.

(** The batch branch of the same callback does publish the response and
    then echoes every command of the batch. *)
Example batch_success_is_answered_and_echoed :
  filter is_publish
    (events_of (on_message Demo.router "tuya/dev1/set" (encode Demo.payload_mixed)
                  (initial_state 0))) =
  [EPublish "tuya/dev1/response"
     (JsonDumps
        (VDict [("status", VStr "success");
                ("msg", VStr "JSON Command sent: <container>");
                ("cmd", VList [VDict [("code", VStr "switch_1");
                                      ("value", VBool true)]])]))
     false;
   EPublish "tuya/dev1/switch_1/state" (Text "ON") true].
Proof. reflexivity. Qed.

(** Were [json] bound in the single-attribute branch, the echo of a payload
    other than ON would still be ["OFF"], not the requested value. *)
Example single_command_opaque_payload_echo :
  filter is_publish
    (events_of (single_command Demo.router true (split "/" "tuya/dev1/bright_value/set")
                  "50" (initial_state 0))) =
  [EPublish "tuya/dev1/response"
     (JsonDumps
        (VDict [("status", VStr "success");
                ("msg", VStr "Command sent: dev1/bright_value = 50");
                ("code", VStr "bright_value"); ("value", VStr "50")]))
     false;
   EPublish "tuya/dev1/bright_value/state" (Text "OFF") true].
Proof. reflexivity. Qed.

(** [str.upper] is the interpreter's: the payload [o] followed by the
    ligature U+FB00 is sent as [False]. *)
Example ligature_payload_is_read_as_off :
  filter is_dispatch
    (events_of (on_message Demo.router "tuya/dev1/switch/set"
                  ["o"; "239"; "172"; "128"]%byte (initial_state 0))) =
  [ESendCommand "dev1" [("switch", VBool false)]].
Proof. reflexivity. Qed.

Section GateClaims.
Context {World : Type}.
Implicit Types (env : Env World) (s : State World).

(** C3. [din_rail_is_on] starts [True]. The gate on a governing snapshot
    whose data has a boolean under ["switch"] overwrites the flag with it;
    the gate on any other snapshot, the round of the loop for any other
    device, the publishing part of the loop body, the insert and the
    command callback leave the flag as it is. After a governing snapshot
    with switch [False], every dependent snapshot gets [should_log = False]
    for as long as no governing snapshot carries a true switch, and after
    one with switch [True] every dependent snapshot gets [should_log = True]
    for as long as none carries a false one. In the loop itself: from a
    false flag, over any number of cycles in which no round of a governing
    device turns it on, the flag stays false and no dependent device is
    inserted. A device that is neither governing nor dependent always gets
    [should_log = True]. *)
Theorem governance_flag_gates_dependents :
  (forall w : World, din_rail_is_on (initial_state w) = VBool true)
  /\ (forall device_data s b,
        dict_get "switch" device_data = Some (VBool b) ->
        din_rail_is_on (state_of (logging_gate DIN_RAIL device_data s)) = VBool b)
  /\ (forall device_name device_data s,
        device_name <> DIN_RAIL \/ get_or_none "switch" device_data = VNone ->
        din_rail_is_on (state_of (logging_gate device_name device_data s)) =
        din_rail_is_on s)
  /\ (forall env device_id device_name status_list t,
        keeps_din (publish_snapshot env device_id device_name status_list t))
  /\ (forall env insert_one device_id device_name device_data,
        keeps_din (insert_snapshot env insert_one device_id device_name device_data))
  /\ (forall env topic raw, keeps_din (on_message env topic raw))
  /\ (forall env device,
        device_name_of device <> DIN_RAIL -> keeps_din (process_device env device))
  /\ (forall (b : bool) device_data rest s,
        dict_get "switch" device_data = Some (VBool b) ->
        (forall data, In (DIN_RAIL, data) rest ->
           is_None (get_or_none "switch" data) = true
           \/ truthy (get_or_none "switch" data) = b) ->
        exists bs,
          result_of (gate_sequence ((DIN_RAIL, device_data) :: rest) s) = Ok (b :: bs)
          /\ forall i data,
               nth_error rest i = Some (TWO_CH, data) -> nth_error bs i = Some b)
  /\ (forall env devices n s,
        (forall device s',
           In device devices -> device_name_of device = DIN_RAIL ->
           truthy (din_rail_is_on s') = false ->
           truthy (din_rail_is_on (state_of (process_device env device s'))) = false) ->
        truthy (din_rail_is_on s) = false ->
        truthy (din_rail_is_on (state_of (main_loop env devices n s))) = false
        /\ filter is_dependent_insert (events_of (main_loop env devices n s)) = [])
  /\ (forall device_name device_data s,
        device_name <> DIN_RAIL -> device_name <> TWO_CH ->
        result_of (logging_gate device_name device_data s) = Ok true).
Proof.
  repeat apply conj.
  - reflexivity.
  - intros data s b Hsw. rewrite logging_gate_run_state. simpl.
    unfold gate_din, get_or_none. rewrite Hsw. reflexivity.
  - intros name data s H. rewrite logging_gate_run_state. simpl.
    unfold gate_din. destruct H as [H|H].
    + apply String.eqb_neq in H. rewrite H. reflexivity.
    + rewrite H. now rewrite andb_false_r.
  - intros env device_id device_name status_list t.
    apply publish_snapshot_keeps_din.
  - intros env insert_one device_id device_name device_data.
    apply insert_snapshot_keeps_din.
  - intros env topic raw. apply on_message_keeps_din.
  - intros env device. apply process_device_keeps_din.
  - intros b data rest s Hsw Hgov.
    destruct (logging_gate_run DIN_RAIL data s) as [t Hrun].
    assert (Hdin : gate_din DIN_RAIL data (din_rail_is_on s) = VBool b)
      by (unfold gate_din, get_or_none; rewrite Hsw; reflexivity).
    rewrite Hdin in Hrun.
    destruct (gate_sequence_steady b rest
                {| world := world s; din_rail_is_on := VBool b |} eq_refl Hgov)
      as (bs & Hbs & _ & Hdep).
    exists bs. split; [|exact Hdep].
    simpl gate_sequence. unfold bind at 1. rewrite Hrun.
    unfold bind at 1. unfold result_of in *.
    destruct (gate_sequence rest _) as [[r s2] t2]. simpl in Hbs. subst r.
    reflexivity.
  - intros env devices n s Hgov Hoff.
    destruct (main_loop_dependents_off env devices n Hgov s Hoff) as [Hdin Hev].
    split; [exact Hdin|].
    apply (filter_none (fun e => negb (is_dependent_insert e))); [exact Hev|].
    intros e He. now apply negb_true_iff.
  - intros name data s Hgov Hdep. rewrite logging_gate_run_result.
    unfold gate_should_log.
    apply String.eqb_neq in Hgov, Hdep. now rewrite Hgov, Hdep.
Qed.

End GateClaims.

(** ** The conversion of an [int] to a double *)

Section IntToFloat.
Local Open Scope Z_scope.

Lemma digits2_pos_iter p k :
  digits2_pos (Pos.iter xO p k) = (digits2_pos p + k)%positive.
Proof.
  induction k as [|k IH] using Pos.peano_ind.
  - simpl. lia.
  - rewrite Pos.iter_succ. simpl. rewrite IH. lia.
Qed.

Lemma Zpos_iter_xO p k : Z.pos (Pos.iter xO p k) = Z.pos p * 2 ^ Z.pos k.
Proof.
  induction k as [|k IH] using Pos.peano_ind.
  - simpl. lia.
  - rewrite Pos.iter_succ, Pos2Z.inj_succ, Z.pow_succ_r by lia.
    rewrite Pos2Z.inj_xO, IH. lia.
Qed.

Lemma digits2_pos_lower p : 2 ^ (Z.pos (digits2_pos p) - 1) <= Z.pos p.
Proof.
  induction p as [p IH|p IH|]; simpl digits2_pos.
  - rewrite Pos2Z.inj_succ. replace (Z.succ (Z.pos (digits2_pos p)) - 1)
      with (Z.succ (Z.pos (digits2_pos p) - 1)) by lia.
    rewrite Z.pow_succ_r by lia. lia.
  - rewrite Pos2Z.inj_succ. replace (Z.succ (Z.pos (digits2_pos p)) - 1)
      with (Z.succ (Z.pos (digits2_pos p) - 1)) by lia.
    rewrite Z.pow_succ_r by lia. lia.
  - simpl. lia.
Qed.

Lemma binary_round_aux_canonical sx m e :
  Z.pos (digits2_pos m) = 53 -> -1074 <= e <= 971 ->
  binary_round_aux prec emax sx (Z.pos m) e loc_Exact = S754_finite sx m e.
Proof.
  intros Hd He.
  assert (Hshr : shr_fexp prec emax (Z.pos m) e loc_Exact =
                 ({| shr_m := Z.pos m; shr_r := false; shr_s := false |}, e)).
  { unfold shr_fexp, fexp, Zdigits2, SpecFloat.emin, prec, emax. rewrite Hd.
    replace (Z.max (53 + e - 53) (3 - 1024 - 53) - e) with 0 by lia.
    reflexivity. }
  unfold binary_round_aux. rewrite Hshr. cbn [shr_m loc_of_shr_record round_nearest_even].
  rewrite Hshr. cbn [shr_m].
  replace (e <=? emax - prec) with true; [reflexivity|].
  symmetry. apply Z.leb_le. unfold emax, prec. lia.
Qed.

Lemma binary_round_small sx p :
  Z.pos p < 2 ^ 53 ->
  exists m e,
    binary_round prec emax sx p 0 = S754_finite sx m e
    /\ Z.pos (digits2_pos m) = 53 /\ -52 <= e <= 0
    /\ Z.pos m = Z.pos p * 2 ^ (- e).
Proof.
  intros Hp.
  pose proof (digits2_pos_lower p) as Hlow.
  assert (Hd : Z.pos (digits2_pos p) <= 53).
  { destruct (Z_le_gt_dec (Z.pos (digits2_pos p)) 53) as [H|H]; [exact H|].
    assert (2 ^ 53 <= 2 ^ (Z.pos (digits2_pos p) - 1))
      by (apply Z.pow_le_mono_r; lia).
    lia. }
  unfold binary_round, shl_align, fexp, SpecFloat.emin, prec, emax.
  replace (Z.max (Z.pos (digits2_pos p) + 0 - 53) (3 - 1024 - 53) - 0)
    with (Z.pos (digits2_pos p) - 53) by lia.
  destruct (Z.pos (digits2_pos p) - 53) as [|k|k] eqn:Hk; [|lia|].
  - exists p, 0. split; [|split; [lia|split; [lia|simpl; lia]]].
    apply (binary_round_aux_canonical sx p 0); lia.
  - exists (Pos.iter xO p k), (Z.max (Z.pos (digits2_pos p) + 0 - 53) (3 - 1024 - 53)).
    replace (Z.max (Z.pos (digits2_pos p) + 0 - 53) (3 - 1024 - 53))
      with (Z.neg k) by lia.
    assert (Hdig : Z.pos (digits2_pos (Pos.iter xO p k)) = 53)
      by (rewrite digits2_pos_iter; lia).
    split; [|split; [exact Hdig|split; [lia|]]].
    + apply (binary_round_aux_canonical sx (Pos.iter xO p k) (Z.neg k)); lia.
    + rewrite Zpos_iter_xO. reflexivity.
Qed.

Lemma is_infinity_finite s m e :
  valid_binary (S754_finite s m e) = true ->
  is_infinity (SF2Prim (S754_finite s m e)) = false.
Proof.
  intros Hv. unfold is_infinity.
  rewrite eqb_spec, abs_spec, (Prim2SF_SF2Prim _ Hv).
  reflexivity.
Qed.

Lemma float_of_int_signed (sx : bool) p :
  Z.pos p < 2 ^ 53 ->
  exists f,
    float_of_int (if sx then Z.neg p else Z.pos p) = Ok f
    /\ float_eq_int f (if sx then Z.neg p else Z.pos p) = true.
Proof.
  intros Hp. destruct (binary_round_small sx p Hp) as (m & e & Hround & Hd & He & Hm).
  assert (Hv : valid_binary (S754_finite sx m e) = true).
  { unfold SpecFloat.valid_binary, bounded, canonical_mantissa, fexp, SpecFloat.emin,
      prec, emax.
    rewrite Hd. apply andb_true_intro. split; [apply Z.eqb_eq|apply Z.leb_le]; lia. }
  exists (SF2Prim (S754_finite sx m e)).
  assert (Hnorm : binary_normalize prec emax (if sx then Z.neg p else Z.pos p) 0 false
                  = S754_finite sx m e)
    by (destruct sx; exact Hround).
  split.
  - unfold float_of_int. rewrite Hnorm. cbv zeta.
    now rewrite (is_infinity_finite sx m e Hv).
  - unfold float_eq_int. rewrite (Prim2SF_SF2Prim _ Hv).
    apply andb_true_intro. split; [apply Z.leb_le; lia|apply Z.eqb_eq].
    destruct sx; [|exact Hm].
    change (Z.neg m) with (- Z.pos m). change (Z.neg p) with (- Z.pos p). lia.
Qed.

Lemma float_of_int_exact z :
  Z.abs z < 2 ^ 53 ->
  exists f, float_of_int z = Ok f /\ float_eq_int f z = true.
Proof.
  intros Hz. destruct z as [|p|p].
  - exists zero. split; reflexivity.
  - apply (float_of_int_signed false p). exact Hz.
  - apply (float_of_int_signed true p). exact Hz.
Qed.

Lemma digits2_pos_upper p : Z.pos p < 2 ^ Z.pos (digits2_pos p).
Proof.
  induction p as [p IH|p IH|]; simpl digits2_pos.
  - rewrite Pos2Z.inj_succ, Z.pow_succ_r by lia. lia.
  - rewrite Pos2Z.inj_succ, Z.pow_succ_r by lia. lia.
  - simpl. lia.
Qed.

Lemma shr_1_m mrs : 0 <= shr_m mrs -> shr_m (shr_1 mrs) = shr_m mrs / 2.
Proof.
  destruct mrs as [m r s]. cbn [shr_m]. intros Hm.
  destruct m as [|[p|p|]|p]; cbn [shr_1 shr_m]; [reflexivity| | |reflexivity|lia].
  - rewrite Pos2Z.inj_xI. apply Z.div_unique with (r := 1); lia.
  - rewrite Pos2Z.inj_xO. apply Z.div_unique with (r := 0); lia.
Qed.

Lemma shr_m_iter k mrs :
  0 <= shr_m mrs -> shr_m (iter_pos shr_1 k mrs) = shr_m mrs / 2 ^ Z.pos k.
Proof.
  revert mrs. induction k as [k IH|k IH|]; intros mrs Hm; cbn [iter_pos].
  - assert (H1 : 0 <= shr_m (shr_1 mrs))
      by (rewrite shr_1_m by exact Hm; apply Z.div_pos; lia).
    assert (H2 : 0 <= shr_m (iter_pos shr_1 k (shr_1 mrs)))
      by (rewrite IH by exact H1; apply Z.div_pos; [exact H1|apply Z.pow_pos_nonneg; lia]).
    rewrite IH by exact H2. rewrite IH by exact H1. rewrite shr_1_m by exact Hm.
    rewrite !Z.div_div by (try apply Z.pow_pos_nonneg; lia).
    f_equal. replace (Z.pos k~1) with (1 + Z.pos k + Z.pos k) by lia.
    rewrite !Z.pow_add_r by lia. lia.
  - assert (H2 : 0 <= shr_m (iter_pos shr_1 k mrs))
      by (rewrite IH by exact Hm; apply Z.div_pos; [exact Hm|apply Z.pow_pos_nonneg; lia]).
    rewrite IH by exact H2. rewrite IH by exact Hm.
    rewrite !Z.div_div by (try apply Z.pow_pos_nonneg; lia).
    f_equal. replace (Z.pos k~0) with (Z.pos k + Z.pos k) by lia.
    rewrite !Z.pow_add_r by lia. lia.
  - rewrite shr_1_m by exact Hm. reflexivity.
Qed.

Lemma round_nearest_even_bounds m l :
  m <= round_nearest_even m l <= m + 1.
Proof.
  destruct l as [|[| |]]; cbn [round_nearest_even]; try lia.
  destruct (Z.even m); lia.
Qed.

Lemma digits2_pos_spec p d :
  2 ^ (d - 1) <= Z.pos p < 2 ^ d -> 0 < d -> Z.pos (digits2_pos p) = d.
Proof.
  intros [Hlo Hhi] Hd.
  pose proof (digits2_pos_lower p) as Hl. pose proof (digits2_pos_upper p) as Hu.
  destruct (Z.compare_spec (Z.pos (digits2_pos p)) d) as [H|H|H]; [exact H| |].
  - assert (2 ^ Z.pos (digits2_pos p) <= 2 ^ (d - 1)) by (apply Z.pow_le_mono_r; lia).
    lia.
  - assert (2 ^ d <= 2 ^ (Z.pos (digits2_pos p) - 1)) by (apply Z.pow_le_mono_r; lia).
    lia.
Qed.

Lemma shr_1_r mrs : 0 <= shr_m mrs -> shr_r (shr_1 mrs) = Z.odd (shr_m mrs).
Proof.
  destruct mrs as [m r s]. cbn [shr_m]. intros Hm.
  destruct m as [|[p|p|]|p]; cbn [shr_1 shr_r]; try reflexivity. lia.
Qed.

Lemma shr_m_iter_nonneg k mrs : 0 <= shr_m mrs -> 0 <= shr_m (iter_pos shr_1 k mrs).
Proof.
  intros Hm. rewrite shr_m_iter by exact Hm.
  apply Z.div_pos; [exact Hm|apply Z.pow_pos_nonneg; lia].
Qed.

Lemma shr_r_iter k mrs :
  0 <= shr_m mrs ->
  shr_r (iter_pos shr_1 k mrs) = Z.odd (shr_m mrs / 2 ^ (Z.pos k - 1)).
Proof.
  revert mrs. induction k as [k IH|k IH|]; intros mrs Hm; cbn [iter_pos].
  - assert (H1 : 0 <= shr_m (shr_1 mrs))
      by (rewrite shr_1_m by exact Hm; apply Z.div_pos; lia).
    rewrite IH by (apply shr_m_iter_nonneg; exact H1).
    rewrite shr_m_iter by exact H1. rewrite shr_1_m by exact Hm.
    rewrite !Z.div_div by (try apply Z.pow_pos_nonneg; lia).
    f_equal. f_equal.
    replace (Z.pos k~1 - 1) with (1 + Z.pos k + (Z.pos k - 1)) by lia.
    rewrite !Z.pow_add_r by lia. lia.
  - rewrite IH by (apply shr_m_iter_nonneg; exact Hm).
    rewrite shr_m_iter by exact Hm.
    rewrite !Z.div_div by (try apply Z.pow_pos_nonneg; lia).
    f_equal. f_equal.
    replace (Z.pos k~0 - 1) with (Z.pos k + (Z.pos k - 1)) by lia.
    rewrite !Z.pow_add_r by lia. lia.
  - rewrite shr_1_r by exact Hm. simpl. now rewrite Z.div_1_r.
Qed.

Lemma round_nearest_even_down mrs :
  shr_r mrs = false ->
  round_nearest_even (shr_m mrs) (loc_of_shr_record mrs) = shr_m mrs.
Proof. destruct mrs as [m [|] [|]]; cbn; intros H; try discriminate H; reflexivity. Qed.

Lemma round_nearest_even_up mrs :
  shr_r mrs = true -> Z.even (shr_m mrs) = false ->
  round_nearest_even (shr_m mrs) (loc_of_shr_record mrs) = shr_m mrs + 1.
Proof.
  destruct mrs as [m [|] [|]]; cbn; intros H Hodd; try discriminate H;
    rewrite ?Hodd; reflexivity.
Qed.

Lemma binary_round_large sx p k :
  Z.pos (digits2_pos p) - 53 = Z.pos k ->
  exists m e,
    (e = Z.pos k \/ e = Z.pos k + 1)
    /\ (e = Z.pos k + 1 <->
        Z.pos p / 2 ^ Z.pos k = 2 ^ 53 - 1
        /\ Z.odd (Z.pos p / 2 ^ (Z.pos k - 1)) = true)
    /\ Z.pos (digits2_pos m) = 53
    /\ binary_round prec emax sx p 0 =
       if e <=? 971 then S754_finite sx m e else S754_infinity sx.
Proof.
  intros Hk.
  pose proof (digits2_pos_lower p) as Hlow. pose proof (digits2_pos_upper p) as Hup.
  set (d := Z.pos (digits2_pos p)) in *.
  assert (Hd : d = 53 + Z.pos k) by lia.
  unfold binary_round, shl_align, fexp, SpecFloat.emin, prec, emax. fold d.
  replace (Z.max (d + 0 - 53) (3 - 1024 - 53) - 0) with (Z.pos k) by lia.
  unfold binary_round_aux, shr_fexp at 1. cbn [Zdigits2 shr_record_of_loc]. fold d.
  unfold fexp, SpecFloat.emin.
  replace (Z.max (d + 0 - 53) (3 - 1024 - 53) - 0) with (Z.pos k) by lia.
  cbn [shr].
  set (mrs := iter_pos shr_1 k {| shr_m := Z.pos p; shr_r := false; shr_s := false |}).
  assert (Hm1 : shr_m mrs = Z.pos p / 2 ^ Z.pos k)
    by (unfold mrs; rewrite shr_m_iter; cbn [shr_m]; [reflexivity|lia]).
  assert (Hr : shr_r mrs = Z.odd (Z.pos p / 2 ^ (Z.pos k - 1)))
    by (unfold mrs; rewrite shr_r_iter; cbn [shr_m]; [reflexivity|lia]).
  rewrite <- Hm1, <- Hr.
  assert (Hpow : 2 ^ d = 2 ^ 53 * 2 ^ Z.pos k)
    by (rewrite Hd, Z.pow_add_r by lia; reflexivity).
  assert (Hpow' : 2 ^ (d - 1) = 2 ^ 52 * 2 ^ Z.pos k)
    by (replace (d - 1) with (52 + Z.pos k) by lia; rewrite Z.pow_add_r by lia;
        reflexivity).
  assert (Hk0 : 0 < 2 ^ Z.pos k) by (apply Z.pow_pos_nonneg; lia).
  assert (Hrange : 2 ^ 52 <= shr_m mrs < 2 ^ 53).
  { rewrite Hm1. split.
    - apply Z.div_le_lower_bound; lia.
    - apply Z.div_lt_upper_bound; lia. }
  pose proof (round_nearest_even_bounds (shr_m mrs) (loc_of_shr_record mrs)) as Hrne.
  pose proof (round_nearest_even_down mrs) as Hdown.
  pose proof (round_nearest_even_up mrs) as Hround_up.
  set (m2 := round_nearest_even (shr_m mrs) (loc_of_shr_record mrs)) in *.
  destruct m2 as [|q|q] eqn:Hm2; [lia| |lia].
  destruct (Z_lt_ge_dec (Z.pos q) (2 ^ 53)) as [Hlt|Hge].
  - assert (Hdq : Z.pos (digits2_pos q) = 53) by (apply digits2_pos_spec; lia).
    exists q, (0 + Z.pos k). split; [left; lia|]. split; [|split; [exact Hdq|]].
    + split; [lia|]. intros [Hall Hodd].
      assert (Heven : Z.even (shr_m mrs) = false) by (rewrite Hall; reflexivity).
      specialize (Hround_up Hodd Heven). lia.
    + unfold shr_fexp, fexp, SpecFloat.emin. cbn [Zdigits2 shr_record_of_loc].
      rewrite Hdq.
      replace (Z.max (53 + (0 + Z.pos k) - 53) (3 - 1024 - 53) - (0 + Z.pos k))
        with 0 by lia.
      reflexivity.
  - assert (Hq : Z.pos q = 2 ^ 53) by lia.
    assert (Hdq : Z.pos (digits2_pos q) = 54) by (apply digits2_pos_spec; lia).
    assert (Hshape : exists q', q = xO q' /\ Z.pos q' = 2 ^ 52).
    { destruct q as [q'|q'|]; [lia| |lia]. exists q'. split; [reflexivity|lia]. }
    destruct Hshape as (q' & -> & Hq').
    assert (Hdq' : Z.pos (digits2_pos q') = 53) by (apply digits2_pos_spec; lia).
    exists q', (0 + Z.pos k + 1). split; [right; lia|]. split; [|split; [exact Hdq'|]].
    + split; [|lia]. intros _. split; [lia|].
      destruct (shr_r mrs); [reflexivity|]. specialize (Hdown eq_refl). lia.
    + unfold shr_fexp, fexp, SpecFloat.emin. cbn [Zdigits2 shr_record_of_loc].
      rewrite Hdq.
      replace (Z.max (54 + (0 + Z.pos k) - 53) (3 - 1024 - 53) - (0 + Z.pos k))
        with 1 by lia.
      reflexivity.
Qed.

Lemma float_of_int_large (sx : bool) p k :
  Z.pos (digits2_pos p) - 53 = Z.pos k ->
  exists e,
    (e = Z.pos k \/ e = Z.pos k + 1)
    /\ (e = Z.pos k + 1 <->
        Z.pos p / 2 ^ Z.pos k = 2 ^ 53 - 1
        /\ Z.odd (Z.pos p / 2 ^ (Z.pos k - 1)) = true)
    /\ (e <= 971 -> exists f, float_of_int (if sx then Z.neg p else Z.pos p) = Ok f)
    /\ (972 <= e ->
        float_of_int (if sx then Z.neg p else Z.pos p) = Raise OverflowError).
Proof.
  intros Hk.
  destruct (binary_round_large sx p k Hk) as (m & e & He & Hup & Hd & Hround).
  assert (Hnorm : binary_normalize prec emax (if sx then Z.neg p else Z.pos p) 0 false
                  = if e <=? 971 then S754_finite sx m e else S754_infinity sx)
    by (destruct sx; exact Hround).
  exists e. split; [exact He|]. split; [exact Hup|].
  unfold float_of_int. rewrite Hnorm. split.
  - intros Hsmall. replace (e <=? 971) with true by (symmetry; apply Z.leb_le; lia).
    assert (Hv : valid_binary (S754_finite sx m e) = true).
    { unfold SpecFloat.valid_binary, bounded, canonical_mantissa, fexp, SpecFloat.emin,
        prec, emax.
      rewrite Hd. apply andb_true_intro. split; [apply Z.eqb_eq|apply Z.leb_le]; lia. }
    cbv zeta. rewrite (is_infinity_finite sx m e Hv). eexists. reflexivity.
  - intros Hbig. replace (e <=? 971) with false by (symmetry; apply Z.leb_gt; lia).
    destruct sx; reflexivity.
Qed.

(** [float(z)] raises exactly from [2^1024 - 2^970] on, the first integer
    that rounds to [2^1024]. *)
Lemma float_of_int_signed_overflow (sx : bool) p :
  float_of_int (if sx then Z.neg p else Z.pos p) = Raise OverflowError <->
  2 ^ 1024 - 2 ^ 970 <= Z.pos p.
Proof.
  pose proof (digits2_pos_lower p) as Hl. pose proof (digits2_pos_upper p) as Hu.
  destruct (Z_lt_ge_dec (Z.pos p) (2 ^ 53)) as [Hsmall|Hlarge].
  - destruct (float_of_int_signed sx p Hsmall) as (f & -> & _).
    split; [discriminate|]. intros H. exfalso.
    assert (2 ^ 53 < 2 ^ 1024 - 2 ^ 970) by reflexivity. lia.
  - assert (H53 : 53 < Z.pos (digits2_pos p))
      by (apply (Z.pow_lt_mono_r_iff 2); lia).
    destruct (Z.pos (digits2_pos p) - 53) as [|k|k] eqn:Hk; try lia.
    destruct (float_of_int_large sx p k Hk) as (e & He & Hup & Hfin & Hinf).
    assert (Hsplit : 2 ^ 1024 = 2 ^ 54 * 2 ^ 970) by reflexivity.
    assert (Hthreshold : 2 ^ 1024 - 2 ^ 970 = (2 ^ 54 - 1) * 2 ^ 970) by reflexivity.
    assert (H970 : 0 < 2 ^ 970) by reflexivity.
    destruct (Z.compare_spec (Z.pos k) 971) as [Heq|Hlt|Hgt].
    + (* 1024 digits *)
      assert (Hp : 2 ^ 1023 <= Z.pos p < 2 ^ 1024).
      { replace (Z.pos (digits2_pos p)) with 1024 in * by lia. split; [exact Hl|exact Hu]. }
      rewrite Heq in Hup.
      assert (Hdiv : Z.pos p / 2 ^ 971 = Z.pos p / 2 ^ 970 / 2).
      { rewrite Z.div_div by lia. reflexivity. }
      change (971 - 1) with 970 in Hup.
      assert (Hcond : e = 971 + 1 <-> 2 ^ 1024 - 2 ^ 970 <= Z.pos p).
      { rewrite Hup, Hdiv. split.
        - intros [Hhalf Hodd].
          assert (Ha : Z.pos p / 2 ^ 970 = 2 ^ 54 - 1).
          { pose proof (Z.div_mod (Z.pos p / 2 ^ 970) 2 ltac:(lia)) as Hdm.
            rewrite Zmod_odd, Hodd in Hdm. lia. }
          pose proof (Z.mul_div_le (Z.pos p) (2 ^ 970) H970). lia.
        - intros Hge.
          assert (Ha : Z.pos p / 2 ^ 970 = 2 ^ 54 - 1).
          { symmetry. apply Z.div_unique with (r := Z.pos p - (2 ^ 54 - 1) * 2 ^ 970); lia. }
          rewrite Ha. split; reflexivity. }
      rewrite <- Hcond. split.
      * intros Hraise. destruct He as [He|He]; [|lia].
        destruct (Hfin ltac:(lia)) as [f Hf]. congruence.
      * intros He'. apply Hinf. lia.
    + assert (Hp : Z.pos p < 2 ^ 1023).
      { apply Z.lt_le_trans with (1 := Hu). apply Z.pow_le_mono_r; lia. }
      destruct (Hfin ltac:(lia)) as [f ->]. split; [discriminate|].
      intros H. exfalso.
      assert (2 ^ 1023 < 2 ^ 1024 - 2 ^ 970) by reflexivity. lia.
    + assert (Hp : 2 ^ 1024 <= Z.pos p).
      { apply Z.le_trans with (2 := Hl). apply Z.pow_le_mono_r; lia. }
      rewrite (Hinf ltac:(lia)). split; [lia|reflexivity].
Qed.

Lemma float_of_int_overflow z :
  float_of_int z = Raise OverflowError <-> 2 ^ 1024 - 2 ^ 970 <= Z.abs z.
Proof.
  destruct z as [|p|p].
  - split; [discriminate|]. intros H. exfalso. revert H. apply Z.lt_nge. reflexivity.
  - apply (float_of_int_signed_overflow false p).
  - apply (float_of_int_signed_overflow true p).
Qed.

Lemma float_of_int_cases z :
  float_of_int z = Raise OverflowError \/ exists f, float_of_int z = Ok f.
Proof.
  unfold float_of_int. cbv zeta.
  destruct (is_infinity _); [now left|right; eexists; reflexivity].
Qed.

End IntToFloat.

Section PollerClaims.
Context {World : Type}.
Implicit Types (env : Env World) (s : State World).

(** C10. A device entry without an id (or with an empty one) is passed
    over without any call; a device whose status response has no ['result']
    costs the one call to [getstatus] and nothing else: no publish, no
    insert, no print, and [din_rail_is_on] as it was. In both cases the loop
    goes on with the next device. *)
Theorem skipped_devices_are_passed_over env device rest s :
  (dev_id device = None \/ dev_id device = Some "" ->
   process_device env device s = (Ok tt, s, [])
   /\ for_each (process_device env) (device :: rest) s =
      for_each (process_device env) rest s)
  /\ (forall device_id w,
        dev_id device = Some device_id -> device_id <> "" ->
        cloud_getstatus env device_id (world s) = (Ok WithoutResult, w) ->
        process_device env device s =
        (Ok tt, with_world s w, [EGetStatus device_id])
        /\ for_each (process_device env) (device :: rest) s =
           (let '(r, s2, t) := for_each (process_device env) rest (with_world s w) in
            (r, s2, EGetStatus device_id :: t))).
Proof.
  split.
  - intros Hid.
    assert (Hrun : process_device env device s = (Ok tt, s, []))
      by (rewrite process_device_run; destruct Hid as [->| ->]; reflexivity).
    split; [exact Hrun|].
    rewrite for_each_cons, Hrun.
    destruct (for_each _ rest s) as [[r s2] t2]. reflexivity.
  - intros device_id w Hid Hne Hstatus.
    assert (Hrun : process_device env device s =
                   (Ok tt, with_world s w, [EGetStatus device_id])).
    { rewrite process_device_run, Hid. apply String.eqb_neq in Hne.
      rewrite Hne, Hstatus. reflexivity. }
    split; [exact Hrun|].
    rewrite for_each_cons, Hrun. reflexivity.
Qed.

(** C5, as the code has it. For the three scaled codes [scale] divides
    the float the raw value converts to, by 10 for [cur_voltage] and
    [cur_power] and by 1000 for [add_ele], and raises what the conversion
    raises when there is none. A [float] converts to itself, a [bool] to 1
    or 0. An [int] converts unless its magnitude is [2^1024 - 2^970] or
    more, from where on the conversion raises [OverflowError], and below
    [2^53] the double it converts to has the value of the [int]. A string,
    [None], a list or a mapping raises [TypeError]. For every other code
    [scale] returns the raw value, of any type, so applying it again
    changes nothing. The value stored in [device_data] and the one
    formatted and published for a code is the scaled one, and when scaling
    raises nothing is stored or published for the item. *)
Theorem scale_and_publish :
  (as_float (VBool true) = Ok 1%float /\ as_float (VBool false) = Ok 0%float)
  /\ (forall f, as_float (VFloat f) = Ok f)
  /\ (forall z,
        (as_float (VInt z) = Raise OverflowError <->
         (2 ^ 1024 - 2 ^ 970 <= Z.abs z)%Z)
        /\ ((Z.abs z < 2 ^ 1024 - 2 ^ 970)%Z -> exists f, as_float (VInt z) = Ok f)
        /\ ((Z.abs z < 2 ^ 53)%Z ->
            exists f, as_float (VInt z) = Ok f /\ float_eq_int f z = true))
  /\ (as_float VNone = Raise TypeError
      /\ (forall text, as_float (VStr text) = Raise TypeError)
      /\ (forall l, as_float (VList l) = Raise TypeError)
      /\ (forall d, as_float (VDict d) = Raise TypeError))
  /\ (forall raw f,
     as_float raw = Ok f ->
     scale "cur_voltage" raw = Ok (VFloat (f / 10))
     /\ scale "cur_power" raw = Ok (VFloat (f / 10))
     /\ scale "add_ele" raw = Ok (VFloat (f / 1000)))
  /\ (forall code raw e,
        code = "cur_voltage" \/ code = "cur_power" \/ code = "add_ele" ->
        as_float raw = Raise e -> scale code raw = Raise e)
  /\ (forall code raw,
        code <> "cur_voltage" -> code <> "cur_power" -> code <> "add_ele" ->
        scale code raw = Ok raw
        /\ forall v, scale code raw = Ok v -> scale code v = Ok v)
  /\ (forall (env : Env World) device_id device_data code raw s,
        publish_item env device_id device_data (DataPoint code (Some raw)) s =
        match scale code raw with
        | Ok v =>
            (Ok (dict_set code v device_data), s,
             [EPublish (state_topic device_id code) (Text (format_value env v)) true;
              EPrint (LogItem code (format_value env v))])
        | Raise e => (Raise e, s, [])
        end).
Proof.
  repeat apply conj.
  - reflexivity.
  - reflexivity.
  - reflexivity.
  - intros z. cbn [as_float]. split; [|split].
    + apply float_of_int_overflow.
    + intros Hz. destruct (float_of_int_cases z) as [Hraise|Hok]; [|exact Hok].
      apply float_of_int_overflow in Hraise. lia.
    + apply float_of_int_exact.
  - reflexivity.
  - reflexivity.
  - reflexivity.
  - reflexivity.
  - intros raw f Hf. unfold scale, truediv. rewrite Hf. repeat split.
  - intros code raw e Hcode Hf. unfold scale, truediv. rewrite Hf.
    destruct Hcode as [->|[->| ->]]; reflexivity.
  - intros code raw Hv Hp Ha. apply String.eqb_neq in Hv, Hp, Ha.
    unfold scale. rewrite Hv, Hp, Ha. split; [reflexivity|].
    intros v [= ->]. reflexivity.
  - intros env device_id device_data code raw s. apply publish_item_run.
Qed.

(** C9. When the database handle is [None], however many rounds the loop
    makes, [din_rail_is_on] is what it was at the start ([True] from the
    initial state), no event of the gate or of the insert occurs, and each
    device's publishes are the ones the loop body makes with any handle. *)
Theorem no_collection_no_gate env devices n s :
  collection env = None ->
  din_rail_is_on (state_of (main_loop env devices n s)) = din_rail_is_on s
  /\ (forall w,
        din_rail_is_on (state_of (main_loop env devices n (initial_state w))) =
        VBool true)
  /\ filter is_gate_event (events_of (main_loop env devices n s)) = []
  /\ (forall c device s',
        filter is_publish
          (events_of (process_device (with_collection c env) device s')) =
        filter is_publish (events_of (process_device env device s'))).
Proof.
  intros Hnone.
  destruct (main_loop_no_collection env devices n Hnone) as [Hkeeps Hemits].
  repeat apply conj.
  - apply Hkeeps.
  - intros w. apply (Hkeeps (initial_state w)).
  - apply (filter_none (fun e => negb (is_gate_event e))); [apply Hemits|].
    intros e He. now apply negb_true_iff.
  - intros c device s'. rewrite process_device_publishes.
    replace (with_collection None env) with env; [reflexivity|].
    destruct env. simpl in Hnone. subst. reflexivity.
Qed.

(** C1, as the code has it. Let the devices before [device] in the list
    have been processed. (a) If [getstatus] raises for [device], the
    exception leaves the [for] loop and is caught at the cycle boundary:
    the cycle ends with the fetch and the printed error, and no later
    device is processed. (b) If [getstatus] returns a status list whose
    items scale, the loop body ends normally whatever [insert_one] does,
    and the loop runs the remaining devices from the state it left.
    (c) An exception of [insert_one] is caught and printed where it is
    raised. *)
Theorem failures_in_a_cycle env pre device rest s s1 t1 device_id :
  for_each (process_device env) pre s = (Ok tt, s1, t1) ->
  dev_id device = Some device_id ->
  device_id <> "" ->
  (forall e w,
     cloud_getstatus env device_id (world s1) = (Raise e, w) ->
     poll_cycle env (pre ++ device :: rest) s =
     (Ok tt, with_world s1 w,
      t1 ++ [EGetStatus device_id; EPrint (LogPollError e)]))
  /\ (forall status_list t w,
        cloud_getstatus env device_id (world s1) = (Ok (WithResult status_list t), w) ->
        Forall scalable status_list ->
        exists s2 t2,
          process_device env device s1 = (Ok tt, s2, t2)
          /\ for_each (process_device env) (pre ++ device :: rest) s =
             (let '(r, s3, t3) := for_each (process_device env) rest s2 in
              (r, s3, t1 ++ t2 ++ t3)))
  /\ (forall insert_one device_name device_data s' e w,
        let doc := {| doc_timestamp := time_time env (world s');
                      doc_device_id := device_id;
                      doc_device_name := device_name;
                      doc_status := device_data;
                      doc_source := "tuya_cloud_mqtt_bridge" |} in
        insert_one doc (world s') = (Raise e, w) ->
        insert_snapshot env insert_one device_id device_name device_data s' =
        (Ok tt, with_world s' w, [EInsert doc; EPrint (LogSaveFailed e)])).
Proof.
  intros Hpre Hid Hne. apply String.eqb_neq in Hne. repeat apply conj.
  - intros e w Hstatus.
    rewrite poll_cycle_run, for_each_app, Hpre, for_each_cons, process_device_run.
    rewrite Hid, Hne, Hstatus. simpl. now rewrite <- app_assoc.
  - intros status_list t w Hstatus Hall.
    assert (Hrun : exists s2 t2, process_device env device s1 = (Ok tt, s2, t2)).
    { rewrite process_device_run, Hid, Hne, Hstatus.
      destruct (publish_snapshot_returns env device_id (device_name_of device)
                  status_list t (with_world s1 w) Hall) as [d Hd].
      destruct (publish_snapshot _ _ _ _ _ _) as [[r s2] t2].
      unfold result_of in Hd. simpl in Hd. subst r.
      pose proof (log_snapshot_returns env device_id (device_name_of device) d s2)
        as Hlog.
      destruct (log_snapshot _ _ _ _ _) as [[r3 s3] t3].
      unfold result_of in Hlog. simpl in Hlog. subst r3. eauto. }
    destruct Hrun as (s2 & t2 & Hrun). exists s2, t2. split; [exact Hrun|].
    rewrite for_each_app, Hpre, for_each_cons, Hrun.
    destruct (for_each _ rest s2) as [[r s3] t3]. reflexivity.
  - intros insert_one device_name device_data s' e w doc Hins.
    rewrite insert_snapshot_run. cbv zeta. fold doc. rewrite Hins. reflexivity.
Qed.

End PollerClaims.

(** C5, as stated, fails: a string under [cur_voltage] is a raw value for
    which [scale] returns nothing. *)
Lemma scale_is_not_total :
  scale "cur_voltage" (VStr "230.5") = Raise TypeError
  /\ ~ (forall code raw, exists v, scale code raw = Ok v).
Proof.
  split; [reflexivity|].
  intros H. destruct (H "cur_voltage" (VStr "230.5")) as [v Hv]. discriminate Hv.
Qed.

(** *** The polling loop on concrete devices *)

Lemma skipped_devices_are_passed_over_witness :
  process_device (Demo.poller Demo.accepting) Demo.nameless (initial_state 0) =
  (Ok tt, initial_state 0, [])
  /\ process_device (Demo.poller Demo.accepting) Demo.lamp (initial_state 0) =
     (Ok tt, with_world (initial_state 0) 1, [EGetStatus "lamp"]).
Proof.
  split.
  - apply (proj1 (skipped_devices_are_passed_over (Demo.poller Demo.accepting)
                    Demo.nameless [] (initial_state 0))).
    left. reflexivity.
  - apply (proj2 (skipped_devices_are_passed_over (Demo.poller Demo.accepting)
                    Demo.lamp [] (initial_state 0)) "lamp" 1%nat).
    + reflexivity.
    + discriminate.
    + reflexivity.
Defined.

Lemma scale_and_publish_witness :
  scale "cur_voltage" (VInt 2305) = Ok (VFloat 230.5)
  /\ scale "add_ele" (VInt 1500) = Ok (VFloat 1.5)
  /\ scale "cur_voltage" (VStr "230.5") = Raise TypeError
  /\ scale "cur_power" (VInt (2 ^ 1024 - 2 ^ 970)) = Raise OverflowError
  /\ (exists f, as_float (VInt (2 ^ 1024 - 2 ^ 970 - 1)) = Ok f)
  /\ scale "switch" (VBool true) = Ok (VBool true).
Proof.
  destruct (@scale_and_publish nat) as (_ & _ & Hint & _ & Hnum & Herr & Hother & _).
  repeat apply conj.
  - apply (Hnum (VInt 2305) 2305%float). reflexivity.
  - apply (Hnum (VInt 1500) 1500%float). reflexivity.
  - apply Herr; [now left|reflexivity].
  - apply Herr; [right; now left|].
    apply (proj1 (Hint (2 ^ 1024 - 2 ^ 970)%Z)). reflexivity.
  - apply (proj1 (proj2 (Hint (2 ^ 1024 - 2 ^ 970 - 1)%Z))). reflexivity.
  - apply Hother; discriminate.
Defined.

(** At the edge: the last [int] that converts gives the largest double. *)
Example float_of_largest_int :
  as_float (VInt (2 ^ 1024 - 2 ^ 970 - 1)) = Ok 0x1.fffffffffffffp+1023%float.
Proof. vm_compute. reflexivity. Qed.

Lemma no_collection_no_gate_witness :
  din_rail_is_on
    (state_of (main_loop (Demo.poller None) [Demo.gov; Demo.dep] 3 (initial_state 0))) =
  VBool true
  /\ filter is_gate_event
       (events_of (main_loop (Demo.poller None) [Demo.gov; Demo.dep] 3
                     (initial_state 0))) = [].
Proof.
  destruct (no_collection_no_gate (Demo.poller None) [Demo.gov; Demo.dep] 3
              (initial_state 0) eq_refl) as (Hdin & _ & Hgate & _).
  split; [exact Hdin|exact Hgate].
Defined.

(** C1, as stated, fails: the status request for the first device raises,
    and the second device of the list is not fetched in that cycle. *)
Lemma fetch_failure_ends_the_cycle :
  poll_cycle (Demo.poller Demo.accepting) [Demo.plug; Demo.dep] (initial_state 0) =
  (Ok tt, with_world (initial_state 0) 1,
   [EGetStatus "plug"; EPrint (LogPollError (ExternalError "timeout"))])
  /\ ~ In (EGetStatus "dep")
         (events_of (poll_cycle (Demo.poller Demo.accepting) [Demo.plug; Demo.dep]
                       (initial_state 0))).
Proof.
  split; [reflexivity|]. simpl. intros [H|[H|[]]]; discriminate H.
Qed.

(** The database refuses the record of the dependent device: the failure
    is printed and the next device is fetched in the same cycle. *)
Example insert_failure_does_not_end_the_cycle :
  filter (fun e => negb (is_telemetry_event e))
    (events_of (poll_cycle (Demo.poller Demo.refusing) [Demo.dep; Demo.lamp]
                  (initial_state 0))) =
  [EGetStatus "dep";
   EInsert {| doc_timestamp := 1; doc_device_id := "dep";
              doc_device_name := TWO_CH;
              doc_status := [("switch_1", VBool true)];
              doc_source := "tuya_cloud_mqtt_bridge" |};
   EPrint (LogSaveFailed (ExternalError "write failed"));
   EGetStatus "lamp";
   EPrint LogPollCompleted].
Proof. reflexivity. Qed.

Lemma failures_in_a_cycle_witness :
  poll_cycle (Demo.poller Demo.refusing) ([] ++ Demo.plug :: [Demo.dep])
    (initial_state 0) =
  (Ok tt, with_world (initial_state 0) 1,
   [] ++ [EGetStatus "plug"; EPrint (LogPollError (ExternalError "timeout"))])
  /\ exists s2 t2,
       process_device (Demo.poller Demo.refusing) Demo.dep (initial_state 0) =
       (Ok tt, s2, t2)
       /\ for_each (process_device (Demo.poller Demo.refusing))
            ([] ++ Demo.dep :: [Demo.lamp]) (initial_state 0) =
          (let '(r, s3, t3) :=
             for_each (process_device (Demo.poller Demo.refusing)) [Demo.lamp] s2 in
           (r, s3, [] ++ t2 ++ t3)).
Proof.
  split.
  - apply (proj1 (failures_in_a_cycle (Demo.poller Demo.refusing) [] Demo.plug
                    [Demo.dep] (initial_state 0) (initial_state 0) [] "plug"
                    eq_refl eq_refl ltac:(discriminate))).
    reflexivity.
  - apply (proj1 (proj2 (failures_in_a_cycle (Demo.poller Demo.refusing) []
                           Demo.dep [Demo.lamp] (initial_state 0) (initial_state 0)
                           [] "dep" eq_refl eq_refl ltac:(discriminate)))
             [DataPoint "switch_1" (Some (VBool true))] None 1%nat).
    + reflexivity.
    + constructor; [|constructor]. exists (VBool true), (VBool true).
      split; reflexivity.
Defined.

(** C4, as stated, fails: with the dependent device listed before the
    governing one, the dependent snapshot is inserted before the governing
    device is fetched, in the very cycle whose governing snapshot reports
    the switch off. *)
Lemma dependent_listed_first_is_logged :
  governing_fetched_first "gov"
    (events_of (poll_cycle (Demo.poller Demo.accepting) [Demo.dep; Demo.gov]
                  (initial_state 0))) = false
  /\ filter (fun e => is_fetch e || is_insert e)
       (events_of (poll_cycle (Demo.poller Demo.accepting) [Demo.dep; Demo.gov]
                     (initial_state 0))) =
     [EGetStatus "dep";
      EInsert {| doc_timestamp := 1; doc_device_id := "dep";
                 doc_device_name := TWO_CH;
                 doc_status := [("switch_1", VBool true)];
                 doc_source := "tuya_cloud_mqtt_bridge" |};
      EGetStatus "gov"]
  /\ din_rail_is_on
       (state_of (poll_cycle (Demo.poller Demo.accepting) [Demo.dep; Demo.gov]
                    (initial_state 0))) = VBool false.
Proof. repeat split. Qed.

Lemma governance_flag_gates_dependents_witness :
  exists bs,
    result_of
      (gate_sequence
         ((DIN_RAIL, [("switch", VBool false)])
          :: [(TWO_CH, [("switch_1", VBool true)]);
              (DIN_RAIL, [("cur_power", VFloat 0)]);
              ("Lamp", [("switch", VBool true)]);
              (TWO_CH, [("switch_1", VBool false)])])
         (initial_state 0)) = Ok (false :: bs)
    /\ nth_error bs 0 = Some false
    /\ nth_error bs 3 = Some false.
Proof.
  destruct (@governance_flag_gates_dependents nat)
    as (_ & _ & _ & _ & _ & _ & _ & Hseq & _).
  destruct (Hseq false [("switch", VBool false)]
              [(TWO_CH, [("switch_1", VBool true)]);
               (DIN_RAIL, [("cur_power", VFloat 0)]);
               ("Lamp", [("switch", VBool true)]);
               (TWO_CH, [("switch_1", VBool false)])]
              (initial_state 0) eq_refl) as (bs & Hrun & Hdep).
  - intros data [H|[H|[H|[H|[]]]]]; try discriminate H.
    injection H as <-. now left.
  - exists bs. split; [exact Hrun|]. split.
    + apply (Hdep 0%nat [("switch_1", VBool true)]). reflexivity.
    + apply (Hdep 3%nat [("switch_1", VBool false)]). reflexivity.
Defined.

(** * Further properties of the script *)

(** ** Topics and their levels *)

Lemma split_not_nil sep s : split sep s <> [].
Proof.
  destruct s as [|c s]; simpl; [discriminate|].
  destruct (Ascii.eqb c sep); [discriminate|].
  destruct (split sep s); discriminate.
Qed.

Lemma concat_split sep s : String.concat (String sep EmptyString) (split sep s) = s.
Proof.
  induction s as [|c s IH]; [reflexivity|]. simpl split.
  destruct (Ascii.eqb_spec c sep) as [->|Hc].
  - pose proof (split_not_nil sep s) as Hne.
    destruct (split sep s) as [|hd tl]; [contradiction|].
    change (String.concat (String sep "") ("" :: hd :: tl))
      with (String sep (String.concat (String sep "") (hd :: tl))).
    now rewrite IH.
  - pose proof (split_not_nil sep s) as Hne.
    destruct (split sep s) as [|hd tl]; [contradiction|].
    destruct tl as [|hd' tl].
    + simpl in *. now rewrite IH.
    + change (String.concat (String sep "") (String c hd :: hd' :: tl))
        with (String c (String.concat (String sep "") (hd :: hd' :: tl))).
      now rewrite IH.
Qed.

Lemma split_levels_slash_free s :
  Forall (fun level => slash_free level = true) (split "/" s).
Proof.
  induction s as [|c s IH]; simpl.
  - repeat constructor.
  - destruct (Ascii.eqb c "/") eqn:Hc.
    + constructor; [reflexivity|exact IH].
    + destruct (split "/" s) as [|hd tl]; [repeat constructor; simpl; now rewrite Hc|].
      inversion IH as [|? ? Hhd Htl]; subst.
      constructor; [simpl; now rewrite Hc, Hhd|exact Htl].
Qed.

(** A slash-free level followed by ['/'] is split off whole. *)
Lemma split_level level rest :
  slash_free level = true ->
  split "/" (level ++ String "/" rest) = level :: split "/" rest.
Proof.
  induction level as [|c level IH]; intros Hfree.
  - reflexivity.
  - simpl in Hfree. apply andb_prop in Hfree as [Hc Hlevel].
    apply negb_true_iff in Hc. simpl. rewrite Hc, (IH Hlevel). reflexivity.
Qed.

Lemma split_last_level level :
  slash_free level = true -> split "/" level = [level].
Proof.
  induction level as [|c level IH]; intros Hfree.
  - reflexivity.
  - simpl in Hfree. apply andb_prop in Hfree as [Hc Hlevel].
    apply negb_true_iff in Hc. simpl. rewrite Hc, (IH Hlevel). reflexivity.
Qed.

Lemma split_concat levels :
  levels <> [] ->
  Forall (fun level => slash_free level = true) levels ->
  split "/" (String.concat "/" levels) = levels.
Proof.
  intros Hne Hfree. induction Hfree as [|level rest Hlevel Hrest IH];
    [contradiction|].
  destruct rest as [|level' rest].
  - simpl. now apply split_last_level.
  - change (String.concat "/" (level :: level' :: rest))
      with (level ++ String "/" (String.concat "/" (level' :: rest)))%string.
    rewrite (split_level _ _ Hlevel), IH; [reflexivity|discriminate].
Qed.

(** X1. [split] and the joining of levels by ['/'] are inverse to each
    other: a topic is the join of its levels, it has at least one level
    and none of them contains ['/']; and a non-empty list of levels without
    ['/'] is the list of levels of its join. *)
Theorem topic_levels_round_trip :
  (forall topic,
     String.concat "/" (split "/" topic) = topic
     /\ split "/" topic <> []
     /\ Forall (fun level => slash_free level = true) (split "/" topic))
  /\ (forall levels,
        levels <> [] ->
        Forall (fun level => slash_free level = true) levels ->
        split "/" (String.concat "/" levels) = levels).
Proof.
  split.
  - intros topic. repeat split.
    + apply (concat_split "/").
    + apply split_not_nil.
    + apply split_levels_slash_free.
  - apply split_concat.
Qed.

Lemma topic_levels_round_trip_witness :
  String.concat "/" (split "/" "tuya//switch_1/set") = "tuya//switch_1/set"
  /\ split "/" (String.concat "/" ["tuya"; "dev1"; "set"]) = ["tuya"; "dev1"; "set"].
Proof.
  split.
  - apply (proj1 topic_levels_round_trip "tuya//switch_1/set").
  - apply (proj2 topic_levels_round_trip ["tuya"; "dev1"; "set"]).
    + discriminate.
    + repeat constructor.
Defined.

(** ** The command callback and the topics it is given *)

Section RouterExtras.
Context {World : Type}.
Implicit Types (env : Env World) (s : State World).

Lemma single_dispatch_events env topic payload s :
  (4 <= length (split "/" topic))%nat ->
  filter is_dispatch (events_of (on_payload env topic payload s)) =
  [ESendCommand (nth 1 (split "/" topic) "")
     [(nth 2 (split "/" topic) "", single_value env payload)]].
Proof.
  intros Hlen. rewrite (single_run env topic payload s Hlen). cbv zeta.
  destruct (cloud_sendcommand _ _ _ _) as [[result|e] w]; [|reflexivity].
  destruct (method_get result "success") as [success|e]; reflexivity.
Qed.

(** The levels of a topic of each documented shape. *)
Lemma spec_topic_shape_single topic device_id code :
  spec_topic_shape topic = SingleAttribute device_id code ->
  split "/" topic = [MQTT_TOPIC_PREFIX; device_id; code; "set"].
Proof.
  unfold spec_topic_shape.
  destruct (split "/" topic) as [|p [|d [|c [|l [|x rest]]]]]; try discriminate.
  - destruct ((p =? MQTT_TOPIC_PREFIX) && (c =? "set")); discriminate.
  - destruct (p =? MQTT_TOPIC_PREFIX) eqn:Hp; [|discriminate].
    destruct (l =? "set") eqn:Hl; [|discriminate].
    apply String.eqb_eq in Hp, Hl. simpl. intros [= <- <-]. now subst.
Qed.

Lemma spec_topic_shape_batch topic device_id :
  spec_topic_shape topic = Batch device_id ->
  split "/" topic = [MQTT_TOPIC_PREFIX; device_id; "set"].
Proof.
  unfold spec_topic_shape.
  destruct (split "/" topic) as [|p [|d [|c [|l [|x rest]]]]]; try discriminate.
  - destruct (p =? MQTT_TOPIC_PREFIX) eqn:Hp; [|discriminate].
    destruct (c =? "set") eqn:Hc; [|discriminate].
    apply String.eqb_eq in Hp, Hc. simpl. intros [= <-]. now subst.
  - destruct ((p =? MQTT_TOPIC_PREFIX) && (l =? "set")); discriminate.
Qed.

(** X2. A topic of the documented single-attribute shape is dispatched as
    one command for its device and code with the payload's value (a
    boolean when the upper-case form of the decoded payload is [ON] or
    [OFF], the text otherwise), and a
    topic of the documented batch shape whose payload parses to an object
    is dispatched as one command for its device with the recognised keys
    (or not at all when there is none). *)
Theorem documented_topics_are_routed env topic raw payload s :
  decode raw = Ok payload ->
  (forall device_id code,
     spec_topic_shape topic = SingleAttribute device_id code ->
     filter is_dispatch (events_of (on_message env topic raw s)) =
     [ESendCommand device_id [(code, single_value env payload)]])
  /\ (forall device_id items,
        spec_topic_shape topic = Batch device_id ->
        json_loads env payload = Some (VDict items) ->
        filter is_dispatch (events_of (on_message env topic raw s)) =
        match spec_batch_items env items with
        | [] => []
        | _ :: _ => [ESendCommand device_id (spec_batch_items env items)]
        end).
Proof.
  intros Hdec. rewrite (on_message_decoded env topic raw payload s Hdec). split.
  - intros device_id code Hshape. apply spec_topic_shape_single in Hshape.
    rewrite single_dispatch_events; rewrite Hshape; [reflexivity|simpl; lia].
  - intros device_id items Hshape Hjson. apply spec_topic_shape_batch in Hshape.
    now apply (batch_dispatch_events env topic payload s MQTT_TOPIC_PREFIX).
Qed.

(** X4. The command topic a device's discovery message advertises comes
    back to [on_message] as a batch command for that very device, provided
    the device id has no ['/']; an id of the form [a/b] makes the
    advertised topic a single-attribute command for device [a] and code
    [b]. *)
Theorem advertised_command_topic_round_trip
    env device_name device_id raw payload s :
  decode raw = Ok payload ->
  (exists fields,
     discovery_payload device_name device_id = JsonDumps (VDict fields)
     /\ dict_get "command_topic" fields = Some (VStr (command_topic device_id)))
  /\ (forall items,
        slash_free device_id = true ->
        json_loads env payload = Some (VDict items) ->
        filter is_dispatch
          (events_of (on_message env (command_topic device_id) raw s)) =
        match spec_batch_items env items with
        | [] => []
        | _ :: _ => [ESendCommand device_id (spec_batch_items env items)]
        end)
  /\ (forall a b,
        device_id = (a ++ "/" ++ b)%string ->
        slash_free a = true -> slash_free b = true ->
        filter is_dispatch
          (events_of (on_message env (command_topic device_id) raw s)) =
        [ESendCommand a [(b, single_value env payload)]]).
Proof.
  intros Hdec. rewrite (on_message_decoded env _ raw payload s Hdec).
  repeat apply conj.
  - eexists. split; reflexivity.
  - intros items Hfree Hjson.
    apply (batch_dispatch_events env _ payload s MQTT_TOPIC_PREFIX); [|exact Hjson].
    unfold command_topic, MQTT_TOPIC_PREFIX.
    change ("tuya" ++ "/" ++ device_id ++ "/set")%string
      with ("tuya" ++ String "/" (device_id ++ String "/" "set"))%string.
    rewrite (split_level "tuya" _ eq_refl), (split_level device_id _ Hfree).
    reflexivity.
  - intros a b -> Ha Hb.
    assert (Hparts : split "/" (command_topic (a ++ "/" ++ b)) =
                     ["tuya"; a; b; "set"]).
    { unfold command_topic, MQTT_TOPIC_PREFIX.
      replace ("tuya" ++ "/" ++ (a ++ "/" ++ b) ++ "/set")%string
        with ("tuya" ++ String "/" (a ++ String "/" (b ++ String "/" "set")))%string.
      - rewrite (split_level "tuya" _ eq_refl), (split_level a _ Ha),
          (split_level b _ Hb). reflexivity.
      - simpl. f_equal. f_equal. f_equal. f_equal. f_equal.
        clear. induction a as [|c a IH]; simpl; [reflexivity|now rewrite IH]. }
    rewrite single_dispatch_events; rewrite Hparts; [reflexivity|simpl; lia].
Qed.

(** X5. Where [str.upper] leaves the texts [ON] and [OFF] as they are, the
    payload the poller publishes for a boolean is read back by both command
    branches as that boolean; and, whatever [str.upper] is, a
    single-attribute payload is read as a boolean exactly when its
    upper-case form is the published form of that boolean. *)
Theorem on_off_round_trip env :
  str_upper env "ON" = "ON" ->
  str_upper env "OFF" = "OFF" ->
  (forall b,
     single_value env (format_value env (VBool b)) = VBool b
     /\ batch_value env (VStr (format_value env (VBool b))) = VBool b)
  /\ (forall payload b,
        single_value env payload = VBool b <->
        str_upper env payload = format_value env (VBool b)).
Proof.
  intros Hon Hoff. split.
  - intros [|]; unfold single_value, batch_value; cbn [format_value str];
      rewrite ?Hon, ?Hoff; split; reflexivity.
  - intros payload b. unfold single_value. cbn [format_value].
    destruct (str_upper env payload =? "ON") eqn:Hup; simpl.
    + apply String.eqb_eq in Hup. rewrite Hup.
      destruct b; split; intros H; try reflexivity; discriminate H.
    + destruct (str_upper env payload =? "OFF") eqn:Hdown.
      * apply String.eqb_eq in Hdown. rewrite Hdown.
        destruct b; split; intros H; try reflexivity; discriminate H.
      * apply String.eqb_neq in Hup, Hdown.
        destruct b; split; intros H; try discriminate H; contradiction.
Qed.

End RouterExtras.

Section BatchExtras.
Context {World : Type}.
Implicit Types (env : Env World) (s : State World).

(** X6. When the cloud accepts a batch command, the callback publishes
    the success result, not retained, on the device's response topic, and
    then one retained state echo per dispatched command, in the order of
    the command. *)
Theorem accepted_batch_is_answered_then_echoed
    env topic raw payload s prefix device_id items result w success :
  split "/" topic = [prefix; device_id; "set"] ->
  decode raw = Ok payload ->
  json_loads env payload = Some (VDict items) ->
  spec_batch_items env items <> [] ->
  cloud_sendcommand env device_id (spec_batch_items env items) (world s) =
  (Ok result, w) ->
  method_get result "success" = Ok success ->
  truthy success = true ->
  let cl := spec_batch_items env items in
  let msg := ("JSON Command sent: " ++ py_repr env (VList (map command_value cl)))%string in
  filter is_publish (events_of (on_message env topic raw s)) =
  EPublish (response_topic device_id)
    (JsonDumps (VDict [("status", VStr "success"); ("msg", VStr msg);
                       ("cmd", VList (map command_value cl))]))
    false
  :: echo_events env device_id cl.
Proof.
  intros Hparts Hdec Hjson Hne Hsend Hget Hsuccess cl msg.
  rewrite (on_message_decoded env topic raw payload s Hdec).
  rewrite (batch_run env topic payload s prefix device_id items Hparts Hjson).
  cbv zeta. fold cl in Hne, Hsend |- *.
  destruct cl as [|c cl'] eqn:Hcl; [contradiction|].
  rewrite Hsend, Hget, Hsuccess. unfold events_of, snd.
  rewrite !filter_app. simpl. f_equal.
  clear. induction cl' as [|c' cl' IH]; simpl; [reflexivity|].
  f_equal. injection IH as IH. now rewrite IH.
Qed.

(** X7. A state echo needs the cloud's acceptance: when the cloud reports
    failure the only publish is the error result on the response topic,
    and when the call raises, or returns something that is not a mapping,
    nothing is published. *)
Theorem refused_batch_is_not_echoed
    env topic raw payload s prefix device_id items :
  split "/" topic = [prefix; device_id; "set"] ->
  decode raw = Ok payload ->
  json_loads env payload = Some (VDict items) ->
  let cl := spec_batch_items env items in
  let published := filter is_publish (events_of (on_message env topic raw s)) in
  (forall result w success,
     cl <> [] ->
     cloud_sendcommand env device_id cl (world s) = (Ok result, w) ->
     method_get result "success" = Ok success ->
     truthy success = false ->
     published =
     [EPublish (response_topic device_id)
        (JsonDumps (VDict [("status", VStr "error");
                           ("msg", VStr ("JSON Command failed: "
                                         ++ str (py_repr env) result)%string);
                           ("result", result)]))
        false])
  /\ (forall e w,
        cloud_sendcommand env device_id cl (world s) = (Raise e, w) ->
        published = [])
  /\ (forall result w e,
        cloud_sendcommand env device_id cl (world s) = (Ok result, w) ->
        method_get result "success" = Raise e ->
        published = []).
Proof.
  intros Hparts Hdec Hjson cl published. subst published.
  rewrite (on_message_decoded env topic raw payload s Hdec).
  rewrite (batch_run env topic payload s prefix device_id items Hparts Hjson).
  cbv zeta. fold cl. repeat apply conj.
  - intros result w success Hne Hsend Hget Hfail.
    destruct cl as [|c cl']; [contradiction|].
    rewrite Hsend, Hget, Hfail. reflexivity.
  - intros e w Hsend. destruct cl as [|c cl']; [reflexivity|].
    rewrite Hsend. reflexivity.
  - intros result w e Hsend Hget. destruct cl as [|c cl']; [reflexivity|].
    rewrite Hsend, Hget. reflexivity.
Qed.

(** A recognised key is none of the three scaled codes. *)
Lemma recognised_is_not_scaled k raw :
  spec_recognised k = true -> scale k raw = Ok raw.
Proof.
  intros Hk. unfold scale.
  destruct (String.eqb_spec k "cur_voltage") as [->|_]; [discriminate Hk|].
  destruct (String.eqb_spec k "cur_power") as [->|_]; [discriminate Hk|].
  destruct (String.eqb_spec k "add_ele") as [->|_]; [discriminate Hk|].
  reflexivity.
Qed.

Lemma echo_value_is_format_value env v : echo_value env v = format_value env v.
Proof. destruct v as [ |[|]| | | | | ]; reflexivity. Qed.

(** X8. The state echo of a dispatched batch command is the publish the
    poller makes when the device reports the requested value under that
    code: same topic, same payload, retained. *)
Theorem echo_is_what_the_poller_publishes env items device_id device_data s k v :
  In (k, v) (spec_batch_items env items) ->
  echo_events env device_id [(k, v)] =
  filter is_publish
    (events_of (publish_item env device_id device_data (DataPoint k (Some v)) s)).
Proof.
  intros Hin. unfold spec_batch_items in Hin. apply in_map_iff in Hin.
  destruct Hin as ([k' v'] & [= <- <-] & Hin). apply filter_In in Hin as [_ Hk].
  simpl in Hk. rewrite publish_item_run, (recognised_is_not_scaled _ _ Hk).
  unfold echo_events. simpl. now rewrite echo_value_is_format_value.
Qed.

(** The run of [on_payload] in its remaining cases. *)
Lemma ignored_run env topic payload s :
  (4 <=? length (split "/" topic))%nat = false ->
  ((length (split "/" topic) =? 3)%nat && (nth 2 (split "/" topic) "" =? "set")) = false ->
  on_payload env topic payload s = (Ok tt, s, received topic payload).
Proof.
  intros Hlt Hset. unfold on_payload, bind, try_except, print, emit.
  rewrite Hlt, Hset. reflexivity.
Qed.

Lemma unparsed_batch_run env topic payload s :
  (4 <=? length (split "/" topic))%nat = false ->
  ((length (split "/" topic) =? 3)%nat && (nth 2 (split "/" topic) "" =? "set")) = true ->
  (forall items, json_loads env payload <> Some (VDict items)) ->
  exists line,
    on_payload env topic payload s = (Ok tt, s, received topic payload ++ [EPrint line]).
Proof.
  intros Hlt Hset Hjson. unfold on_payload, bind, try_except, print, emit.
  rewrite Hlt, Hset. unfold batch_command, try_except_only, bind, lift.
  destruct (json_loads env payload) as [[ | | | | | |items]|];
    try (eexists; reflexivity).
  now destruct (Hjson items).
Qed.

(** From line 141 on the callback never lets an exception out, sends at
    most one command to the cloud, leaves the process state as it was when
    it sends none, and never asks for a status or inserts a record. *)
Lemma on_payload_contained env topic payload s :
  let run := on_payload env topic payload s in
  result_of run = Ok tt
  /\ (length (filter is_dispatch (events_of run)) <= 1)%nat
  /\ (filter is_dispatch (events_of run) = [] -> state_of run = s)
  /\ filter (fun e => is_fetch e || is_insert e) (events_of run) = [].
Proof.
  cbv zeta.
  destruct (4 <=? length (split "/" topic))%nat eqn:Hlt.
  - apply Nat.leb_le in Hlt. rewrite (single_run env topic payload s Hlt). cbv zeta.
    destruct (cloud_sendcommand _ _ _ _) as [[result|e] w];
      [destruct (method_get result "success") as [success|e]|];
      (repeat apply conj; [reflexivity|simpl; lia|discriminate|reflexivity]).
  - destruct ((length (split "/" topic) =? 3)%nat && (nth 2 (split "/" topic) "" =? "set"))
      eqn:Hset.
    + destruct (json_loads env payload) as [[ | | | | | |items]|] eqn:Hjson;
        try (destruct (unparsed_batch_run env topic payload s Hlt Hset) as [line ->];
             [intros items'; rewrite Hjson; discriminate|];
             repeat apply conj; [reflexivity|simpl; lia|reflexivity|reflexivity]).
      assert (Hparts : exists prefix,
                 split "/" topic = [prefix; nth 1 (split "/" topic) ""; "set"]).
      { apply andb_prop in Hset as [Hlen Hlast].
        apply Nat.eqb_eq in Hlen. apply String.eqb_eq in Hlast.
        destruct (split "/" topic) as [|p0 [|p1 [|p2 [|p3 rest]]]];
          try discriminate Hlen.
        simpl in Hlast. subst p2. now exists p0. }
      destruct Hparts as [prefix Hparts].
      rewrite (batch_run env topic payload s prefix _ items Hparts Hjson). cbv zeta.
      destruct (spec_batch_items env items) as [|c cl'];
        [repeat apply conj; [reflexivity|simpl; lia|reflexivity|reflexivity]|].
      assert (Hecho : forall d cl,
                 filter (fun e => is_fetch e || is_insert e)
                   (echo_events env d cl) = [])
        by (intros d cl; induction cl; [reflexivity|assumption]).
      destruct (cloud_sendcommand _ _ _ _) as [[result|e] w];
        [destruct (method_get result "success") as [success|e];
         [destruct (truthy success)|]|];
        (repeat apply conj;
         [reflexivity
         |unfold events_of, snd; rewrite ?filter_app, ?echo_events_no_dispatch;
          simpl; lia
         |unfold events_of, snd; rewrite ?filter_app, ?echo_events_no_dispatch;
          discriminate
         |unfold events_of, snd; rewrite ?filter_app, ?Hecho; reflexivity]).
    + rewrite (ignored_run env topic payload s Hlt Hset).
      repeat apply conj; [reflexivity|simpl; lia|reflexivity|reflexivity].
Qed.

(** X9. The one exception that leaves the callback is the
    [UnicodeDecodeError] of line 139, for a payload that is not UTF-8, and
    then nothing was printed or sent; on every other payload the callback
    returns normally, whatever the collaborators do. In both cases it
    sends at most one command to the cloud, leaves the process state as it
    was when it sends none, and never asks for a status or inserts a
    record. *)
Theorem callback_is_contained env topic raw s :
  let run := on_message env topic raw s in
  (well_formed_utf8 raw = true -> result_of run = Ok tt)
  /\ (well_formed_utf8 raw = false -> run = (Raise UnicodeDecodeError, s, []))
  /\ (length (filter is_dispatch (events_of run)) <= 1)%nat
  /\ (filter is_dispatch (events_of run) = [] -> state_of run = s)
  /\ filter (fun e => is_fetch e || is_insert e) (events_of run) = [].
Proof.
  cbv zeta. destruct (decode raw) as [payload|e] eqn:Hdec.
  - rewrite (on_message_decoded env topic raw payload s Hdec).
    destruct (on_payload_contained env topic payload s) as (Hok & Hone & Hstate & Hnone).
    unfold decode in Hdec.
    repeat apply conj; try assumption.
    + intros _. exact Hok.
    + intros Hbad. rewrite Hbad in Hdec. discriminate Hdec.
  - rewrite (on_message_undecodable env topic raw s e Hdec).
    pose proof (decode_raises raw e Hdec) as ->. unfold decode in Hdec.
    repeat apply conj; try reflexivity.
    + intros Hgood. rewrite Hgood in Hdec. discriminate Hdec.
    + simpl. lia.
Qed.

End BatchExtras.

Section SubscriptionExtras.
Context {World : Type}.
Implicit Types (env : Env World) (s : State World) (raw : bytes).

Lemma levels_match_spec filter levels :
  levels_match filter levels = true <->
  Forall2 (fun f t => f = "+" \/ f = t) filter levels.
Proof.
  revert levels. induction filter as [|f filter IH]; intros [|t levels]; simpl.
  - split; [constructor|reflexivity].
  - split; [discriminate|intros H; inversion H].
  - split; [discriminate|intros H; inversion H].
  - rewrite andb_true_iff, orb_true_iff, !String.eqb_eq, IH. split.
    + intros [Hf Hrest]. now constructor.
    + intros H. inversion H; subst. now split.
Qed.

Lemma matches_single_filter topic :
  mqtt_matches (MQTT_TOPIC_PREFIX ++ "/+/+/set") topic = true <->
  exists device_id code,
    split "/" topic = [MQTT_TOPIC_PREFIX; device_id; code; "set"].
Proof.
  unfold mqtt_matches.
  change (split "/" (MQTT_TOPIC_PREFIX ++ "/+/+/set")) with ["tuya"; "+"; "+"; "set"].
  rewrite levels_match_spec. split.
  - intros H.
    inversion H as [|f1 p fs1 ts1 [Hp|Hp] R1]; subst; [discriminate Hp|].
    inversion R1 as [|f2 d fs2 ts2 _ R2]; subst.
    inversion R2 as [|f3 c fs3 ts3 _ R3]; subst.
    inversion R3 as [|f4 l fs4 ts4 [Hl|Hl] R4]; subst; [discriminate Hl|].
    inversion R4; subst. now exists d, c.
  - intros (d & c & ->).
    constructor; [now right|]. constructor; [now left|].
    constructor; [now left|]. constructor; [now right|]. constructor.
Qed.

Lemma matches_batch_filter topic :
  mqtt_matches (MQTT_TOPIC_PREFIX ++ "/+/set") topic = true <->
  exists device_id, split "/" topic = [MQTT_TOPIC_PREFIX; device_id; "set"].
Proof.
  unfold mqtt_matches.
  change (split "/" (MQTT_TOPIC_PREFIX ++ "/+/set")) with ["tuya"; "+"; "set"].
  rewrite levels_match_spec. split.
  - intros H.
    inversion H as [|f1 p fs1 ts1 [Hp|Hp] R1]; subst; [discriminate Hp|].
    inversion R1 as [|f2 d fs2 ts2 _ R2]; subst.
    inversion R2 as [|f3 l fs3 ts3 [Hl|Hl] R3]; subst; [discriminate Hl|].
    inversion R3; subst. now exists d.
  - intros (d & ->).
    constructor; [now right|]. constructor; [now left|].
    constructor; [now right|]. constructor.
Qed.

(** X3. [on_connect] subscribes only when the broker accepted the
    connection, and the topics its two filters let through are exactly the
    topics of the two documented command shapes. *)
Theorem subscriptions_are_the_documented_shapes broker port topic :
  (forall rc filter, rc <> 0%Z -> ~ In (SSubscribe filter) (on_connect broker port rc))
  /\ ((exists filter,
         In (SSubscribe filter) (on_connect broker port 0)
         /\ mqtt_matches filter topic = true)
      <-> spec_topic_shape topic <> OtherShape).
Proof.
  split.
  - intros rc filter Hrc. unfold on_connect.
    apply Z.eqb_neq in Hrc. rewrite Hrc. intros [H|[]]. discriminate H.
  - split.
    + intros (filter & Hin & Hmatch). unfold on_connect in Hin.
      cbn [Z.eqb In] in Hin.
      destruct Hin as [H|[H|[H|[H|[]]]]]; try discriminate H;
        injection H as <-.
      * apply matches_single_filter in Hmatch as (d & c & Hparts).
        unfold spec_topic_shape. rewrite Hparts. discriminate.
      * apply matches_batch_filter in Hmatch as (d & Hparts).
        unfold spec_topic_shape. rewrite Hparts. discriminate.
    + intros Hshape. destruct (spec_topic_shape topic) as [d c|d|] eqn:Hs;
        [| |now destruct Hshape].
      * exists (MQTT_TOPIC_PREFIX ++ "/+/+/set")%string. split.
        -- right. now left.
        -- apply matches_single_filter. exists d, c.
           now apply spec_topic_shape_single.
      * exists (MQTT_TOPIC_PREFIX ++ "/+/set")%string. split.
        -- right. right. now left.
        -- apply matches_batch_filter. exists d.
           now apply spec_topic_shape_batch.
Qed.



End SubscriptionExtras.

(** ** The polling loop, round by round *)

Section RoundExtras.
Context {World : Type}.
Implicit Types (env : Env World) (s : State World).

(** The item loop read as two lists: what it publishes and prints, and
    what it stores or raises. *)
Lemma publish_items_run env device_id device_data status_list s :
  publish_items env device_id device_data status_list s =
  (match first_failure status_list with
   | None => Ok (store_points (scaled_points status_list) device_data)
   | Some e => Raise e
   end,
   s, flat_map (point_events env device_id) (scaled_points status_list)).
Proof.
  revert device_data. induction status_list as [|item l IH]; intros d.
  - reflexivity.
  - simpl publish_items. unfold bind. destruct item as [|code [raw|]].
    + simpl. rewrite IH. reflexivity.
    + rewrite publish_item_run. simpl.
      destruct (scale code raw) as [v|e]; [|reflexivity].
      rewrite IH. reflexivity.
    + reflexivity.
Qed.

Lemma publish_snapshot_run env device_id device_name status_list t s :
  publish_snapshot env device_id device_name status_list t s =
  let shown :=
    EPrint (LogDeviceHeader device_name)
    :: flat_map (point_events env device_id) (scaled_points status_list) in
  match first_failure status_list with
  | None =>
      let device_data := store_points (scaled_points status_list) [] in
      (Ok device_data, s,
       shown
       ++ [EPublish (telemetry_topic device_id)
             (full_payload device_name device_id device_data
                (time_time env (world s)) t) true;
           EPublish (discovery_topic device_id)
             (discovery_payload device_name device_id) true])
  | Some e => (Raise e, s, shown)
  end.
Proof.
  unfold publish_snapshot, bind, print, emit. rewrite publish_items_run.
  destruct (first_failure status_list) as [e|]; reflexivity.
Qed.

Lemma point_events_publishes env device_id points :
  filter is_publish (flat_map (point_events env device_id) points) =
  map (fun cv => EPublish (state_topic device_id (fst cv))
                   (Text (format_value env (snd cv))) true) points.
Proof.
  induction points as [|cv points IH]; [reflexivity|]. simpl. now rewrite IH.
Qed.

Lemma gate_events_no_publish t :
  forallb is_gate_event t = true -> filter is_publish t = [].
Proof.
  intros H. apply (filter_none is_gate_event); [exact H|].
  intros [| | | |[]]; simpl; congruence.
Qed.

(** X10. A round whose status list can be processed publishes, in this
    order: one retained state message per data point of the list, in list
    order, carrying its scaled and formatted value; the retained telemetry
    message with the snapshot built from those points; the retained
    discovery message. Nothing else is published in the round. *)
Theorem healthy_round_publishes env device device_id status_list t w s :
  dev_id device = Some device_id ->
  device_id <> "" ->
  cloud_getstatus env device_id (world s) = (Ok (WithResult status_list t), w) ->
  first_failure status_list = None ->
  filter is_publish (events_of (process_device env device s)) =
  map (fun cv => EPublish (state_topic device_id (fst cv))
                   (Text (format_value env (snd cv))) true)
      (scaled_points status_list)
  ++ [EPublish (telemetry_topic device_id)
        (full_payload (device_name_of device) device_id
           (store_points (scaled_points status_list) []) (time_time env w) t) true;
      EPublish (discovery_topic device_id)
        (discovery_payload (device_name_of device) device_id) true].
Proof.
  intros Hid Hne Hstatus Hfine. apply String.eqb_neq in Hne.
  rewrite process_device_run, Hid, Hne, Hstatus, publish_snapshot_run, Hfine.
  cbv zeta.
  pose proof (log_snapshot_emits env device_id (device_name_of device)
                (store_points (scaled_points status_list) []) (with_world s w))
    as Hgate.
  unfold events_of in *.
  match goal with
  | |- context [log_snapshot ?a ?b ?c ?d ?e] =>
      destruct (log_snapshot a b c d e) as [[r2 s2] t2]
  end.
  cbn [snd] in *. rewrite <- !app_comm_cons. cbn [filter is_publish].
  rewrite !filter_app, point_events_publishes, (gate_events_no_publish t2 Hgate).
  simpl. now rewrite app_nil_r.
Qed.

(** X11. An item that has a code but no value, or a value that does not
    scale, ends the round and the cycle where it stands: the state
    messages of the points before it stay published, no telemetry or
    discovery message is published for the device, the gate is not
    reached, the error is printed at the cycle boundary, and the devices
    after it are not fetched in that cycle. *)
Theorem failing_item_ends_the_cycle env device rest device_id status_list t w s e :
  dev_id device = Some device_id ->
  device_id <> "" ->
  cloud_getstatus env device_id (world s) = (Ok (WithResult status_list t), w) ->
  first_failure status_list = Some e ->
  poll_cycle env (device :: rest) s =
  (Ok tt, with_world s w,
   EGetStatus device_id
   :: EPrint (LogDeviceHeader (device_name_of device))
   :: flat_map (point_events env device_id) (scaled_points status_list)
   ++ [EPrint (LogPollError e)]).
Proof.
  intros Hid Hne Hstatus Hfail. apply String.eqb_neq in Hne.
  rewrite poll_cycle_run, for_each_cons, process_device_run.
  rewrite Hid, Hne, Hstatus, publish_snapshot_run, Hfail. reflexivity.
Qed.

End RoundExtras.

(** ** The snapshot of a round *)

Lemma dict_get_set_same k v d : dict_get k (dict_set k v d) = Some v.
Proof.
  induction d as [|[k' v'] d IH]; simpl.
  - now rewrite String.eqb_refl.
  - destruct (k' =? k) eqn:Hk; simpl; [now rewrite String.eqb_refl|].
    now rewrite Hk.
Qed.

Lemma dict_get_set_other k k' v d :
  k <> k' -> dict_get k' (dict_set k v d) = dict_get k' d.
Proof.
  intros Hne. induction d as [|[k0 v0] d IH]; simpl.
  - apply String.eqb_neq in Hne. now rewrite Hne.
  - destruct (k0 =? k) eqn:Hk; simpl.
    + apply String.eqb_eq in Hk. subst k0. apply String.eqb_neq in Hne.
      now rewrite Hne.
    + now rewrite IH.
Qed.

Lemma dict_set_keys k v d x :
  In x (map fst (dict_set k v d)) <-> x = k \/ In x (map fst d).
Proof.
  induction d as [|[k0 v0] d IH]; simpl.
  - intuition.
  - destruct (k0 =? k) eqn:Hk; simpl.
    + apply String.eqb_eq in Hk. subst k0. intuition.
    + rewrite IH. intuition.
Qed.

Lemma dict_set_nodup k v d : NoDup (map fst d) -> NoDup (map fst (dict_set k v d)).
Proof.
  induction d as [|[k0 v0] d IH]; simpl; intros Hd.
  - repeat constructor. intros [].
  - inversion Hd as [|? ? Hnotin Hrest]; subst.
    destruct (k0 =? k) eqn:Hk; simpl.
    + apply String.eqb_eq in Hk. subst k0. now constructor.
    + constructor; [|now apply IH].
      rewrite dict_set_keys. intros [->|Hin]; [|contradiction].
      now rewrite String.eqb_refl in Hk.
Qed.

Lemma dict_get_in_keys k d : dict_get k d <> None <-> In k (map fst d).
Proof.
  induction d as [|[k0 v0] d IH]; simpl.
  - intuition.
  - destruct (String.eqb_spec k0 k) as [->|Hne].
    + split; [now left|discriminate].
    + rewrite IH. intuition.
Qed.

Lemma store_points_app before after d :
  store_points (before ++ after) d = store_points after (store_points before d).
Proof. apply fold_left_app. Qed.

Lemma store_points_keys points d x :
  In x (map fst (store_points points d)) <->
  In x (map fst points) \/ In x (map fst d).
Proof.
  revert d. induction points as [|[c v] points IH]; intros d; simpl.
  - intuition.
  - change (store_points ((c, v) :: points) d)
      with (store_points points (dict_set c v d)).
    rewrite IH, dict_set_keys. intuition.
Qed.

Lemma store_points_nodup points d :
  NoDup (map fst d) -> NoDup (map fst (store_points points d)).
Proof.
  revert d. induction points as [|[c v] points IH]; intros d Hd; [exact Hd|].
  apply (IH (dict_set c v d)), dict_set_nodup, Hd.
Qed.

Lemma store_points_other points d code :
  ~ In code (map fst points) ->
  dict_get code (store_points points d) = dict_get code d.
Proof.
  revert d. induction points as [|[c v] points IH]; intros d Hnotin; [reflexivity|].
  simpl in Hnotin.
  change (store_points ((c, v) :: points) d)
    with (store_points points (dict_set c v d)).
  rewrite IH; [|intuition]. apply dict_get_set_other. intuition.
Qed.

Section SnapshotExtras.
Context {World : Type}.
Implicit Types (env : Env World) (s : State World).

(** X12. The snapshot a round builds has one entry per code of the status
    list, and under each code the scaled value of the last data point with
    that code: an earlier point with the same code is published on its
    state topic but overwritten in the snapshot. *)
Theorem snapshot_holds_the_last_values
    env device_id device_name status_list t s device_data :
  result_of (publish_snapshot env device_id device_name status_list t s) =
  Ok device_data ->
  NoDup (map fst device_data)
  /\ (forall code,
        dict_get code device_data <> None <->
        In code (map fst (scaled_points status_list)))
  /\ (forall before code v after,
        scaled_points status_list = before ++ (code, v) :: after ->
        ~ In code (map fst after) ->
        dict_get code device_data = Some v).
Proof.
  rewrite publish_snapshot_run. cbv zeta.
  destruct (first_failure status_list) as [e|]; [discriminate|].
  unfold result_of. simpl. intros [= <-]. repeat apply conj.
  - apply store_points_nodup. constructor.
  - intros code. rewrite dict_get_in_keys, store_points_keys. simpl. intuition.
  - intros before code v after Hpoints Hlast.
    rewrite Hpoints, store_points_app.
    change (store_points ((code, v) :: after) (store_points before []))
      with (store_points after (dict_set code v (store_points before []))).
    rewrite (store_points_other _ _ _ Hlast). apply dict_get_set_same.
Qed.

Lemma logging_gate_prints_only device_name device_data s e :
  In e (events_of (@logging_gate World device_name device_data s)) ->
  exists line, e = EPrint line.
Proof.
  assert (Hg : emits (fun e => match e with EPrint _ => true | _ => false end)
                 (@logging_gate World device_name device_data))
    by (unfold logging_gate, print; emits_tac).
  specialize (Hg s). rewrite forallb_forall in Hg.
  intros Hin. specialize (Hg e Hin). destruct e; try discriminate Hg. eauto.
Qed.

Lemma log_snapshot_inserts env device_id device_name device_data s doc :
  In (EInsert doc) (events_of (log_snapshot env device_id device_name device_data s)) ->
  doc = {| doc_timestamp := time_time env (world s);
           doc_device_id := device_id;
           doc_device_name := device_name;
           doc_status := device_data;
           doc_source := "tuya_cloud_mqtt_bridge" |}.
Proof.
  unfold log_snapshot. destruct (collection env) as [insert_one|]; [|intros []].
  unfold bind.
  pose proof (logging_gate_prints_only device_name device_data s (EInsert doc))
    as Hgate.
  destruct (logging_gate_run device_name device_data s) as [tg Hrun].
  rewrite Hrun in Hgate |- *. unfold events_of in Hgate. simpl in Hgate.
  destruct (gate_should_log _ _).
  - rewrite insert_snapshot_run. cbv zeta. simpl world.
    destruct (insert_one _ _) as [r w]. unfold events_of. simpl.
    intros Hin. apply in_app_or in Hin as [Hin|[Hin|[Hin|[]]]].
    + destruct (Hgate Hin) as [line Hline]. discriminate Hline.
    + now injection Hin as <-.
    + discriminate Hin.
  - unfold events_of. simpl. rewrite app_nil_r. intros Hin.
    destruct (Hgate Hin) as [line Hline]. discriminate Hline.
Qed.

(** X13. A record handed to the database in a round carries the id and
    the name of the round's device, the fixed source tag, and as status
    the very snapshot the round has published on the device's telemetry
    topic. *)
Theorem inserted_record_is_the_published_snapshot env device device_id s doc :
  dev_id device = Some device_id ->
  In (EInsert doc) (events_of (process_device env device s)) ->
  doc_device_id doc = device_id
  /\ doc_device_name doc = device_name_of device
  /\ doc_source doc = "tuya_cloud_mqtt_bridge"
  /\ exists timestamp t,
       In (EPublish (telemetry_topic device_id)
             (full_payload (device_name_of device) device_id (doc_status doc)
                timestamp t) true)
          (events_of (process_device env device s)).
Proof.
  intros Hid. rewrite process_device_run, Hid.
  destruct (device_id =? ""); [intros []|].
  destruct (cloud_getstatus env device_id (world s)) as [[[status_list t|]|e] w];
    try (unfold events_of; simpl; intros [H|[]]; discriminate H).
  rewrite publish_snapshot_run. cbv zeta.
  assert (Hshown : forall l,
             ~ In (EInsert doc)
                 (EPrint (LogDeviceHeader (device_name_of device))
                  :: flat_map (point_events env device_id) l)).
  { intros l [H|H]; [discriminate H|].
    apply in_flat_map in H as (cv & _ & [H|[H|[]]]); discriminate H. }
  destruct (first_failure status_list) as [e|].
  - unfold events_of. cbn [snd]. intros [H|H]; [discriminate H|].
    now destruct (Hshown _ H).
  - pose proof (log_snapshot_inserts env device_id (device_name_of device)
                  (store_points (scaled_points status_list) []) (with_world s w) doc)
      as Hdoc.
    match goal with
    | |- context [log_snapshot ?a ?b ?c ?d ?e] =>
        destruct (log_snapshot a b c d e) as [[r2 s2] t2]
    end.
    unfold events_of in *. cbn [snd] in *.
    intros [H|H]; [discriminate H|].
    apply in_app_or in H as [H|H].
    + apply in_app_or in H as [H|[H|[H|[]]]]; try discriminate H.
      now destruct (Hshown _ H).
    + rewrite (Hdoc H).
      cbn [doc_device_id doc_device_name doc_source doc_status].
      repeat split.
      eexists _, _. apply in_cons, in_or_app. left. apply in_or_app. right.
      left. reflexivity.
Qed.

(** X14. Every message a round publishes is retained and goes to a topic
    of the round's own device: one of its state topics, its telemetry
    topic or its discovery topic. *)
Theorem round_publishes_under_its_device env device device_id s e :
  dev_id device = Some device_id ->
  In e (events_of (process_device env device s)) ->
  own_publish device_id e.
Proof.
  intros Hid. rewrite process_device_run, Hid.
  destruct (device_id =? ""); [intros []|].
  destruct (cloud_getstatus env device_id (world s)) as [[[status_list t|]|e'] w];
    try (unfold events_of; simpl; intros [<-|[]]; exact I).
  rewrite publish_snapshot_run. cbv zeta.
  assert (Hshown : forall l x,
             In x (EPrint (LogDeviceHeader (device_name_of device))
                   :: flat_map (point_events env device_id) l) ->
             own_publish device_id x).
  { intros l x [<-|H]; [exact I|].
    apply in_flat_map in H as (cv & _ & [<-|[<-|[]]]); [|exact I].
    simpl. split; [reflexivity|]. left. now exists (fst cv). }
  destruct (first_failure status_list) as [e'|].
  - unfold events_of. cbn [snd]. intros [<-|H]; [exact I|].
    apply (Hshown _ _ H).
  - pose proof (log_snapshot_emits env device_id (device_name_of device)
                  (store_points (scaled_points status_list) []) (with_world s w))
      as Hgate.
    match goal with
    | |- context [log_snapshot ?a ?b ?c ?d ?e] =>
        destruct (log_snapshot a b c d e) as [[r2 s2] t2]
    end.
    unfold events_of in *. cbn [snd] in *.
    intros [<-|H]; [exact I|].
    apply in_app_or in H as [H|H].
    + apply in_app_or in H as [H|[<-|[<-|[]]]].
      * apply (Hshown _ _ H).
      * simpl. split; [reflexivity|]. right. now left.
      * simpl. split; [reflexivity|]. right. now right.
    + rewrite forallb_forall in Hgate. specialize (Hgate e H).
      destruct e as [| | | |[]]; try exact I; discriminate Hgate.
Qed.

End SnapshotExtras.

(** ** The gate and the loop as a whole *)

Section LoopExtras.
Context {World : Type}.
Implicit Types (env : Env World) (s : State World).

(** X15. For the governing device the gate takes whatever value stands
    under ["switch"], of any type but [None], as the new flag, and logs
    the device exactly when that value is true in the sense of [if]; the
    line "Din Rail is OFF" is printed only for the boolean [False]. So a
    switch reported as the string ["OFF"] keeps logging on, and one
    reported as [0] turns it off without that line. *)
Theorem governing_switch_is_read_by_truth_value device_data s v :
  dict_get "switch" device_data = Some v ->
  is_None v = false ->
  logging_gate DIN_RAIL device_data s =
  (Ok (truthy v), {| world := world s; din_rail_is_on := v |},
   (if is_False v then [EPrint LogDinRailOff] else [])
   ++ (if truthy v then [] else [EPrint LogSkippedMainPowerOff])).
Proof.
  intros Hsw Hsome.
  unfold logging_gate, get_or_none, bind, get_din, set_din, print, emit, ret.
  rewrite Hsw, Hsome. destruct s as [w din]. cbn -[truthy is_False].
  destruct (is_False v); cbn -[truthy]; destruct (truthy v); reflexivity.
Qed.

Lemma main_loop_returns env devices n s :
  result_of (main_loop env devices n s) = Ok tt.
Proof.
  revert s. induction n as [|n IH]; intros s; [reflexivity|].
  simpl main_loop. unfold bind. rewrite poll_cycle_run.
  destruct (for_each _ devices s) as [[[u|e] s1] t1];
    specialize (IH s1); destruct (main_loop env devices n s1) as [[r s2] t2];
    exact IH.
Qed.

(** X16. The loop never lets an exception of a collaborator or of the
    processing out, so it goes on to the next cycle whatever happens in
    one, and it never sends a command to the cloud. *)
Theorem loop_is_contained env devices n s :
  result_of (poll_cycle env devices s) = Ok tt
  /\ result_of (main_loop env devices n s) = Ok tt
  /\ filter is_dispatch (events_of (main_loop env devices n s)) = [].
Proof.
  repeat apply conj.
  - rewrite poll_cycle_run.
    destruct (for_each _ devices s) as [[[u|e] s1] t1]; reflexivity.
  - apply main_loop_returns.
  - assert (Hemits : emits (fun e => negb (is_dispatch e)) (main_loop env devices n)).
    { induction n as [|n IH]; simpl; [apply emits_ret|].
      apply emits_bind; [|intros _; exact IH].
      unfold poll_cycle, print. apply emits_try_except.
      - apply emits_bind; [|intros _; apply emits_emit; reflexivity].
        apply emits_for_each. intros device _.
        eapply emits_weaken; [|apply process_device_emits].
        intros [| | | |]; simpl; congruence.
      - intros e. apply emits_emit. reflexivity. }
    apply (filter_none (fun e => negb (is_dispatch e))); [apply Hemits|].
    intros e He. now apply negb_true_iff.
Qed.

Lemma telemetry_events_no_fetch t :
  forallb is_telemetry_event t = true -> filter is_fetch t = [].
Proof.
  intros H. apply (filter_none is_telemetry_event); [exact H|].
  intros [| | | |[]]; simpl; congruence.
Qed.

Lemma gate_events_no_fetch t :
  forallb is_gate_event t = true -> filter is_fetch t = [].
Proof.
  intros H. apply (filter_none is_gate_event); [exact H|].
  intros [| | | |[]]; simpl; congruence.
Qed.

Lemma process_device_fetches env device s :
  filter is_fetch (events_of (process_device env device s)) =
  map EGetStatus (polled_ids [device]).
Proof.
  rewrite process_device_run. simpl polled_ids.
  destruct (dev_id device) as [device_id|]; [|reflexivity].
  destruct (device_id =? ""); [reflexivity|].
  destruct (cloud_getstatus env device_id (world s)) as [[[status_list t|]|e] w];
    try reflexivity.
  pose proof (publish_snapshot_emits env device_id (device_name_of device)
                status_list t (with_world s w)) as Hpub.
  destruct (publish_snapshot _ _ _ _ _ _) as [[[d|e] s1] t1];
    unfold events_of in *; cbn [snd] in *.
  - pose proof (log_snapshot_emits env device_id (device_name_of device) d s1)
      as Hgate.
    destruct (log_snapshot _ _ _ _ _) as [[r2 s2] t2].
    unfold events_of in *. cbn [snd filter is_fetch] in *.
    now rewrite filter_app, (telemetry_events_no_fetch _ Hpub),
      (gate_events_no_fetch _ Hgate).
  - cbn [filter is_fetch]. now rewrite (telemetry_events_no_fetch _ Hpub).
Qed.

Lemma polled_ids_cons device rest :
  polled_ids (device :: rest) = polled_ids [device] ++ polled_ids rest.
Proof.
  simpl. destruct (dev_id device) as [device_id|]; [|reflexivity].
  destruct (device_id =? ""); reflexivity.
Qed.

Lemma for_each_fetches env devices s :
  exists rest,
    map EGetStatus (polled_ids devices) =
    filter is_fetch (events_of (for_each (process_device env) devices s)) ++ rest
    /\ (forall u, result_of (for_each (process_device env) devices s) = Ok u ->
        rest = []).
Proof.
  revert s. induction devices as [|device devices IH]; intros s.
  - exists []. split; reflexivity.
  - rewrite for_each_cons, polled_ids_cons, map_app.
    pose proof (process_device_fetches env device s) as Hfetch.
    destruct (process_device env device s) as [[[u|e] s1] t1];
      unfold events_of, result_of in *; cbn [fst snd] in *.
    + destruct (IH s1) as (rest & Heq & Hdone).
      destruct (for_each _ devices s1) as [[r s2] t2].
      unfold events_of, result_of in *. cbn [fst snd] in *.
      exists rest. split; [|exact Hdone].
      now rewrite filter_app, Hfetch, Heq, app_assoc.
    + exists (map EGetStatus (polled_ids devices)). split.
      * now rewrite Hfetch.
      * intros u H. discriminate H.
Qed.

(** X17. In a cycle each device that has an id is asked for its status at
    most once, in list order: the status requests of the cycle are an
    initial part of the list of those ids, and the whole of it when the
    cycle runs to its end. *)
Theorem one_status_request_per_device env devices s :
  let t := events_of (poll_cycle env devices s) in
  (exists rest, map EGetStatus (polled_ids devices) = filter is_fetch t ++ rest)
  /\ (In (EPrint LogPollCompleted) t ->
      filter is_fetch t = map EGetStatus (polled_ids devices)).
Proof.
  cbv zeta. rewrite poll_cycle_run.
  destruct (for_each_fetches env devices s) as (rest & Heq & Hdone).
  assert (Hevents : forallb (fun e => is_fetch e || is_telemetry_event e
                                      || is_gate_event e)
                      (events_of (for_each (process_device env) devices s)) = true).
  { apply emits_for_each. intros device _. apply process_device_emits. }
  destruct (for_each _ devices s) as [[[u|e] s1] t1];
    unfold events_of, result_of in *; cbn [fst snd] in *.
  - rewrite (Hdone u eq_refl), app_nil_r in Heq.
    rewrite filter_app. simpl. rewrite app_nil_r. split.
    + exists []. now rewrite app_nil_r.
    + intros _. now rewrite Heq.
  - rewrite filter_app. simpl. rewrite app_nil_r. split.
    + now exists rest.
    + intros Hin. apply in_app_or in Hin as [Hin|[Hin|[]]]; [|discriminate Hin].
      rewrite forallb_forall in Hevents. specialize (Hevents _ Hin).
      discriminate Hevents.
Qed.

End LoopExtras.

(** ** The order of the rounds and the flag *)

Section OrderClaims.
Context {World : Type}.
Implicit Types (env : Env World) (s : State World).

(** The flag after a round of the governing device: it is the flag found,
    unless the handle is there, the device has an id, the request returned
    a status list, the publishing part went through and the snapshot has a
    value other than [None] under ["switch"]; then it is that value. *)
Lemma governing_round_flag env gov s0 :
  device_name_of gov = DIN_RAIL ->
  din_rail_is_on (state_of (process_device env gov s0)) = din_rail_is_on s0
  \/ exists insert_one gov_id status_list t w device_data s1 t1 v,
       collection env = Some insert_one
       /\ dev_id gov = Some gov_id /\ gov_id <> ""
       /\ cloud_getstatus env gov_id (world s0) = (Ok (WithResult status_list t), w)
       /\ publish_snapshot env gov_id DIN_RAIL status_list t (with_world s0 w) =
          (Ok device_data, s1, t1)
       /\ dict_get "switch" device_data = Some v /\ is_None v = false
       /\ din_rail_is_on (state_of (process_device env gov s0)) = v.
Proof.
  intros Hgov. rewrite process_device_run, Hgov.
  destruct (dev_id gov) as [gov_id|]; [|now left].
  destruct (gov_id =? "") eqn:Hne; [now left|]. apply String.eqb_neq in Hne.
  destruct (cloud_getstatus env gov_id (world s0)) as [[[status_list t|]|e] w] eqn:Hstatus;
    [|now left|now left].
  pose proof (publish_snapshot_keeps_din env gov_id DIN_RAIL status_list t
                (with_world s0 w)) as Hkeep.
  destruct (publish_snapshot env gov_id DIN_RAIL status_list t (with_world s0 w))
    as [[[device_data|e] s1] t1] eqn:Hpub;
    unfold state_of in Hkeep; cbn [fst snd with_world din_rail_is_on] in Hkeep;
    [|left; exact Hkeep].
  destruct (collection env) as [insert_one|] eqn:Hcoll;
    [|left; unfold log_snapshot; rewrite Hcoll; exact Hkeep].
  assert (Hflag : din_rail_is_on
                    (state_of (let '(r2, s2, t2) :=
                                 log_snapshot env gov_id DIN_RAIL device_data s1 in
                               (r2, s2, EGetStatus gov_id :: t1 ++ t2)))
                  = gate_din DIN_RAIL device_data (din_rail_is_on s1)).
  { unfold log_snapshot. rewrite Hcoll. unfold bind.
    destruct (logging_gate_run DIN_RAIL device_data s1) as [tg Hgate].
    rewrite Hgate.
    destruct (gate_should_log _ _); [|reflexivity].
    rewrite insert_snapshot_run. cbv zeta.
    destruct (insert_one _ _) as [r w']. reflexivity. }
  rewrite Hflag.
  unfold gate_din, get_or_none. rewrite String.eqb_refl.
  destruct (dict_get "switch" device_data) as [v|] eqn:Hsw;
    [|left; exact Hkeep].
  destruct (is_None v) eqn:Hv; [left; exact Hkeep|].
  right. exists insert_one, gov_id, status_list, t, w, device_data, s1, t1, v.
  repeat split; assumption.
Qed.

(** C4, as the code has it. The loop takes the devices in list order: the
    status requests of a cycle follow the list. A dependent snapshot gets
    as [should_log] the truth value of the flag it finds, and the rounds
    of devices other than the governing one leave the flag, so a dependent
    device listed before the governing one is evaluated against the flag
    the cycle started with. When no device listed before the governing one
    is the dependent one, the run up to and including the governing device
    holds no dependent outcome and the rest of the list runs from the
    state the governing device left (if that run raised, the cycle ends
    there); so, when the governing device has an id, its fetch comes
    before every dependent outcome of the cycle. The round of the
    governing device changes the flag only when the handle is there, the
    device has an id, the request returned a status list, the publishing
    part went through and the snapshot has a value under ["switch"]; then
    the flag is that value. When the request returns no ['result'] the
    round is the request alone and the flag stays. *)
Theorem governing_first_when_listed_first env pre gov post s :
  (forall d, In d pre -> device_name_of d <> TWO_CH) ->
  device_name_of gov = DIN_RAIL ->
  (forall devices,
     exists rest,
       map EGetStatus (polled_ids devices) =
       filter is_fetch (events_of (poll_cycle env devices s)) ++ rest)
  /\ (forall device_data s',
        result_of (logging_gate TWO_CH device_data s') =
        Ok (truthy (din_rail_is_on s')))
  /\ (forall before s',
        (forall d, In d before -> device_name_of d <> DIN_RAIL) ->
        din_rail_is_on (state_of (for_each (process_device env) before s')) =
        din_rail_is_on s')
  /\ (let '(r1, s1, t1) := for_each (process_device env) (pre ++ [gov]) s in
      filter is_dependent_outcome t1 = []
      /\ for_each (process_device env) (pre ++ gov :: post) s =
         match r1 with
         | Ok _ =>
             let '(r2, s2, t2) := for_each (process_device env) post s1 in
             (r2, s2, t1 ++ t2)
         | Raise e => (Raise e, s1, t1)
         end)
  /\ (forall gov_id,
        dev_id gov = Some gov_id -> gov_id <> "" ->
        governing_fetched_first gov_id
          (events_of (poll_cycle env (pre ++ gov :: post) s)) = true)
  /\ (forall s0,
        din_rail_is_on (state_of (process_device env gov s0)) = din_rail_is_on s0
        \/ exists insert_one gov_id status_list t w device_data s1 t1 v,
             collection env = Some insert_one
             /\ dev_id gov = Some gov_id /\ gov_id <> ""
             /\ cloud_getstatus env gov_id (world s0) =
                (Ok (WithResult status_list t), w)
             /\ publish_snapshot env gov_id DIN_RAIL status_list t (with_world s0 w) =
                (Ok device_data, s1, t1)
             /\ dict_get "switch" device_data = Some v /\ is_None v = false
             /\ din_rail_is_on (state_of (process_device env gov s0)) = v)
  /\ (forall gov_id insert_one s0 status_list t w device_data s1 t1 v,
        dev_id gov = Some gov_id -> gov_id <> "" ->
        collection env = Some insert_one ->
        cloud_getstatus env gov_id (world s0) = (Ok (WithResult status_list t), w) ->
        publish_snapshot env gov_id DIN_RAIL status_list t (with_world s0 w) =
        (Ok device_data, s1, t1) ->
        dict_get "switch" device_data = Some v -> is_None v = false ->
        din_rail_is_on (state_of (process_device env gov s0)) = v)
  /\ (forall gov_id s0 w,
        dev_id gov = Some gov_id -> gov_id <> "" ->
        cloud_getstatus env gov_id (world s0) = (Ok WithoutResult, w) ->
        process_device env gov s0 = (Ok tt, with_world s0 w, [EGetStatus gov_id])).
Proof.
  intros Hpre Hgov.
  assert (Hnodep : forall l s',
             (forall d, In d l -> device_name_of d <> TWO_CH) ->
             forallb (fun e => negb (is_dependent_outcome e))
               (events_of (for_each (process_device env) l s')) = true).
  { intros l s' Hl. apply emits_for_each. intros d Hd.
    apply process_device_not_dependent, Hl, Hd. }
  assert (Hgov' : device_name_of gov <> TWO_CH) by (rewrite Hgov; discriminate).
  split; [|split; [|split; [|split; [|split; [|split; [|split]]]]]].
  - intros devices. rewrite poll_cycle_run.
    destruct (for_each_fetches env devices s) as (rest & Heq & _).
    assert (Hprint : forall (r : result unit) s1 t1 (l : log_line),
               filter is_fetch (events_of (r, s1, t1 ++ [EPrint l])) =
               filter is_fetch (events_of (r, s1, t1))).
    { intros r s1 t1 l. unfold events_of. cbn [snd].
      rewrite filter_app. cbn. now rewrite app_nil_r. }
    destruct (for_each _ devices s) as [[[u|e] s1] t1];
      rewrite (Hprint (Ok tt)); exists rest; exact Heq.
  - intros device_data s'. rewrite logging_gate_run_result.
    reflexivity.
  - intros before. induction before as [|d before IH]; intros s' Hbefore;
      [reflexivity|].
    rewrite for_each_cons.
    pose proof (process_device_keeps_din env d (Hbefore d (or_introl eq_refl)) s')
      as Hd.
    destruct (process_device env d s') as [[[u|e] s1] t1];
      unfold state_of in *; cbn [fst snd] in *; [|exact Hd].
    specialize (IH s1 (fun x Hx => Hbefore x (or_intror Hx))).
    destruct (for_each _ before s1) as [[r s2] t2]. cbn [fst snd] in *. congruence.
  - pose proof (Hnodep (pre ++ [gov]) s) as Hall.
    replace (pre ++ gov :: post) with ((pre ++ [gov]) ++ post)
      by (now rewrite <- app_assoc).
    rewrite (for_each_app (process_device env) (pre ++ [gov]) post s).
    destruct (for_each _ (pre ++ [gov]) s) as [[[u|e] s1] t1]; unfold events_of in Hall;
      simpl in Hall; (split; [|reflexivity]);
      (apply (filter_none (fun e => negb (is_dependent_outcome e)));
       [apply Hall; intros d Hd; apply in_app_or in Hd as [Hd|[<-|[]]]; auto
       |intros x Hx; now apply negb_true_iff]).
  - intros gov_id Hid Hne. apply String.eqb_neq in Hne.
    rewrite poll_cycle_run, for_each_app.
    pose proof (Hnodep pre s Hpre) as Hall.
    destruct (for_each _ pre s) as [[[u|e] s1] t1]; unfold events_of in *;
      simpl in Hall; cbv beta iota.
    + rewrite for_each_cons, process_device_run, Hid, Hne.
      destruct (cloud_getstatus env gov_id (world s1)) as [[[status_list t|]|e] w].
      * destruct (publish_snapshot _ _ _ _ _ _) as [[[d|e] s2] t2].
        -- destruct (log_snapshot _ _ _ _ _) as [[[u2|e2] s3] t3].
           ++ destruct (for_each _ post s3) as [[[u3|e3] s4] t4]; simpl;
                rewrite <- !app_assoc; simpl;
                now apply governing_fetched_first_app.
           ++ simpl. rewrite <- !app_assoc. simpl.
              now apply governing_fetched_first_app.
        -- simpl. rewrite <- !app_assoc. simpl.
           now apply governing_fetched_first_app.
      * destruct (for_each _ post _) as [[[u3|e3] s4] t4]; simpl;
          rewrite <- !app_assoc; simpl; now apply governing_fetched_first_app.
      * simpl. rewrite <- !app_assoc. simpl. now apply governing_fetched_first_app.
    + apply governing_fetched_first_none. simpl.
      rewrite forallb_app, Hall. reflexivity.
  - intros s0. now apply governing_round_flag.
  - intros gov_id insert_one s0 status_list t w device_data s1 t1 v
      Hid Hne Hcoll Hstatus Hpub Hsw Hv.
    apply String.eqb_neq in Hne.
    rewrite process_device_run, Hid, Hne, Hstatus, Hgov, Hpub.
    unfold log_snapshot. rewrite Hcoll. unfold bind.
    destruct (logging_gate_run DIN_RAIL device_data s1) as [tg Hgate].
    rewrite Hgate.
    assert (Hdin : gate_din DIN_RAIL device_data (din_rail_is_on s1) = v)
      by (unfold gate_din, get_or_none; rewrite Hsw, Hv; reflexivity).
    rewrite Hdin.
    destruct (gate_should_log DIN_RAIL v); [|reflexivity].
    rewrite insert_snapshot_run. cbv zeta.
    destruct (insert_one _ _) as [r w']. reflexivity.
  - intros gov_id s0 w Hid Hne Hstatus. apply String.eqb_neq in Hne.
    rewrite process_device_run, Hid, Hne, Hstatus. reflexivity.
Qed.

End OrderClaims.

(** The governing device comes second and its switch is off: it is
    fetched before the dependent device is skipped, and the flag its round
    leaves is the switch value of its snapshot. Answered without
    ['result'], its round is the request alone. *)
Lemma governing_first_when_listed_first_witness :
  governing_fetched_first "gov"
    (events_of (poll_cycle (Demo.poller Demo.accepting)
                  ([Demo.lamp] ++ Demo.gov :: [Demo.dep]) (initial_state 0))) = true
  /\ din_rail_is_on
       (state_of (process_device (Demo.poller Demo.accepting) Demo.gov
                    (initial_state 1))) = VBool false
  /\ process_device Sample.silent_poller Demo.gov (initial_state 0) =
     (Ok tt, with_world (initial_state 0) 1, [EGetStatus "gov"]).
Proof.
  pose proof (governing_first_when_listed_first
                (Demo.poller Demo.accepting) [Demo.lamp] Demo.gov
                [Demo.dep] (initial_state 0)
                (fun d Hd =>
                   match Hd with
                   | or_introl Heq =>
                       eq_ind Demo.lamp
                         (fun d' => device_name_of d' <> TWO_CH)
                         ltac:(discriminate) d Heq
                   | or_intror Hnil => match Hnil with end
                   end)
                eq_refl) as (_ & _ & _ & _ & Hfetch & _ & Hflag & _).
  repeat apply conj.
  - apply (Hfetch "gov" eq_refl). discriminate.
  - apply (Hflag "gov" (fun _ w => (Ok (VStr "oid"), S w)) (initial_state 1)
             [DataPoint "switch" (Some (VBool false));
              DataPoint "cur_voltage" (Some (VInt 2305))]
             (Some (VInt 1700000000)) 2%nat
             [("switch", VBool false); ("cur_voltage", VFloat 230.5)]
             (with_world (initial_state 1) 2)
             (events_of (publish_snapshot (Demo.poller Demo.accepting) "gov" DIN_RAIL
                           [DataPoint "switch" (Some (VBool false));
                            DataPoint "cur_voltage" (Some (VInt 2305))]
                           (Some (VInt 1700000000)) (with_world (initial_state 1) 2)))
             (VBool false));
      try reflexivity.
    discriminate.
  - apply (proj2 (proj2 (proj2 (proj2 (proj2 (proj2 (proj2
             (governing_first_when_listed_first Sample.silent_poller [] Demo.gov []
                (initial_state 0) (fun d Hd => match Hd with end) eq_refl)))))))
             "gov" (initial_state 0) 1%nat eq_refl).
    + discriminate.
    + reflexivity.
Defined.

(** The governing device is listed first but its status request is
    answered without ['result']: its snapshot is not processed, the flag
    stays, and the dependent device is inserted against the flag found. *)
Example governing_without_result_is_passed_over :
  filter (fun e => is_fetch e || is_insert e)
    (events_of (poll_cycle Sample.silent_poller [Demo.gov; Demo.dep] (initial_state 0))) =
  [EGetStatus "gov"; EGetStatus "dep";
   EInsert {| doc_timestamp := 2; doc_device_id := "dep";
              doc_device_name := TWO_CH;
              doc_status := [("switch_1", VBool true)];
              doc_source := "tuya_cloud_mqtt_bridge" |}]
  /\ din_rail_is_on
       (state_of (poll_cycle Sample.silent_poller [Demo.gov; Demo.dep]
                    (initial_state 0))) = VBool true.
Proof. split; reflexivity. Qed.

(** ** From the startup to the loop *)

Section StartupExtras.
Context {World : Type}.
Implicit Types (boot : Boot World) (w : World).

Lemma list_devices_run i entries w :
  exists t,
    list_devices i entries w = (Continue tt, w, t)
    /\ filter is_mongo_error t = [].
Proof.
  revert i. induction entries as [|entry entries IH]; intros i.
  - exists []. split; reflexivity.
  - destruct (IH (S i)) as (t & Hrun & Hnone).
    simpl list_devices. unfold bbind, bprint. rewrite Hrun.
    eexists. split; [reflexivity|]. exact Hnone.
Qed.

(** The device list the loop gets is what the cloud returned, and it is
    not empty; every other answer ends the process with status 1. *)
Lemma fetch_devices_cases boot w :
  match fetch_devices boot w with
  | (Continue devices, w', t) =>
      devices <> []
      /\ cloud_getdevices boot w = (Ok (DeviceList devices), w')
      /\ filter is_mongo_error t = []
      /\ In SGetDevices t
  | (SysExit status, w', t) =>
      status = 1%Z
      /\ (fst (cloud_getdevices boot w) = Ok (DeviceList [])
          \/ (exists v, fst (cloud_getdevices boot w) = Ok (NotAList v))
          \/ (exists e, fst (cloud_getdevices boot w) = Raise e))
  | (Uncaught _, _, _) => False
  end.
Proof.
  unfold fetch_devices, bbind, bprint, bcall, bret, sys_exit.
  destruct (cloud_getdevices boot w) as [[[entries|v]|e] w1]; cbn -[list_devices].
  - destruct (list_devices_run 1 entries w1) as (t & Hrun & Hnone).
    rewrite Hrun. destruct entries as [|entry entries]; cbn.
    + split; [reflexivity|]. now left.
    + repeat split; [discriminate| |right; now left].
      rewrite !app_nil_r. exact Hnone.
  - split; [reflexivity|]. right. left. now exists v.
  - split; [reflexivity|]. right. right. now exists e.
Qed.

(** The database never ends the process: [collection] is the handle when
    the client could be made and answered the ping, and [None], with the
    error printed, otherwise. *)
Lemma init_mongo_cases boot w :
  exists collection w' t,
    init_mongo boot w = (Continue collection, w', t)
    /\ (collection = None <-> exists e, In (SPrint (SetupMongoError e)) t)
    /\ (collection = None <->
        (exists e, fst (pymongo_MongoClient boot MONGO_URI
                          (getenv boot "MONGO_DB" "smart_office")
                          (getenv boot "MONGO_COLLECTION" "device_raw_data") w)
                   = Raise e)
        \/ (exists handle w1 e,
              pymongo_MongoClient boot MONGO_URI
                (getenv boot "MONGO_DB" "smart_office")
                (getenv boot "MONGO_COLLECTION" "device_raw_data") w
              = (Ok handle, w1)
              /\ fst (mongo_ping boot w1) = Raise e)).
Proof.
  unfold init_mongo, bbind, bprint, bcall, bret. cbn -[getenv].
  destruct (pymongo_MongoClient boot _ _ _ w) as [[handle|e] w1]; cbn -[getenv].
  - destruct (mongo_ping boot w1) as [[u|e] w2] eqn:Hping; cbn -[getenv].
    + eexists _, _, _. split; [reflexivity|]. split; split.
      * discriminate.
      * intros (e & [H|[H|[H|[H|[]]]]]); discriminate H.
      * discriminate.
      * intros [(e & H)|(h & w' & e & [= <- <-] & H)]; [discriminate H|].
        rewrite Hping in H. discriminate H.
    + eexists _, _, _. split; [reflexivity|]. split; split.
      * intros _. exists e. right. right. right. now left.
      * reflexivity.
      * intros _. right. exists handle, w1, e. split; [reflexivity|].
        now rewrite Hping.
      * reflexivity.
  - eexists _, _, _. split; [reflexivity|]. split; split.
    + intros _. exists e. right. right. now left.
    + reflexivity.
    + intros _. left. now exists e.
    + reflexivity.
Qed.

(** The client is made at the first or at the second attempt, or the
    exception of the failed attempt ends the process. *)
Lemma make_client_cases boot w :
  match make_client boot w with
  | (Continue _, w', t) => filter is_mongo_error t = []
  | (SysExit _, _, _) => False
  | (Uncaught e, w', t) =>
      exists versioned w0, fst (mqtt_Client boot versioned w0) = Raise e
  end.
Proof.
  unfold make_client, bbind, bcall, bret, uncaught.
  destruct (mqtt_Client boot true w) as [[u|e] w1] eqn:Hfirst; cbn.
  - reflexivity.
  - destruct e; cbn; try (exists true, w; now rewrite Hfirst).
    destruct (mqtt_Client boot false w1) as [[u|e] w2] eqn:Hsecond; cbn.
    + reflexivity.
    + exists false, w1. now rewrite Hsecond.
Qed.

Lemma connect_mqtt_cases boot port w :
  match connect_mqtt boot port w with
  | (Continue _, w', t) =>
      In SMqttLoopStart t /\ filter is_mongo_error t = []
  | (SysExit status, w', t) => status = 1%Z
  | (Uncaught _, _, _) => False
  end.
Proof.
  unfold connect_mqtt, bbind, bprint, bcall, bret, sys_exit.
  destruct (mqtt_connect boot _ _ _ w) as [[u|e] w1]; cbn -[getenv];
    [|reflexivity].
  destruct (mqtt_loop_start boot w1) as [[u'|e] w2]; cbn -[getenv];
    [|reflexivity].
  split; [right; now left|reflexivity].
Qed.

(** What the three ways out of the startup tell. *)
Lemma startup_cases boot w :
  match startup boot w with
  | (Continue (devices, collection), w', t) =>
      py_int boot (getenv boot "MQTT_PORT" "1883") <> None
      /\ getenv boot "TUYA_API_KEY" "" <> ""
      /\ getenv boot "TUYA_API_SECRET" "" <> ""
      /\ devices <> []
      /\ (exists entries w0 w1,
            cloud_getdevices boot w0 = (Ok (DeviceList entries), w1)
            /\ devices = map entry_device entries)
      /\ In SMqttLoopStart t
      /\ (collection = None <-> exists e, In (SPrint (SetupMongoError e)) t)
  | (SysExit status, w', t) =>
      status = 1%Z /\ py_int boot (getenv boot "MQTT_PORT" "1883") <> None
  | (Uncaught e, w', t) =>
      (e = ValueError
       /\ py_int boot (getenv boot "MQTT_PORT" "1883") = None
       /\ w' = w /\ t = [])
      \/ (py_int boot (getenv boot "MQTT_PORT" "1883") <> None
          /\ In SGetDevices t
          /\ exists versioned w0, fst (mqtt_Client boot versioned w0) = Raise e)
  end.
Proof.
  unfold startup, parse_port. cbv zeta.
  destruct (py_int boot (getenv boot "MQTT_PORT" "1883")) as [port|] eqn:Hport;
    [|left; repeat split].
  assert (Hparsed : Some port <> None) by discriminate.
  unfold bbind, bprint, bcall, bret, sys_exit.
  cbn -[getenv fetch_devices init_mongo make_client connect_mqtt String.eqb].
  destruct (getenv boot "TUYA_API_KEY" "" =? "") eqn:Hkey; [now split|].
  destruct (getenv boot "TUYA_API_SECRET" "" =? "") eqn:Hsecret; [now split|].
  cbn -[getenv fetch_devices init_mongo make_client connect_mqtt].
  destruct (tinytuya_Cloud boot _ _ _ w) as [[u|e] w1];
    cbn -[getenv fetch_devices init_mongo make_client connect_mqtt]; [|now split].
  pose proof (fetch_devices_cases boot w1) as Hfetch.
  destruct (fetch_devices boot w1) as [[[entries|st|e] w2] t2];
    cbn -[getenv init_mongo make_client connect_mqtt];
    [|split; [exact (proj1 Hfetch)|exact Hparsed]|destruct Hfetch].
  destruct Hfetch as (Hne & Hlist & Hnone2 & Hget).
  destruct (init_mongo_cases boot w2) as (c & w3 & t3 & Hmongo & Herr & _).
  rewrite Hmongo. cbn -[getenv make_client connect_mqtt].
  pose proof (make_client_cases boot w3) as Hclient.
  destruct (make_client boot w3) as [[[u'|st|e] w4] t4];
    cbn -[getenv connect_mqtt]; [|destruct Hclient|].
  2:{ right. split; [exact Hparsed|]. split; [|exact Hclient].
      right. right. right. apply in_or_app. left. exact Hget. }
  pose proof (connect_mqtt_cases boot port w4) as Hmqtt.
  destruct (connect_mqtt boot port w4) as [[[u''|st|e] w5] t5];
    cbn -[getenv]; [|split; [exact Hmqtt|exact Hparsed]|destruct Hmqtt].
  destruct Hmqtt as [Hstart Hnone5].
  apply String.eqb_neq in Hkey, Hsecret.
  repeat apply conj; try assumption.
  - intros Hmap. apply Hne. now destruct entries.
  - now exists entries, w1, w2.
  - right. right. right. apply in_or_app. right. apply in_or_app. right.
    apply in_or_app. right. apply in_or_app. left. exact Hstart.
  - intros Hc. destruct (proj1 Herr Hc) as [e He]. exists e.
    right. right. right. apply in_or_app. right. apply in_or_app. left. exact He.
  - intros (e & He).
    assert (Hnot : forall l, filter is_mongo_error l = [] ->
                             ~ In (SPrint (SetupMongoError e)) l).
    { intros l Hl Hin.
      assert (Hf : In (SPrint (SetupMongoError e)) (filter is_mongo_error l))
        by (apply filter_In; now split).
      now rewrite Hl in Hf. }
    destruct He as [He|[He|[He|He]]]; try discriminate He.
    apply in_app_or in He as [He|He]; [now destruct (Hnot _ Hnone2)|].
    apply in_app_or in He as [He|He]; [apply Herr; now exists e|].
    apply in_app_or in He as [He|He]; [now destruct (Hnot _ Hclient)|].
    apply in_app_or in He as [He|[He|[]]]; [now destruct (Hnot _ Hnone5)|].
    discriminate He.
Qed.


(** X19. When the database could not be reached at startup and the script
    gets to its loop, then however many cycles it runs, no record is ever
    handed to the database, the gate is never evaluated, and the flag
    stays [True]. *)
Theorem database_outage_at_startup_disables_logging boot env n w run t e :
  script boot env n w = (Continue run, t) ->
  In (SPrint (SetupMongoError e)) t ->
  filter is_gate_event (events_of run) = []
  /\ din_rail_is_on (state_of run) = VBool true.
Proof.
  unfold script. intros Hscript Herr.
  pose proof (startup_cases boot w) as Hstart.
  destruct (startup boot w) as [[[[devices collection]|st|e0] w'] t'];
    [|discriminate|discriminate].
  injection Hscript as <- <-.
  destruct Hstart as (_ & _ & _ & _ & _ & _ & Hcoll).
  assert (Hnone : collection = None) by (apply Hcoll; now exists e).
  subst collection.
  destruct (main_loop_no_collection (with_collection None env) devices n eq_refl)
    as [Hkeeps Hemits].
  split.
  - apply (filter_none (fun e => negb (is_gate_event e))); [apply Hemits|].
    intros x Hx. now apply negb_true_iff.
  - apply (Hkeeps (initial_state w')).
Qed.

End StartupExtras.

(** ** The further properties on concrete inputs *)

Lemma documented_topics_are_routed_witness :
  filter is_dispatch
    (events_of (on_message Demo.router "tuya/dev1/switch_1/set" (encode "off")
                  (initial_state 0))) =
  [ESendCommand "dev1" [("switch_1", VBool false)]]
  /\ filter is_dispatch
       (events_of (on_message Demo.router "tuya/dev1/set" (encode Demo.payload_mixed)
                     (initial_state 0))) =
     [ESendCommand "dev1" [("switch_1", VBool true)]].
Proof.
  split.
  - apply (proj1 (documented_topics_are_routed Demo.router "tuya/dev1/switch_1/set"
                    (encode "off") "off" (initial_state 0) eq_refl) "dev1" "switch_1").
    reflexivity.
  - apply (proj2 (documented_topics_are_routed Demo.router "tuya/dev1/set"
                    (encode Demo.payload_mixed) Demo.payload_mixed (initial_state 0)
                    eq_refl) "dev1"
             [("switch_1", VStr "ON"); ("brightness", VInt 50)]);
      reflexivity.
Defined.

Lemma subscriptions_are_the_documented_shapes_witness :
  ~ In (SSubscribe "tuya/+/set") (on_connect "localhost" 1883 5)
  /\ spec_topic_shape "tuya/dev1/switch_1/set" <> OtherShape.
Proof.
  split.
  - apply (proj1 (subscriptions_are_the_documented_shapes "localhost" 1883
                    "tuya/dev1/switch_1/set") 5%Z "tuya/+/set").
    discriminate.
  - apply (proj1 (proj2 (subscriptions_are_the_documented_shapes "localhost" 1883
                           "tuya/dev1/switch_1/set"))).
    exists "tuya/+/+/set". split; [right; now left|reflexivity].
Defined.


(** The callback by itself tests the number of levels only: handed such a
    topic directly, it would dispatch. The subscriptions are what keeps
    these topics away. *)
Example callback_alone_tests_the_level_count :
  mqtt_matches "tuya/+/+/set" "tuya/dev1/a/b/set" = false
  /\ mqtt_matches "tuya/+/set" "tuya/dev1/a/b/set" = false
  /\ filter is_dispatch
       (events_of (on_message Demo.router "tuya/dev1/a/b/set" (encode "50")
                     (initial_state 0))) =
     [ESendCommand "dev1" [("a", VStr "50")]].
Proof. repeat split. Qed.

Lemma advertised_command_topic_round_trip_witness :
  filter is_dispatch
    (events_of (on_message Demo.router (command_topic "dev1")
                  (encode Demo.payload_mixed) (initial_state 0))) =
  [ESendCommand "dev1" [("switch_1", VBool true)]]
  /\ filter is_dispatch
       (events_of (on_message Demo.router (command_topic "plant/dev1")
                     (encode Demo.payload_mixed) (initial_state 0))) =
     [ESendCommand "plant" [("dev1", VStr Demo.payload_mixed)]].
Proof.
  split.
  - apply (proj1 (proj2 (advertised_command_topic_round_trip Demo.router "Lamp"
                           "dev1" (encode Demo.payload_mixed) Demo.payload_mixed
                           (initial_state 0) eq_refl))
             [("switch_1", VStr "ON"); ("brightness", VInt 50)]);
      reflexivity.
  - apply (proj2 (proj2 (advertised_command_topic_round_trip Demo.router "Lamp"
                           "plant/dev1" (encode Demo.payload_mixed) Demo.payload_mixed
                           (initial_state 0) eq_refl))
             "plant" "dev1");
      reflexivity.
Defined.

Lemma on_off_round_trip_witness :
  single_value Demo.router "ON" = VBool true
  /\ batch_value Demo.router (VStr "OFF") = VBool false.
Proof.
  destruct (on_off_round_trip Demo.router eq_refl eq_refl) as [Hback _].
  split.
  - exact (proj1 (Hback true)).
  - exact (proj2 (Hback false)).
Defined.

Lemma accepted_batch_is_answered_then_echoed_witness :
  filter is_publish
    (events_of (on_message Demo.router "tuya/dev1/set" (encode Demo.payload_mixed)
                  (initial_state 0))) =
  EPublish "tuya/dev1/response"
    (JsonDumps
       (VDict [("status", VStr "success");
               ("msg", VStr "JSON Command sent: <container>");
               ("cmd", VList [VDict [("code", VStr "switch_1");
                                     ("value", VBool true)]])]))
    false
  :: echo_events Demo.router "dev1" [("switch_1", VBool true)].
Proof.
  apply (accepted_batch_is_answered_then_echoed Demo.router "tuya/dev1/set"
           (encode Demo.payload_mixed) Demo.payload_mixed (initial_state 0)
           "tuya" "dev1"
           [("switch_1", VStr "ON"); ("brightness", VInt 50)]
           (VDict [("success", VBool true)]) 1%nat (VBool true));
    try reflexivity.
  discriminate.
Defined.

Lemma refused_batch_is_not_echoed_witness :
  filter is_publish
    (events_of (on_message Sample.refusing_router "tuya/dev1/set"
                  (encode Demo.payload_mixed) (initial_state 0))) =
  [EPublish "tuya/dev1/response"
     (JsonDumps
        (VDict [("status", VStr "error");
                ("msg", VStr "JSON Command failed: <container>");
                ("result", VDict [("success", VBool false)])]))
     false].
Proof.
  apply (proj1 (refused_batch_is_not_echoed Sample.refusing_router "tuya/dev1/set"
                  (encode Demo.payload_mixed) Demo.payload_mixed (initial_state 0)
                  "tuya" "dev1"
                  [("switch_1", VStr "ON"); ("brightness", VInt 50)]
                  eq_refl eq_refl eq_refl)
           (VDict [("success", VBool false)]) 1%nat (VBool false));
    try reflexivity.
  discriminate.
Defined.

Lemma echo_is_what_the_poller_publishes_witness :
  echo_events Demo.router "dev1" [("switch_1", VBool true)] =
  filter is_publish
    (events_of (publish_item Demo.router "dev1" []
                  (DataPoint "switch_1" (Some (VBool true))) (initial_state 0))).
Proof.
  apply (echo_is_what_the_poller_publishes Demo.router
           [("switch_1", VStr "ON"); ("brightness", VInt 50)]).
  left. reflexivity.
Defined.

Lemma healthy_round_publishes_witness :
  filter is_publish
    (events_of (process_device Sample.poller Sample.meter (initial_state 0))) =
  map (fun cv => EPublish (state_topic "meter" (fst cv))
                   (Text (format_value Sample.poller (snd cv))) true)
      (scaled_points Sample.meter_status)
  ++ [EPublish (telemetry_topic "meter")
        (full_payload "Meter" "meter"
           (store_points (scaled_points Sample.meter_status) []) 1 (Some (VInt 7)))
        true;
      EPublish (discovery_topic "meter") (discovery_payload "Meter" "meter") true].
Proof.
  apply (healthy_round_publishes Sample.poller Sample.meter "meter"
           Sample.meter_status (Some (VInt 7)) 1%nat (initial_state 0));
    try reflexivity.
  discriminate.
Defined.

Lemma failing_item_ends_the_cycle_witness :
  poll_cycle Sample.poller [Sample.broken; Sample.meter] (initial_state 0) =
  (Ok tt, with_world (initial_state 0) 1,
   [EGetStatus "broken"; EPrint (LogDeviceHeader "Broken");
    EPublish "tuya/broken/switch/state" (Text "ON") true;
    EPrint (LogItem "switch" "ON");
    EPrint (LogPollError KeyError)]).
Proof.
  apply (failing_item_ends_the_cycle Sample.poller Sample.broken [Sample.meter]
           "broken" Sample.broken_status None 1%nat (initial_state 0) KeyError);
    try reflexivity.
  discriminate.
Defined.

Lemma snapshot_holds_the_last_values_witness :
  dict_get "cur_power"
    (store_points (scaled_points Sample.meter_status) []) = Some (VFloat 13).
Proof.
  apply (proj2 (proj2 (snapshot_holds_the_last_values Sample.poller "meter" "Meter"
                         Sample.meter_status (Some (VInt 7)) (initial_state 0)
                         (store_points (scaled_points Sample.meter_status) [])
                         eq_refl))
           [("cur_power", VFloat 12.5); ("switch", VBool true)]
           "cur_power" (VFloat 13) []).
  - reflexivity.
  - intros [].
Defined.

Lemma inserted_record_is_the_published_snapshot_witness :
  exists timestamp t,
    In (EPublish (telemetry_topic "meter")
          (full_payload "Meter" "meter"
             [("cur_power", VFloat 13); ("switch", VBool true)] timestamp t) true)
       (events_of (process_device Sample.poller Sample.meter (initial_state 0))).
Proof.
  apply (inserted_record_is_the_published_snapshot Sample.poller Sample.meter "meter"
           (initial_state 0)
           {| doc_timestamp := 1; doc_device_id := "meter";
              doc_device_name := "Meter";
              doc_status := [("cur_power", VFloat 13); ("switch", VBool true)];
              doc_source := "tuya_cloud_mqtt_bridge" |}
           eq_refl).
  do 10 right. left. reflexivity.
Defined.

Lemma round_publishes_under_its_device_witness :
  own_publish "meter"
    (EPublish "tuya/meter/switch/state" (Text "ON") true).
Proof.
  apply (round_publishes_under_its_device Sample.poller Sample.meter "meter"
           (initial_state 0) _ eq_refl).
  do 4 right. left. reflexivity.
Defined.

Lemma governing_switch_is_read_by_truth_value_witness :
  logging_gate DIN_RAIL [("switch", VStr "OFF")] (initial_state 0) =
  (Ok true, {| world := 0%nat; din_rail_is_on := VStr "OFF" |}, [])
  /\ logging_gate DIN_RAIL [("switch", VInt 0)] (initial_state 0) =
     (Ok false, {| world := 0%nat; din_rail_is_on := VInt 0 |},
      [EPrint LogSkippedMainPowerOff]).
Proof.
  split.
  - apply (governing_switch_is_read_by_truth_value [("switch", VStr "OFF")]
             (initial_state 0) (VStr "OFF")); reflexivity.
  - apply (governing_switch_is_read_by_truth_value [("switch", VInt 0)]
             (initial_state 0) (VInt 0)); reflexivity.
Defined.


Lemma database_outage_at_startup_disables_logging_witness :
  filter is_gate_event
    (events_of (main_loop (with_collection None Sample.poller) [Demo.gov; Demo.dep] 3
                  (initial_state 6))) = []
  /\ din_rail_is_on
       (state_of (main_loop (with_collection None Sample.poller) [Demo.gov; Demo.dep] 3
                    (initial_state 6))) = VBool true.
Proof.
  apply (database_outage_at_startup_disables_logging (Sample.boot false)
           Sample.poller 3 0%nat _ (snd (startup (Sample.boot false) 0%nat))
           (ExternalError "invalid URI") eq_refl).
  do 10 right. left. reflexivity.
Defined.
